(** * Lily58 OLED configurator: the HID transport protocol

    A shallow embedding of the protocol logic of [oled_configurator.py]
    (class [OLED_Configurator]): bitmap packing, the chunked panel transfer
    [send_to_oled], the version handshake [get_protocol_version], the polling
    read [read_with_timeout] and device discovery [connect_hid].

    Python integers are [Z]; list lengths and indices are [nat]; byte strings
    are [list Z] whose elements lie in [0, 256).  The [hid] library and the
    wall clock are an interface ([HidApi]) over an abstract world; every
    call to them is recorded in a trace.  Time is counted in milliseconds
    (the source's [1.0], [0.5] and [0.01] seconds are 1000, 500 and 10).
    Message boxes are recorded in the trace; console output
    ([debug_print]) and the status labels are left out.  The loop bodies
    and the [except] clauses of the source are definitions of their own
    ([probe], [send_chunk], [send_completion], [send_handler]). *)

From Stdlib Require Import String.
From Stdlib Require Import ZArith List Lia Bool Arith PeanoNat.
Import ListNotations.

(** ** Protocol constants *)

Definition LILY58_VENDOR_ID : Z := 0x04D8.
Definition LILY58_PRODUCT_ID : Z := 0xEB2D.
Definition VIA_COMMAND_START : Z := 0x00.
Definition VIA_COMMAND_OLED : Z := 0x40.
Definition VIA_COMMAND_GET_PROTOCOL_VERSION : Z := 0x01.

(** ** Bitmap packing (first block of [send_to_oled]) *)

(** [pixels[i + bit] > 0] *)
Definition pixel_on (p : Z) : bool := (0 <? p)%Z.

(** The inner loop [for bit in range(8)]: the byte built for the group of
    pixels that starts at index [i]. *)
Definition pack_byte (pixels : list Z) (i : nat) : Z :=
  fold_left
    (fun byte bit =>
       if i + bit <? length pixels
       then Z.lor byte
              (Z.shiftl (Z.b2z (pixel_on (nth (i + bit) pixels 0%Z)))
                        (Z.of_nat (7 - bit)))
       else byte)
    (seq 0 8) 0%Z.

(** [range(0, n, step)] *)
Definition range_step (n step : nat) : list nat :=
  map (fun k => k * step) (seq 0 ((n + step - 1) / step)).

(** The outer loop [for i in range(0, len(pixels), 8)]: [bytes_data]. *)
Definition pack_pixels (pixels : list Z) : list Z :=
  map (pack_byte pixels) (range_step (length pixels) 8).

(** Unpacking, as the specification words it (reversing the bit grouping):
    each byte yields eight pixels, bit 7 first. *)
Definition unpack_byte (b : Z) : list bool :=
  map (fun bit => Z.testbit b (Z.of_nat (7 - bit))) (seq 0 8).

Definition unpack_bytes (bs : list Z) : list bool := flat_map unpack_byte bs.

(** A pixel of a 1-bit image, as [getdata] yields it: 0, or the value
    [on] that the image uses for a set pixel (255 after [convert('1')],
    1 for text drawn with [fill=1]). *)
Definition two_valued (on p : Z) : Prop := p = 0%Z \/ p = on.

(** The pixel value of a bit, in an image whose set pixels are [on]. *)
Definition pixel_value (on : Z) (b : bool) : Z := if b then on else 0%Z.

Definition pixel_of_bit (b : bool) : Z := if b then 255%Z else 0%Z.

(** ** The [hid] library and the clock

    What the program observes of its environment: enumeration, opening a
    device by path, writing a report, reading a report and closing.  A call
    that raises is [None] / [false] / [ReadRaises]; a read also reports how
    many milliseconds it took.  [close] does not raise. *)

Definition Path : Type := string.

(** The dictionaries yielded by [hid.enumerate]; only ['path'] is read. *)
Record DeviceInfo : Type := { path : Path }.

Inductive ReadResult : Type :=
| ReadRaises
| ReadData (data : list Z).

Class HidApi (W H : Type) : Type := {
  hid_enumerate : Z -> Z -> W -> W * option (list DeviceInfo);
  hid_open : Path -> W -> W * option H;
  hid_write : H -> list Z -> W -> W * bool;
  hid_read : H -> nat -> W -> W * ReadResult * nat;
  hid_close : H -> W -> W
}.

(** Which statement of the program issued a write. *)
Inductive WriteKind : Type :=
| VersionQuery
| DataChunk (chunk_index : nat)
| Completion.

(** The message boxes; a [TimeoutError] carries its text. *)
Inductive Message : Type :=
| MsgConnected (version : Z)
| MsgNotFound
| MsgConnectFailed
| MsgNotConnected
| MsgChunkTimeout (chunk_index : nat)
| MsgCompletionTimeout
| MsgSendFailed.

Inductive Exn : Type :=
| TimeoutError (text : Message)
| ValueError
| AttributeError
| HIDException.

Inductive Result (A : Type) : Type :=
| Ok (a : A)
| Raise (e : Exn).

Arguments Ok {A} a.
Arguments Raise {A} e.

Inductive Event (H : Type) : Type :=
| EvEnumerate (ok : bool)
| EvOpen (p : Path) (result : option H)
| EvWrite (kind : WriteKind) (h : H) (report : list Z) (ok : bool)
| EvRead (h : H) (r : ReadResult)
| EvSleep (ms : nat)
| EvClose (h : H)
| EvMessage (m : Message).

Arguments EvEnumerate {H} ok.
Arguments EvOpen {H} p result.
Arguments EvWrite {H} kind h report ok.
Arguments EvRead {H} h r.
Arguments EvSleep {H} ms.
Arguments EvClose {H} h.
Arguments EvMessage {H} m.

(** The program state: the world, the clock, [self.device] and the trace of
    calls made so far (oldest first). *)
Record State (W H : Type) : Type := mkState {
  world : W;
  clock : Z;
  device : option H;
  trace : list (Event H)
}.

Arguments mkState {W H} world clock device trace.
Arguments world {W H} s.
Arguments clock {W H} s.
Arguments device {W H} s.
Arguments trace {W H} s.

(** [bytes(command)]: every element must lie in [range(256)]. *)
Definition is_byte (x : Z) : bool := ((0 <=? x) && (x <? 256))%Z.

(** [0x01 if oled_side == "left" else 0x02] *)
Definition panel_code (oled_side : string) : Z :=
  if String.eqb oled_side "left" then 0x01%Z else 0x02%Z.

Definition chunk_size : nat := 28.

(** [(len(bytes_data) + chunk_size - 1) // chunk_size] *)
Definition total_chunks (bytes_data : list Z) : nat :=
  (length bytes_data + chunk_size - 1) / chunk_size.

(** [l[a:b]] for [0 <= a]. *)
Definition slice {A : Type} (l : list A) (a b : nat) : list A :=
  firstn (b - a) (skipn a l).

(** [while len(command) < 32: command.append(0)] *)
Definition pad32 (command : list Z) : list Z :=
  command ++ repeat 0%Z (32 - length command).

(** The chunk [bytes_data[start_idx:end_idx]] of one loop iteration. *)
Definition chunk_of (bytes_data : list Z) (chunk_index : nat) : list Z :=
  let start_idx := chunk_index * chunk_size in
  let end_idx := Nat.min (start_idx + chunk_size) (length bytes_data) in
  slice bytes_data start_idx end_idx.

(** [command] of one loop iteration, after padding. *)
Definition chunk_command (bytes_data : list Z) (oled_side : string)
    (chunk_index : nat) : list Z :=
  pad32 ([0x00%Z; VIA_COMMAND_OLED; panel_code oled_side; Z.of_nat chunk_index]
           ++ chunk_of bytes_data chunk_index).

Definition completion_command (oled_side : string) : list Z :=
  [0x00%Z; VIA_COMMAND_OLED; panel_code oled_side; 0xFF%Z] ++ repeat 0%Z 28.

(** [[0x00, VIA_COMMAND_GET_PROTOCOL_VERSION] + [0] * 30] *)
Definition version_command : list Z :=
  [0x00%Z; VIA_COMMAND_GET_PROTOCOL_VERSION] ++ repeat 0%Z 30.

(** The attributes [<side>_current_text_image] and [<side>_current_image]
    that [update_text_preview] and [select_image] set on the object: the
    image stored under a name, given by its pixel list, if the attribute
    exists. *)
Definition Attrs : Type := string -> option (list Z).

(** [f"{oled_side}_current_text_image"] *)
Definition text_image_attr (oled_side : string) : string :=
  (oled_side ++ "_current_text_image")%string.

(** [f"{oled_side}_current_image"] *)
Definition image_attr (oled_side : string) : string :=
  (oled_side ++ "_current_image")%string.

(** The message boxes of [apply_text_to_oled] and [apply_image_to_oled]. *)
Inductive Notice : Type :=
| NoticeTextSent (oled_side : string)
| NoticeImageSent (oled_side : string)
| NoticePreviewFirst
| NoticeSelectFirst.

Declare Scope prog_scope.
Delimit Scope prog_scope with prog.

Section Protocol.

Context {W H : Type} {Api : HidApi W H}.

(** *** A state and exception monad *)

Definition M (A : Type) : Type := State W H -> State W H * Result A.

Definition ret {A : Type} (a : A) : M A := fun s => (s, Ok a).

Definition bind {A B : Type} (m : M A) (k : A -> M B) : M B :=
  fun s =>
    match m s with
    | (s', Ok a) => k a s'
    | (s', Raise e) => (s', Raise e)
    end.

Definition raise {A : Type} (e : Exn) : M A := fun s => (s, Raise e).

(** [try: m except Exception as e: handler e] *)
Definition try_except {A : Type} (m : M A) (handler : Exn -> M A) : M A :=
  fun s =>
    match m s with
    | (s', Ok a) => (s', Ok a)
    | (s', Raise e) => handler e s'
    end.

Local Notation "x <- c1 ;; c2" := (bind c1 (fun x => c2))
  (at level 61, c1 at next level, right associativity) : prog_scope.
Local Notation "c1 ;; c2" := (bind c1 (fun _ => c2))
  (at level 61, right associativity) : prog_scope.
Local Open Scope prog_scope.

Definition emit (e : Event H) : M unit :=
  fun s => (mkState (world s) (clock s) (device s) (trace s ++ [e]), Ok tt).

Definition get_device : M (option H) := fun s => (s, Ok (device s)).

Definition set_device (d : option H) : M unit :=
  fun s => (mkState (world s) (clock s) d (trace s), Ok tt).

(** [bytes(command)] *)
Definition to_bytes (command : list Z) : M (list Z) :=
  if forallb is_byte command then ret command else raise ValueError.

(** [self.device.write(report)].  Python looks [write] up before it
    evaluates [bytes(command)]; the callers handle both failures alike,
    so the order of [to_bytes] and [device_write] is not observable. *)
Definition device_write (kind : WriteKind) (report : list Z) : M unit :=
  fun s =>
    match device s with
    | None => (s, Raise AttributeError)
    | Some h =>
        let (w', ok) := hid_write h report (world s) in
        (mkState w' (clock s) (device s)
                 (trace s ++ [EvWrite kind h report ok]),
         if ok : bool then Ok tt else Raise HIDException)
    end.

(** [self.device.read(size)] *)
Definition device_read (size : nat) : M (list Z) :=
  fun s =>
    match device s with
    | None => (s, Raise AttributeError)
    | Some h =>
        match hid_read h size (world s) with
        | (w', r, d) =>
            (mkState w' (clock s + Z.of_nat d) (device s)
                     (trace s ++ [EvRead h r]),
             match r with
             | ReadRaises => Raise HIDException
             | ReadData data => Ok data
             end)
        end
    end.

(** [self.device.close()] *)
Definition device_close : M unit :=
  fun s =>
    match device s with
    | None => (s, Raise AttributeError)
    | Some h =>
        (mkState (hid_close h (world s)) (clock s) (device s)
                 (trace s ++ [EvClose h]), Ok tt)
    end.

(** [hid.Device(path=p)] *)
Definition hid_Device (p : Path) : M H :=
  fun s =>
    let (w', r) := hid_open p (world s) in
    (mkState w' (clock s) (device s) (trace s ++ [EvOpen p r]),
     match r with
     | Some h => Ok h
     | None => Raise HIDException
     end).

(** [list(hid.enumerate(vendor_id, product_id))] *)
Definition enumerate (vendor_id product_id : Z) : M (list DeviceInfo) :=
  fun s =>
    let (w', r) := hid_enumerate vendor_id product_id (world s) in
    match r with
    | Some devices =>
        (mkState w' (clock s) (device s) (trace s ++ [EvEnumerate true]),
         Ok devices)
    | None =>
        (mkState w' (clock s) (device s) (trace s ++ [EvEnumerate false]),
         Raise HIDException)
    end.

(** [time.time()], in milliseconds *)
Definition time_time : M Z := fun s => (s, Ok (clock s)).

(** [time.sleep(ms / 1000)] *)
Definition time_sleep (ms : nat) : M unit :=
  fun s =>
    (mkState (world s) (clock s + Z.of_nat ms) (device s)
             (trace s ++ [EvSleep ms]), Ok tt).

(** The state after [time.sleep(0.01)]. *)
Definition slept (s : State W H) : State W H :=
  mkState (world s) (clock s + Z.of_nat 10) (device s)
          (trace s ++ [EvSleep 10]).

(** [for x in l: body x] *)
Fixpoint for_each {A : Type} (l : list A) (body : A -> M unit) : M unit :=
  match l with
  | [] => ret tt
  | x :: rest => body x ;; for_each rest body
  end.

(** *** [read_with_timeout] *)

(** One poll of the loop body: the [try] around [self.device.read(32)];
    [Some] when a non-empty response was read. *)
Definition poll : M (option (list Z)) :=
  try_except
    (response <- device_read 32 ;;
     ret (match response with
          | [] => None
          | _ :: _ => Some response
          end))
    (fun _ => ret None).

(** The [while (time.time() - start_time) < timeout] loop.  Every
    iteration that does not return sleeps 10 ms, so [fuel] bounds the
    number of iterations; see [read_loop_fuel].  The test is made on
    whole milliseconds; the source compares floats, so when the elapsed
    time equals the timeout it may round below it and the source polls
    once more.  No statement below counts the polls. *)
Fixpoint read_loop (fuel : nat) (start_time timeout : Z)
    : M (option (list Z)) :=
  match fuel with
  | O => ret None
  | S fuel' =>
      now <- time_time ;;
      if (now - start_time <? timeout)%Z
      then
        r <- poll ;;
        match r with
        | Some response => ret (Some response)
        | None => time_sleep 10 ;; read_loop fuel' start_time timeout
        end
      else ret None
  end.

Definition read_fuel (timeout : Z) : nat := S (Z.to_nat (timeout / 10)).

Definition read_with_timeout (timeout : Z) : M (option (list Z)) :=
  start_time <- time_time ;;
  read_loop (read_fuel timeout) start_time timeout.

(** *** [get_protocol_version] *)

Definition get_protocol_version : M (option Z) :=
  try_except
    (report <- to_bytes version_command ;;
     device_write VersionQuery report ;;
     response <- read_with_timeout 1000 ;;
     match response with
     | Some resp =>
         if 3 <=? length resp then ret (Some (nth 2 resp 0%Z)) else ret None
     | None => ret None
     end)
    (fun _ => ret None).

(** *** [connect_hid] *)

(** The body of [for device_info in devices]: the inner [try] and its
    [except] clause; [true] when the body executed [return]. *)
Definition probe (device_info : DeviceInfo) : M bool :=
  try_except
    (h <- hid_Device (path device_info) ;;
     set_device (Some h) ;;
     version <- get_protocol_version ;;
     match version with
     | Some v => emit (EvMessage (MsgConnected v)) ;; ret true
     | None => device_close ;; set_device None ;; ret false
     end)
    (fun _ =>
       dev <- get_device ;;
       match dev with
       | Some _ => device_close ;; set_device None ;; ret false
       | None => ret false
       end).

(** The [for device_info in devices] loop; [true] when it was left by
    [return]. *)
Fixpoint connect_loop (devices : list DeviceInfo) : M bool :=
  match devices with
  | [] => ret false
  | device_info :: rest =>
      returned <- probe device_info ;;
      if returned : bool then ret true else connect_loop rest
  end.

(** The state after [hid.enumerate] returned or raised. *)
Definition enumerated (w' : W) (ok : bool) (s : State W H) : State W H :=
  mkState w' (clock s) (device s) (trace s ++ [EvEnumerate ok]).

Definition connect_hid : M unit :=
  try_except
    (devices <- enumerate LILY58_VENDOR_ID LILY58_PRODUCT_ID ;;
     returned <- connect_loop devices ;;
     if returned : bool then ret tt
     else
       dev <- get_device ;;
       match dev with
       | None => emit (EvMessage MsgNotFound)
       | Some _ => ret tt
       end)
    (fun _ =>
       emit (EvMessage MsgConnectFailed) ;;
       dev <- get_device ;;
       match dev with
       | Some _ => device_close ;; set_device None
       | None => set_device None
       end).

(** The state after [self.device.write(report)] on handle [h]. *)
Definition written (kind : WriteKind) (report : list Z) (h : H) (w' : W)
    (ok : bool) (s : State W H) : State W H :=
  mkState w' (clock s) (device s) (trace s ++ [EvWrite kind h report ok]).

(** The three statements every report goes through: [bytes(command)],
    [write], [read_with_timeout].  Not a function of the source; the
    lemmas about the three reports are stated once on it. *)
Definition exchange (kind : WriteKind) (command : list Z) (timeout : Z)
    : M (option (list Z)) :=
  report <- to_bytes command ;;
  device_write kind report ;;
  read_with_timeout timeout.

(** *** [send_to_oled] *)

(** The body of [for chunk_index in range(total_chunks)]. *)
Definition send_chunk (bytes_data : list Z) (oled_side : string)
    (chunk_index : nat) : M unit :=
  report <- to_bytes (chunk_command bytes_data oled_side chunk_index) ;;
  device_write (DataChunk chunk_index) report ;;
  response <- read_with_timeout 500 ;;
  match response with
  | None => raise (TimeoutError (MsgChunkTimeout chunk_index))
  | Some _ => time_sleep 10
  end.

(** The statements after the loop, up to [return True]. *)
Definition send_completion (oled_side : string) : M bool :=
  report <- to_bytes (completion_command oled_side) ;;
  device_write Completion report ;;
  response <- read_with_timeout 500 ;;
  match response with
  | None => raise (TimeoutError MsgCompletionTimeout)
  | Some _ => ret true
  end.

(** The two [except] clauses. *)
Definition send_handler (e : Exn) : M bool :=
  match e with
  | TimeoutError text => emit (EvMessage text) ;; ret false
  | _ => emit (EvMessage MsgSendFailed) ;; ret false
  end.

(** [send_to_oled], on the pixel list [list(image_data.getdata())]. *)
Definition send_to_oled (pixels : list Z) (oled_side : string) : M bool :=
  dev <- get_device ;;
  match dev with
  | None => emit (EvMessage MsgNotConnected) ;; ret false
  | Some _ =>
      try_except
        (let bytes_data := pack_pixels pixels in
         for_each (seq 0 (total_chunks bytes_data))
                  (send_chunk bytes_data oled_side) ;;
         send_completion oled_side)
        send_handler
  end.

(** *** [apply_text_to_oled], [apply_image_to_oled], [cleanup] *)

(** [apply_text_to_oled].  Its own message box is the last thing it does:
    the model returns it ([None] when it shows none). *)
Definition apply_text_to_oled (attrs : Attrs) (oled_side : string)
    : M (option Notice) :=
  match attrs (text_image_attr oled_side) with
  | Some image =>
      sent <- send_to_oled image oled_side ;;
      if sent : bool then ret (Some (NoticeTextSent oled_side)) else ret None
  | None => ret (Some NoticePreviewFirst)
  end.

(** [apply_image_to_oled], likewise. *)
Definition apply_image_to_oled (attrs : Attrs) (oled_side : string)
    : M (option Notice) :=
  match attrs (image_attr oled_side) with
  | Some image =>
      sent <- send_to_oled image oled_side ;;
      if sent : bool then ret (Some (NoticeImageSent oled_side)) else ret None
  | None => ret (Some NoticeSelectFirst)
  end.

(** [cleanup]: [if self.device: self.device.close()] *)
Definition cleanup : M unit :=
  dev <- get_device ;;
  match dev with
  | Some _ => device_close
  | None => ret tt
  end.

End Protocol.

(** ** Trace observations *)

(** The reports passed to [write], with the statement that issued them. *)
Fixpoint writes_of {H : Type} (evs : list (Event H))
    : list (WriteKind * list Z) :=
  match evs with
  | [] => []
  | EvWrite kind _ report _ :: rest => (kind, report) :: writes_of rest
  | _ :: rest => writes_of rest
  end.

(** The paths on which an open was attempted. *)
Fixpoint opens_of {H : Type} (evs : list (Event H)) : list Path :=
  match evs with
  | [] => []
  | EvOpen p _ :: rest => p :: opens_of rest
  | _ :: rest => opens_of rest
  end.

(** The handles closed. *)
Fixpoint closes_of {H : Type} (evs : list (Event H)) : list H :=
  match evs with
  | [] => []
  | EvClose h :: rest => h :: closes_of rest
  | _ :: rest => closes_of rest
  end.

(** The message boxes shown. *)
Fixpoint messages_of {H : Type} (evs : list (Event H)) : list Message :=
  match evs with
  | [] => []
  | EvMessage m :: rest => m :: messages_of rest
  | _ :: rest => messages_of rest
  end.

(** The write of data chunk [i]. *)
Definition chunk_write (bytes_data : list Z) (oled_side : string) (i : nat)
    : WriteKind * list Z :=
  (DataChunk i, chunk_command bytes_data oled_side i).

(** The writes a transfer of [bytes_data] issues when nothing fails: the
    data chunks in order, then the completion report. *)
Definition planned_writes (bytes_data : list Z) (oled_side : string)
    : list (WriteKind * list Z) :=
  map (chunk_write bytes_data oled_side) (seq 0 (total_chunks bytes_data))
  ++ [(Completion, completion_command oled_side)].

(** The text shown by the [except] clauses of [send_to_oled]. *)
Definition handler_message (e : Exn) : Message :=
  match e with
  | TimeoutError text => text
  | _ => MsgSendFailed
  end.

Definition is_data_chunk (w : WriteKind * list Z) : bool :=
  match fst w with
  | DataChunk _ => true
  | _ => false
  end.

Definition is_completion (w : WriteKind * list Z) : bool :=
  match fst w with
  | Completion => true
  | _ => false
  end.

(** Events that neither write, open, close nor show a message: the polls
    and sleeps of [read_with_timeout]. *)
Definition quiet_event {H : Type} (e : Event H) : Prop :=
  match e with
  | EvRead _ _ | EvSleep _ => True
  | _ => False
  end.

(** The events of [read_with_timeout] on the device [d]. *)
Definition poll_event {H : Type} (d : option H) (e : Event H) : Prop :=
  match e with
  | EvRead h _ => d = Some h
  | EvSleep _ => True
  | _ => False
  end.

(** The events of [get_protocol_version] on the device [d]: the version
    query, then polls. *)
Definition handshake_event {H : Type} (d : option H) (e : Event H) : Prop :=
  match e with
  | EvWrite VersionQuery h report _ => d = Some h /\ report = version_command
  | EvRead h _ => d = Some h
  | EvSleep _ => True
  | _ => False
  end.

(** The events of a candidate that was not kept: the open failed (and a
    handle left in [self.device] by an earlier connection was closed), or
    the open gave a handle, the handshake ran on it and it was closed. *)
Inductive probe_failed {H : Type} (p : Path) : list (Event H) -> Prop :=
| pf_open : probe_failed p [EvOpen p None]
| pf_open_stale (old : H) : probe_failed p [EvOpen p None; EvClose old]
| pf_handshake (h : H) (hs : list (Event H)) :
    Forall (handshake_event (Some h)) hs ->
    probe_failed p ([EvOpen p (Some h)] ++ hs ++ [EvClose h]).

(** The events of a run of candidates none of which was kept. *)
Inductive failed_probes {H : Type} : list Path -> list (Event H) -> Prop :=
| fp_nil : failed_probes [] []
| fp_cons (p : Path) (ps : list Path) (e1 e2 : list (Event H)) :
    probe_failed p e1 -> failed_probes ps e2 ->
    failed_probes (p :: ps) (e1 ++ e2).

(** A report as the device expects it. *)
Definition report_ok (report : list Z) : Prop :=
  length report = 32 /\ nth 0 report 0%Z = 0x00%Z
  /\ forallb is_byte report = true.

(** A step from [s] to [s'] that only polls and sleeps, adding [evs]. *)
Definition polls_only {W H : Type} (s s' : State W H) (evs : list (Event H))
  : Prop :=
  trace s' = trace s ++ evs /\ Forall (poll_event (device s)) evs
  /\ device s' = device s /\ (clock s <= clock s')%Z.

(** Events of a session on an open handle: no open, close or message. *)
Definition session_events {H : Type} (evs : list (Event H)) : Prop :=
  opens_of evs = [] /\ closes_of evs = [] /\ messages_of evs = [].

(** The number of reads among the events. *)
Fixpoint reads_of {H : Type} (evs : list (Event H)) : nat :=
  match evs with
  | [] => 0
  | EvRead _ _ :: rest => S (reads_of rest)
  | _ :: rest => reads_of rest
  end.

(** The handles obtained by an open. *)
Fixpoint opened_handles {H : Type} (evs : list (Event H)) : list H :=
  match evs with
  | [] => []
  | EvOpen _ (Some h) :: rest => h :: opened_handles rest
  | _ :: rest => opened_handles rest
  end.

(** [self.device] as a list of open handles. *)
Definition held {H : Type} (d : option H) : list H :=
  match d with
  | Some h => [h]
  | None => []
  end.

(** A poll on [h] that brought nothing, or the sleep that follows it. *)
Definition idle_event {H : Type} (h : H) (e : Event H) : Prop :=
  e = EvRead h ReadRaises \/ e = EvRead h (ReadData []) \/ e = EvSleep 10.

(** A report written on [h] and acknowledged: the write, polls that
    brought nothing, the read that returned a response. *)
Definition acked_exchange {H : Type} (h : H) (kind : WriteKind)
    (report : list Z) (evs : list (Event H)) : Prop :=
  exists idle resp,
    evs = EvWrite kind h report true :: idle ++ [EvRead h (ReadData resp)]
    /\ resp <> [] /\ Forall (idle_event h) idle.

(** The events of a report that was not acknowledged, with the exception
    that results: [bytes(command)] refused the command, the write raised,
    or no response came before the time-out. *)
Inductive attempt_failed {H : Type} (h : H) (kind : WriteKind)
    (command : list Z) (timeout_text : Message)
    : Exn -> list (Event H) -> Prop :=
| af_value :
    forallb is_byte command = false ->
    attempt_failed h kind command timeout_text ValueError []
| af_write :
    attempt_failed h kind command timeout_text HIDException
                   [EvWrite kind h command false]
| af_timeout (idle : list (Event H)) :
    Forall (idle_event h) idle ->
    attempt_failed h kind command timeout_text (TimeoutError timeout_text)
                   (EvWrite kind h command true :: idle).

(** The events of data chunk [i] sent and acknowledged: the exchange and
    the 10 ms pause. *)
Definition chunk_block {H : Type} (h : H) (bytes_data : list Z)
    (oled_side : string) (i : nat) (evs : list (Event H)) : Prop :=
  exists ex,
    acked_exchange h (DataChunk i) (chunk_command bytes_data oled_side i) ex
    /\ evs = ex ++ [EvSleep 10].

(** An event that touches no device but [h]. *)
Definition on_handle {H : Type} (h : H) (e : Event H) : Prop :=
  match e with
  | EvWrite _ h' _ _ => h' = h
  | EvRead h' _ => h' = h
  | EvSleep _ | EvMessage _ => True
  | _ => False
  end.

(** The phases of a transfer, as its events show them. *)
Inductive Phase : Type :=
| Ready
| AwaitingAck (completion : bool)
| Pausing
| Finished
| Closed.

(** One event of a transfer: a report may be written only when the one
    before was acknowledged and, for a data chunk, the pause was made;
    nothing follows the acknowledgment of the completion report, a write
    that raised or a message box. *)
Definition phase_step {H : Type} (p : Phase) (e : Event H) : option Phase :=
  match p, e with
  | Ready, EvWrite (DataChunk _) _ _ ok =>
      Some (if ok then AwaitingAck false else Finished)
  | Ready, EvWrite Completion _ _ ok =>
      Some (if ok then AwaitingAck true else Finished)
  | AwaitingAck c, EvRead _ (ReadData (_ :: _)) =>
      Some (if c then Finished else Pausing)
  | AwaitingAck c, EvRead _ _ => Some (AwaitingAck c)
  | AwaitingAck c, EvSleep _ => Some (AwaitingAck c)
  | Pausing, EvSleep _ => Some Ready
  | Ready, EvMessage _ => Some Closed
  | AwaitingAck _, EvMessage _ => Some Closed
  | Finished, EvMessage _ => Some Closed
  | _, _ => None
  end.

Fixpoint phase_run {H : Type} (p : Phase) (evs : list (Event H))
    : option Phase :=
  match evs with
  | [] => Some p
  | e :: rest =>
      match phase_step p e with
      | Some p' => phase_run p' rest
      | None => None
      end
  end.

(** ** A simulated keyboard

    Used to run the program on concrete inputs.  Handles are paths.  A
    device on a responsive path answers every report written to it with one
    report (command byte echoed, protocol version 0x0C at offset 2); a
    device on any other path accepts writes and never answers: its reads
    come back empty after 240 ms. *)

Definition VIA_PROTOCOL_VERSION : Z := 0x0C.

Record Sim : Type := mkSim {
  sim_devices : list Path;
  sim_openable : list Path;
  sim_responsive : list Path;
  sim_pending : list (list Z)
}.

Definition mem_path (p : Path) (l : list Path) : bool :=
  existsb (String.eqb p) l.

Definition sim_reply (report : list Z) : list Z :=
  [nth 1 report 0%Z; 0%Z; VIA_PROTOCOL_VERSION] ++ repeat 0%Z 29.

#[export] Instance sim_api : HidApi Sim Path := {
  hid_enumerate _ _ w := (w, Some (map (fun p => {| path := p |}) (sim_devices w)));
  hid_open p w := (w, if mem_path p (sim_openable w) then Some p else None);
  hid_write h report w :=
    (if mem_path h (sim_responsive w)
     then mkSim (sim_devices w) (sim_openable w) (sim_responsive w)
                (sim_pending w ++ [sim_reply report])
     else w, true);
  hid_read _ _ w :=
    match sim_pending w with
    | r :: rest =>
        (mkSim (sim_devices w) (sim_openable w) (sim_responsive w) rest,
         ReadData r, 1)
    | [] => (w, ReadData [], 240)
    end;
  hid_close _ w :=
    mkSim (sim_devices w) (sim_openable w) (sim_responsive w) []
}.

(** A keyboard with four interfaces: the first cannot be opened, the
    second opens and never answers, the third and fourth answer. *)
Definition sim_keyboard : Sim :=
  mkSim ["hid0"; "hid1"; "hid2"; "hid3"]%string
        ["hid1"; "hid2"; "hid3"]%string
        ["hid2"; "hid3"]%string [].

(** A keyboard that accepts writes and never answers. *)
Definition sim_silent : Sim :=
  mkSim ["hid0"]%string ["hid0"]%string [] [].

(** An initial state over the simulated keyboard. *)
Definition sim_state (w : Sim) (dev : option Path) : State Sim Path :=
  mkState w 0%Z dev [].

(** Connected to the configuration interface of [sim_keyboard]. *)
Definition connected : State Sim Path :=
  sim_state sim_keyboard (Some "hid2"%string).

(** Connected to the keyboard that never answers. *)
Definition unanswered : State Sim Path :=
  sim_state sim_silent (Some "hid0"%string).

(** A device that accepts every write and answers every read at once. *)
#[export] Instance echo_api : HidApi unit unit := {
  hid_enumerate _ _ w := (w, Some [{| path := "echo"%string |}]);
  hid_open _ w := (w, Some tt);
  hid_write _ _ w := (w, true);
  hid_read _ _ w := (w, ReadData [0x01%Z; 0x00%Z; VIA_PROTOCOL_VERSION], 1);
  hid_close _ w := w
}.

Definition echo_state (dev : option unit) : State unit unit :=
  mkState tt 0%Z dev [].

(** A device, given by the outcomes of its next writes ([false]: the write
    raises; no outcome left: it raises), that answers every read; with no
    outcome left, enumeration raises as well. *)
#[export] Instance scripted_api : HidApi (list bool) unit := {
  hid_enumerate _ _ w :=
    (w, match w with
        | [] => None
        | _ :: _ => Some [{| path := "scripted"%string |}]
        end);
  hid_open _ w := (w, Some tt);
  hid_write _ _ w :=
    match w with
    | ok :: rest => (rest, ok)
    | [] => ([], false)
    end;
  hid_read _ _ w := (w, ReadData [0x01%Z], 1);
  hid_close _ w := w
}.

Definition scripted_state (w : list bool) : State (list bool) unit :=
  mkState w 0%Z (Some tt) [].

(** A machine on which no interface of the keyboard is enumerated. *)
Definition sim_absent : Sim := mkSim [] [] [] [].

Arguments total_chunks : simpl never.
Arguments pack_pixels : simpl never.
Arguments chunk_command : simpl never.
Arguments read_with_timeout : simpl never.
Arguments get_protocol_version : simpl never.
Arguments version_command : simpl never.
Arguments completion_command : simpl never.

(** ** Packing: proofs *)

Section Packing.

Lemma pack_step_total (pixels : list Z) (idx : nat) (byte : Z) (k : Z) :
  (if idx <? length pixels
   then Z.lor byte (Z.shiftl (Z.b2z (pixel_on (nth idx pixels 0%Z))) k)
   else byte)
  = Z.lor byte (Z.shiftl (Z.b2z (pixel_on (nth idx pixels 0%Z))) k).
Proof.
  destruct (idx <? length pixels) eqn:E; [reflexivity|].
  apply Nat.ltb_ge in E.
  rewrite (nth_overflow pixels 0%Z E). cbn.
  now rewrite Z.shiftl_0_l, Z.lor_0_r.
Qed.

Lemma unpack_lor8 (b0 b1 b2 b3 b4 b5 b6 b7 : bool) :
  unpack_byte
    (Z.lor (Z.lor (Z.lor (Z.lor (Z.lor (Z.lor (Z.lor (Z.lor 0
       (Z.shiftl (Z.b2z b0) 7)) (Z.shiftl (Z.b2z b1) 6))
       (Z.shiftl (Z.b2z b2) 5)) (Z.shiftl (Z.b2z b3) 4))
       (Z.shiftl (Z.b2z b4) 3)) (Z.shiftl (Z.b2z b5) 2))
       (Z.shiftl (Z.b2z b6) 1)) (Z.shiftl (Z.b2z b7) 0))
  = [b0; b1; b2; b3; b4; b5; b6; b7].
Proof.
  destruct b0, b1, b2, b3, b4, b5, b6, b7; reflexivity.
Qed.

Lemma unpack_pack_byte (pixels : list Z) (i : nat) :
  unpack_byte (pack_byte pixels i)
  = map (fun j => pixel_on (nth (i + j) pixels 0%Z)) (seq 0 8).
Proof.
  unfold pack_byte. cbn [seq fold_left].
  rewrite !pack_step_total.
  cbn [Nat.sub Z.of_nat Pos.of_succ_nat Pos.succ map].
  apply unpack_lor8.
Qed.

Lemma lor8_is_byte (b0 b1 b2 b3 b4 b5 b6 b7 : bool) :
  is_byte
    (Z.lor (Z.lor (Z.lor (Z.lor (Z.lor (Z.lor (Z.lor (Z.lor 0
       (Z.shiftl (Z.b2z b0) 7)) (Z.shiftl (Z.b2z b1) 6))
       (Z.shiftl (Z.b2z b2) 5)) (Z.shiftl (Z.b2z b3) 4))
       (Z.shiftl (Z.b2z b4) 3)) (Z.shiftl (Z.b2z b5) 2))
       (Z.shiftl (Z.b2z b6) 1)) (Z.shiftl (Z.b2z b7) 0))
  = true.
Proof.
  destruct b0, b1, b2, b3, b4, b5, b6, b7; reflexivity.
Qed.

Lemma pack_byte_is_byte (pixels : list Z) (i : nat) :
  is_byte (pack_byte pixels i) = true.
Proof.
  unfold pack_byte. cbn [seq fold_left].
  rewrite !pack_step_total.
  cbn [Nat.sub Z.of_nat Pos.of_succ_nat Pos.succ].
  apply lor8_is_byte.
Qed.

Lemma pack_pixels_bytes (pixels : list Z) :
  forallb is_byte (pack_pixels pixels) = true.
Proof.
  unfold pack_pixels. apply forallb_forall. intros b Hb.
  apply in_map_iff in Hb. destruct Hb as (i & <- & _).
  apply pack_byte_is_byte.
Qed.

Lemma pack_pixels_length (pixels : list Z) :
  length (pack_pixels pixels) = (length pixels + 7) / 8.
Proof.
  unfold pack_pixels, range_step. rewrite !length_map, length_seq.
  f_equal. lia.
Qed.

Lemma map_seq_shift {A : Type} (f : nat -> A) (a m : nat) :
  map (fun j => f (a + j)) (seq 0 m) = map f (seq a m).
Proof.
  induction m as [|m IH]; [reflexivity|].
  rewrite !seq_S, !map_app, IH. reflexivity.
Qed.

Lemma flat_map_groups {A : Type} (f : nat -> A) (a g : nat) :
  flat_map (fun k => map (fun j => f (k * 8 + j)) (seq 0 8)) (seq a g)
  = map f (seq (a * 8) (8 * g)).
Proof.
  revert a. induction g as [|g IH]; intros a; [reflexivity|].
  change (seq a (S g)) with (a :: seq (S a) g).
  cbn [flat_map]. rewrite IH, (map_seq_shift f (a * 8) 8).
  replace (8 * S g) with (8 + 8 * g) by lia.
  rewrite seq_app, map_app.
  replace (S a * 8) with (a * 8 + 8) by lia. reflexivity.
Qed.

(** Unpacking the packed stream reads the pixel tests back, index by
    index, over the whole padded length. *)
Lemma unpack_pack (pixels : list Z) :
  unpack_bytes (pack_pixels pixels)
  = map (fun idx => pixel_on (nth idx pixels 0%Z))
        (seq 0 (8 * length (pack_pixels pixels))).
Proof.
  rewrite pack_pixels_length.
  unfold unpack_bytes, pack_pixels, range_step.
  replace (length pixels + 8 - 1) with (length pixels + 7) by lia.
  rewrite map_map, flat_map_concat_map, map_map, <- flat_map_concat_map.
  pose proof (flat_map_groups (fun idx => pixel_on (nth idx pixels 0%Z))
                0 ((length pixels + 7) / 8)) as E.
  change (0 * 8) with 0 in E. rewrite <- E.
  apply flat_map_ext. intros k. apply unpack_pack_byte.
Qed.

Lemma map_nth_seq {A B : Type} (g : A -> B) (l : list A) (d : A) :
  map (fun idx => g (nth idx l d)) (seq 0 (length l)) = map g l.
Proof.
  induction l as [|x l IH]; [reflexivity|].
  cbn [length seq map nth]. f_equal.
  rewrite <- seq_shift, map_map. exact IH.
Qed.

Lemma padded_length (n : nat) : n <= 8 * ((n + 7) / 8).
Proof.
  pose proof (Nat.div_mod_eq (n + 7) 8).
  pose proof (Nat.mod_upper_bound (n + 7) 8). lia.
Qed.

Lemma unpack_pack_firstn (pixels : list Z) :
  firstn (length pixels) (unpack_bytes (pack_pixels pixels))
  = map pixel_on pixels.
Proof.
  rewrite unpack_pack, pack_pixels_length.
  pose proof (padded_length (length pixels)) as Hle.
  replace (8 * ((length pixels + 7) / 8))
    with (length pixels + (8 * ((length pixels + 7) / 8) - length pixels))
    by lia.
  rewrite seq_app, map_app, map_nth_seq.
  rewrite <- (length_map pixel_on pixels) at 1.
  rewrite firstn_app, firstn_all, Nat.sub_diag. cbn. apply app_nil_r.
Qed.

Lemma unpack_pack_skipn (pixels : list Z) :
  skipn (length pixels) (unpack_bytes (pack_pixels pixels))
  = repeat false (8 * length (pack_pixels pixels) - length pixels).
Proof.
  rewrite unpack_pack, pack_pixels_length.
  pose proof (padded_length (length pixels)) as Hle.
  set (pad := 8 * ((length pixels + 7) / 8) - length pixels).
  replace (8 * ((length pixels + 7) / 8)) with (length pixels + pad)
    by (unfold pad; lia).
  rewrite seq_app, map_app, map_nth_seq.
  rewrite <- (length_map pixel_on pixels) at 1.
  rewrite skipn_app, skipn_all, Nat.sub_diag. cbn [app skipn].
  cbn [Nat.add].
  generalize pad. intros m. clear.
  induction m as [|m IH]; [reflexivity|].
  rewrite seq_S, map_app, IH. cbn [map].
  rewrite nth_overflow by lia. cbn.
  now rewrite <- repeat_cons.
Qed.

(** The first pixel of a group is the most significant bit. *)
Lemma pack_pixels_msb_first (pixels : list Z) (k j : nat) :
  j < 8 -> 8 * k + j < length pixels ->
  Z.testbit (nth k (pack_pixels pixels) 0%Z) (Z.of_nat (7 - j))
  = pixel_on (nth (8 * k + j) pixels 0%Z).
Proof.
  intros Hj Hk.
  assert (Hg : k < (length pixels + 8 - 1) / 8).
  { apply Nat.div_le_lower_bound; lia. }
  unfold pack_pixels, range_step.
  rewrite (nth_indep _ 0%Z (pack_byte pixels 0))
    by (rewrite !length_map, length_seq; exact Hg).
  rewrite (map_nth (pack_byte pixels)).
  rewrite (nth_indep _ 0 ((fun k0 => k0 * 8) 0))
    by (rewrite length_map, length_seq; exact Hg).
  rewrite (map_nth (fun k0 => k0 * 8)), seq_nth by exact Hg.
  cbn [Nat.add].
  pose proof (unpack_pack_byte pixels (k * 8)) as E.
  apply (f_equal (fun l => nth j l false)) in E.
  unfold unpack_byte in E.
  rewrite (nth_indep _ false ((fun bit => Z.testbit (pack_byte pixels (k * 8))
                                 (Z.of_nat (7 - bit))) 0)) in E
    by (rewrite length_map, length_seq; exact Hj).
  rewrite (map_nth (fun bit => Z.testbit (pack_byte pixels (k * 8))
                                 (Z.of_nat (7 - bit)))) in E.
  rewrite seq_nth in E by exact Hj. cbn [Nat.add] in E. rewrite E.
  rewrite (nth_indep _ false ((fun j0 => pixel_on (nth (k * 8 + j0) pixels 0%Z)) 0))
    by (rewrite length_map, length_seq; exact Hj).
  rewrite (map_nth (fun j0 => pixel_on (nth (k * 8 + j0) pixels 0%Z))).
  rewrite seq_nth by exact Hj. cbn [Nat.add].
  do 2 f_equal. lia.
Qed.

Lemma two_valued_roundtrip (on : Z) (pixels : list Z) :
  (0 < on)%Z ->
  Forall (two_valued on) pixels ->
  map (pixel_value on) (map pixel_on pixels) = pixels.
Proof.
  intros Hon. induction 1 as [|p pixels Hp _ IH]; [reflexivity|].
  cbn [map]. rewrite IH. f_equal.
  destruct Hp as [-> | ->]; [reflexivity|].
  unfold pixel_on, pixel_value. now rewrite (proj2 (Z.ltb_lt 0 on) Hon).
Qed.

Lemma pack_byte_zeros (n i : nat) : pack_byte (repeat 0%Z n) i = 0%Z.
Proof.
  unfold pack_byte. cbn [seq fold_left].
  rewrite !pack_step_total, !nth_repeat. reflexivity.
Qed.

(** An all-black image packs to zero bytes. *)
Lemma pack_pixels_zeros (n : nat) :
  pack_pixels (repeat 0%Z n) = repeat 0%Z ((n + 7) / 8).
Proof.
  unfold pack_pixels, range_step. rewrite repeat_length.
  replace (n + 8 - 1) with (n + 7) by lia.
  rewrite map_map.
  assert (Hl : forall l : list nat,
             map (fun k => pack_byte (repeat 0%Z n) (k * 8)) l
             = repeat 0%Z (length l)).
  { induction l as [|k l IH]; [reflexivity|].
    cbn [map length repeat]. now rewrite pack_byte_zeros, IH. }
  now rewrite Hl, length_seq.
Qed.

(** C3. Packing groups the row-major pixels of a W x H buffer eight per
    byte, the first pixel of a group in bit 7, with zero bits padding a
    truncated last group; the packed length is ceil(W*H/8); unpacking
    the packed bytes gives the pixels' bits back, followed only by the
    zero padding.  For a one-bit buffer, whose pixels are 0 or one value
    [on] above zero (1 or 255), this reproduces the pixel buffer
    exactly. *)
Theorem pack_unpack_roundtrip (W H : nat) (pixels : list Z) :
  length pixels = W * H ->
  let packed := pack_pixels pixels in
  length packed = (W * H + 7) / 8
  /\ (forall k j, j < 8 -> 8 * k + j < W * H ->
        Z.testbit (nth k packed 0%Z) (Z.of_nat (7 - j))
        = pixel_on (nth (8 * k + j) pixels 0%Z))
  /\ firstn (W * H) (unpack_bytes packed) = map pixel_on pixels
  /\ skipn (W * H) (unpack_bytes packed)
     = repeat false (8 * length packed - W * H)
  /\ (forall on,
        (0 < on)%Z ->
        Forall (two_valued on) pixels ->
        map (pixel_value on) (firstn (W * H) (unpack_bytes packed))
        = pixels).
Proof.
  intros Hlen packed. subst packed. rewrite <- Hlen.
  split; [apply pack_pixels_length|].
  split; [intros k j; apply pack_pixels_msb_first|].
  split; [apply unpack_pack_firstn|].
  split; [apply unpack_pack_skipn|].
  intros on Hon Hbits.
  rewrite unpack_pack_firstn. now apply two_valued_roundtrip.
Qed.

Lemma pack_unpack_roundtrip_witness :
  let text := [1; 0; 0; 1; 1; 0; 0; 0; 1]%Z in
  let image := [255; 0; 0; 255; 255; 0; 0; 0; 255]%Z in
  pack_pixels text = [0x98; 0x80]%Z
  /\ map (pixel_value 1) (firstn 9 (unpack_bytes (pack_pixels text)))
     = text
  /\ map (pixel_value 255) (firstn 9 (unpack_bytes (pack_pixels image)))
     = image.
Proof.
  split; [reflexivity|]. split.
  - refine (proj2 (proj2 (proj2 (proj2
      (pack_unpack_roundtrip 3 3 [1; 0; 0; 1; 1; 0; 0; 0; 1]%Z eq_refl))))
      1%Z _ _); [lia|].
    repeat (apply Forall_cons; [unfold two_valued; lia|]). apply Forall_nil.
  - refine (proj2 (proj2 (proj2 (proj2
      (pack_unpack_roundtrip 3 3 [255; 0; 0; 255; 255; 0; 0; 0; 255]%Z
         eq_refl)))) 255%Z _ _); [lia|].
    repeat (apply Forall_cons; [unfold two_valued; lia|]). apply Forall_nil.
Defined.

End Packing.

(** ** Trace observations: proofs *)

Section Observations.

Context {H : Type}.

Lemma writes_of_app (a b : list (Event H)) :
  writes_of (a ++ b) = writes_of a ++ writes_of b.
Proof.
  induction a as [|e a IH]; [reflexivity|].
  destruct e; cbn; rewrite ?IH; reflexivity.
Qed.

Lemma opens_of_app (a b : list (Event H)) :
  opens_of (a ++ b) = opens_of a ++ opens_of b.
Proof.
  induction a as [|e a IH]; [reflexivity|].
  destruct e; cbn; rewrite ?IH; reflexivity.
Qed.

Lemma closes_of_app (a b : list (Event H)) :
  closes_of (a ++ b) = closes_of a ++ closes_of b.
Proof.
  induction a as [|e a IH]; [reflexivity|].
  destruct e; cbn; rewrite ?IH; reflexivity.
Qed.

Lemma messages_of_app (a b : list (Event H)) :
  messages_of (a ++ b) = messages_of a ++ messages_of b.
Proof.
  induction a as [|e a IH]; [reflexivity|].
  destruct e; cbn; rewrite ?IH; reflexivity.
Qed.

Lemma quiet_writes (evs : list (Event H)) :
  Forall quiet_event evs -> writes_of evs = [].
Proof.
  induction 1 as [|e evs He _ IH]; [reflexivity|].
  destruct e; cbn in *; try contradiction; exact IH.
Qed.

Lemma quiet_opens (evs : list (Event H)) :
  Forall quiet_event evs -> opens_of evs = [].
Proof.
  induction 1 as [|e evs He _ IH]; [reflexivity|].
  destruct e; cbn in *; try contradiction; exact IH.
Qed.

Lemma quiet_closes (evs : list (Event H)) :
  Forall quiet_event evs -> closes_of evs = [].
Proof.
  induction 1 as [|e evs He _ IH]; [reflexivity|].
  destruct e; cbn in *; try contradiction; exact IH.
Qed.

Lemma quiet_messages (evs : list (Event H)) :
  Forall quiet_event evs -> messages_of evs = [].
Proof.
  induction 1 as [|e evs He _ IH]; [reflexivity|].
  destruct e; cbn in *; try contradiction; exact IH.
Qed.

Lemma poll_events_quiet (d : option H) (evs : list (Event H)) :
  Forall (poll_event d) evs -> Forall quiet_event evs.
Proof.
  apply Forall_impl. intros e He. destruct e; cbn in *; auto.
Qed.

Lemma poll_events_handshake (d : option H) (evs : list (Event H)) :
  Forall (poll_event d) evs -> Forall (handshake_event d) evs.
Proof.
  apply Forall_impl. intros e He. destruct e; cbn in *; auto.
  contradiction.
Qed.

End Observations.

(** ** [read_with_timeout]: proofs *)

Section Reading.

Context {W H : Type} {Api : HidApi W H}.

Local Ltac polls_tac :=
  unfold polls_only; cbn; rewrite ?app_nil_r;
  repeat split; try lia; try reflexivity; try congruence;
  repeat (constructor; cbn); try congruence.

Lemma poll_spec (s : State W H) :
  exists s' o evs,
    poll s = (s', Ok o) /\ polls_only s s' evs
    /\ (forall resp, o = Some resp -> resp <> []).
Proof.
  unfold poll, try_except, bind, device_read, ret.
  destruct (device s) as [h|] eqn:Ed.
  - destruct (hid_read h 32 (world s)) as [[w' r] d] eqn:Er.
    destruct r as [|data].
    + eexists _, None, [EvRead h ReadRaises]. split; [reflexivity|].
      split; [|discriminate].
      polls_tac.
    + destruct data as [|b data].
      * eexists _, None, [EvRead h (ReadData [])]. split; [reflexivity|].
        split; [|discriminate].
        polls_tac.
      * eexists _, (Some (b :: data)), [EvRead h (ReadData (b :: data))].
        split; [reflexivity|].
        split; [|intros resp [= <-]; discriminate].
        polls_tac.
  - eexists s, None, []. split; [reflexivity|].
    split; [|discriminate].
    polls_tac.
Qed.

Lemma polls_only_trans (s1 s2 s3 : State W H) (e1 e2 : list (Event H)) :
  polls_only s1 s2 e1 -> polls_only s2 s3 e2 ->
  polls_only s1 s3 (e1 ++ e2).
Proof.
  intros (T1 & Q1 & D1 & C1) (T2 & Q2 & D2 & C2).
  repeat split.
  - now rewrite T2, T1, app_assoc.
  - rewrite D1 in Q2. apply Forall_app; auto.
  - congruence.
  - lia.
Qed.

Lemma read_loop_S (fuel : nat) (start_time timeout : Z) (s : State W H) :
  read_loop (S fuel) start_time timeout s
  = if (clock s - start_time <? timeout)%Z
    then match poll s with
         | (s1, Ok (Some response)) => (s1, Ok (Some response))
         | (s1, Ok None) => read_loop fuel start_time timeout (slept s1)
         | (s1, Raise e) => (s1, Raise e)
         end
    else (s, Ok None).
Proof.
  cbn [read_loop]. unfold bind at 1. unfold time_time at 1.
  destruct (clock s - start_time <? timeout)%Z; [|reflexivity].
  unfold bind at 1. destruct (poll s) as [s1 [[response|]|e]]; reflexivity.
Qed.

Lemma read_loop_spec (fuel : nat) (start_time timeout : Z) (s : State W H) :
  exists s' o evs,
    read_loop fuel start_time timeout s = (s', Ok o)
    /\ polls_only s s' evs
    /\ (forall resp, o = Some resp -> resp <> []).
Proof.
  revert s. induction fuel as [|fuel IH]; intros s.
  - exists s, None, []. cbn. split; [reflexivity|]. split; [|discriminate].
    polls_tac.
  - rewrite read_loop_S.
    destruct (clock s - start_time <? timeout)%Z.
    + destruct (poll_spec s) as (s1 & o & e1 & E1 & P1 & N1).
      rewrite E1. destruct o as [resp|].
      * exists s1, (Some resp), e1. repeat split; try apply P1. exact N1.
      * destruct (IH (slept s1)) as (s2 & o2 & e2 & E2 & P2 & N2).
        exists s2, o2, (e1 ++ [EvSleep 10] ++ e2).
        split; [exact E2|]. split; [|exact N2].
        eapply polls_only_trans; [exact P1|].
        eapply polls_only_trans; [|exact P2].
        polls_tac.
    + exists s, None, []. split; [reflexivity|]. split; [|discriminate].
      polls_tac.
Qed.

(** [read_with_timeout] always returns: a non-empty response or [None];
    it only polls and sleeps, and leaves [self.device] alone. *)
Lemma read_with_timeout_spec (timeout : Z) (s : State W H) :
  exists s' o evs,
    read_with_timeout timeout s = (s', Ok o)
    /\ polls_only s s' evs
    /\ (forall resp, o = Some resp -> resp <> []).
Proof.
  unfold read_with_timeout, bind, time_time. apply read_loop_spec.
Qed.

(** The fuel of [read_loop] is enough: once [10 * fuel] milliseconds cover
    what is left of the timeout, more fuel changes nothing, so the loop
    ends only by a response or by the [while] condition failing. *)
Lemma read_loop_fuel (fuel extra : nat) (start_time timeout : Z)
    (s : State W H) :
  (timeout - (clock s - start_time) <= 10 * Z.of_nat fuel)%Z ->
  read_loop (fuel + extra) start_time timeout s
  = read_loop fuel start_time timeout s.
Proof.
  revert s. induction fuel as [|fuel IH]; intros s Hf.
  - cbn [Nat.add]. destruct extra as [|extra]; [reflexivity|].
    rewrite read_loop_S.
    destruct (clock s - start_time <? timeout)%Z eqn:E; [|reflexivity].
    apply Z.ltb_lt in E. lia.
  - cbn [Nat.add]. rewrite !read_loop_S.
    destruct (clock s - start_time <? timeout)%Z; [|reflexivity].
    destruct (poll_spec s) as (s1 & o & e1 & E1 & P1 & N1).
    rewrite E1. destruct o as [resp|]; [reflexivity|].
    apply IH. unfold slept. cbn [clock].
    destruct P1 as (_ & _ & _ & C1). lia.
Qed.

Lemma read_with_timeout_fuel (extra : nat) (timeout : Z) (s : State W H) :
  read_loop (read_fuel timeout + extra) (clock s) timeout s
  = read_with_timeout timeout s.
Proof.
  unfold read_with_timeout, bind, time_time.
  apply read_loop_fuel. unfold read_fuel.
  destruct (Z.le_gt_cases timeout 0) as [Hle|Hgt]; [lia|].
  rewrite Nat2Z.inj_succ, Z2Nat.id by (apply Z.div_pos; lia).
  pose proof (Z.mod_pos_bound timeout 10 ltac:(lia)).
  pose proof (Z.div_mod timeout 10 ltac:(lia)). lia.
Qed.

End Reading.

(** ** Chunking: proofs *)

Section Chunking.

Lemma total_chunks_bounds (bytes_data : list Z) :
  length bytes_data <= 28 * total_chunks bytes_data
  /\ 28 * total_chunks bytes_data < length bytes_data + 28.
Proof.
  unfold total_chunks, chunk_size.
  pose proof (Nat.div_mod_eq (length bytes_data + 28 - 1) 28).
  pose proof (Nat.mod_upper_bound (length bytes_data + 28 - 1) 28).
  lia.
Qed.

Lemma chunk_of_length (bytes_data : list Z) (i : nat) :
  length (chunk_of bytes_data i)
  = Nat.min 28 (length bytes_data - 28 * i).
Proof.
  unfold chunk_of, slice, chunk_size.
  rewrite length_firstn, length_skipn. lia.
Qed.

Lemma chunk_of_nth (bytes_data : list Z) (i j : nat) (d : Z) :
  j < length (chunk_of bytes_data i) ->
  nth j (chunk_of bytes_data i) d = nth (28 * i + j) bytes_data d.
Proof.
  rewrite chunk_of_length. intros Hj.
  unfold chunk_of, slice, chunk_size.
  rewrite nth_firstn.
  destruct (j <? _) eqn:E.
  - rewrite nth_skipn. f_equal. lia.
  - apply Nat.ltb_ge in E. lia.
Qed.

Lemma pad32_length (command : list Z) :
  length command <= 32 -> length (pad32 command) = 32.
Proof.
  intros Hc. unfold pad32. rewrite length_app, repeat_length. lia.
Qed.

Lemma chunk_command_layout (bytes_data : list Z) (oled_side : string)
    (i : nat) :
  chunk_command bytes_data oled_side i
  = [0x00%Z; VIA_COMMAND_OLED; panel_code oled_side; Z.of_nat i]
      ++ chunk_of bytes_data i
      ++ repeat 0%Z (28 - length (chunk_of bytes_data i)).
Proof.
  unfold chunk_command, pad32. rewrite <- app_assoc. reflexivity.
Qed.

Lemma chunk_command_length (bytes_data : list Z) (oled_side : string)
    (i : nat) :
  length (chunk_command bytes_data oled_side i) = 32.
Proof.
  unfold chunk_command. apply pad32_length.
  rewrite length_app, chunk_of_length. cbn [length]. lia.
Qed.

Lemma panel_code_is_byte (oled_side : string) :
  is_byte (panel_code oled_side) = true.
Proof.
  unfold panel_code. destruct (String.eqb oled_side "left"); reflexivity.
Qed.

Lemma forallb_repeat_zero (n : nat) : forallb is_byte (repeat 0%Z n) = true.
Proof.
  induction n as [|n IH]; [reflexivity|]. cbn. exact IH.
Qed.

Lemma chunk_of_bytes (bytes_data : list Z) (i : nat) :
  forallb is_byte bytes_data = true ->
  forallb is_byte (chunk_of bytes_data i) = true.
Proof.
  intros Hb. rewrite forallb_forall in *. intros x Hx. apply Hb.
  unfold chunk_of, slice in Hx.
  rewrite <- (firstn_skipn (i * chunk_size) bytes_data).
  apply in_or_app. right.
  match type of Hx with
  | In _ (firstn ?n ?l) => rewrite <- (firstn_skipn n l)
  end.
  apply in_or_app. left. exact Hx.
Qed.

Lemma is_byte_of_nat (i : nat) : is_byte (Z.of_nat i) = (i <? 256).
Proof.
  unfold is_byte. destruct (i <? 256) eqn:E.
  - apply Nat.ltb_lt in E. apply andb_true_iff.
    split; [apply Z.leb_le|apply Z.ltb_lt]; lia.
  - apply Nat.ltb_ge in E. apply andb_false_iff. right.
    apply Z.ltb_ge. lia.
Qed.

(** [bytes(command)] accepts the command of chunk [i] exactly when the
    index fits a byte. *)
Lemma chunk_command_bytes (bytes_data : list Z) (oled_side : string)
    (i : nat) :
  forallb is_byte bytes_data = true ->
  forallb is_byte (chunk_command bytes_data oled_side i) = (i <? 256).
Proof.
  intros Hb. rewrite chunk_command_layout.
  cbn [app forallb]. rewrite panel_code_is_byte, is_byte_of_nat.
  rewrite forallb_app, (chunk_of_bytes _ _ Hb), forallb_repeat_zero.
  change (is_byte 0) with true. change (is_byte VIA_COMMAND_OLED) with true.
  cbn [andb]. now rewrite andb_true_r.
Qed.

Lemma completion_command_bytes (oled_side : string) :
  forallb is_byte (completion_command oled_side) = true.
Proof.
  unfold completion_command. cbn [app forallb].
  rewrite panel_code_is_byte. reflexivity.
Qed.

Lemma firstn_seq_le (m a n : nat) :
  m <= n -> firstn m (seq a n) = seq a m.
Proof.
  revert a n. induction m as [|m IH]; intros a n Hm; [reflexivity|].
  destruct n as [|n]; [lia|]. cbn [seq firstn].
  f_equal. apply IH. lia.
Qed.

Lemma firstn_planned_data (bytes_data : list Z) (oled_side : string)
    (m : nat) :
  m <= total_chunks bytes_data ->
  firstn m (planned_writes bytes_data oled_side)
  = map (chunk_write bytes_data oled_side) (seq 0 m).
Proof.
  intros Hm. unfold planned_writes.
  rewrite firstn_app, length_map, length_seq.
  replace (m - total_chunks bytes_data) with 0 by lia.
  cbn [firstn]. rewrite app_nil_r, firstn_map, firstn_seq_le by exact Hm.
  reflexivity.
Qed.

Lemma firstn_planned_all (bytes_data : list Z) (oled_side : string) :
  firstn (S (total_chunks bytes_data)) (planned_writes bytes_data oled_side)
  = planned_writes bytes_data oled_side.
Proof.
  apply firstn_all2. unfold planned_writes.
  rewrite length_app, length_map, length_seq. cbn [length]. lia.
Qed.

Lemma planned_writes_nth (bytes_data : list Z) (oled_side : string)
    (i : nat) (d : WriteKind * list Z) :
  i <= total_chunks bytes_data ->
  nth i (planned_writes bytes_data oled_side) d
  = if i <? total_chunks bytes_data
    then chunk_write bytes_data oled_side i
    else (Completion, completion_command oled_side).
Proof.
  intros Hi. unfold planned_writes.
  destruct (i <? total_chunks bytes_data) eqn:E.
  - apply Nat.ltb_lt in E.
    rewrite app_nth1 by (rewrite length_map, length_seq; exact E).
    rewrite (nth_indep _ d (chunk_write bytes_data oled_side 0))
      by (rewrite length_map, length_seq; exact E).
    rewrite map_nth, seq_nth by exact E. reflexivity.
  - apply Nat.ltb_ge in E.
    rewrite app_nth2 by (rewrite length_map, length_seq; exact E).
    rewrite length_map, length_seq.
    replace (i - total_chunks bytes_data) with 0 by lia. reflexivity.
Qed.

Lemma In_firstn_nth {A : Type} (l : list A) (m : nat) (x d : A) :
  In x (firstn m l) -> exists i, i < m /\ i < length l /\ nth i l d = x.
Proof.
  revert l. induction m as [|m IH]; intros l Hx; [destruct Hx|].
  destruct l as [|y l]; [destruct Hx|].
  cbn [firstn] in Hx. destruct Hx as [<- | Hx].
  - exists 0. cbn. repeat split; lia.
  - destruct (IH l Hx) as (i & Hi & Hl & Hn).
    exists (S i). cbn. repeat split; try lia. exact Hn.
Qed.

(** What an initial part of the planned writes contains. *)
Lemma planned_prefix_entry (bytes_data : list Z) (oled_side : string)
    (m : nat) (w : WriteKind * list Z) :
  In w (firstn m (planned_writes bytes_data oled_side)) ->
  (exists i, i < m /\ i < total_chunks bytes_data
             /\ w = chunk_write bytes_data oled_side i)
  \/ (total_chunks bytes_data < m
      /\ w = (Completion, completion_command oled_side)).
Proof.
  intros Hw.
  destruct (In_firstn_nth _ _ _ w Hw) as (i & Hi & Hl & Hn).
  unfold planned_writes in Hl.
  rewrite length_app, length_map, length_seq in Hl. cbn [length] in Hl.
  rewrite planned_writes_nth in Hn by lia.
  destruct (i <? total_chunks bytes_data) eqn:E.
  - apply Nat.ltb_lt in E. left. exists i. auto.
  - apply Nat.ltb_ge in E. right. split; [lia|auto].
Qed.

Lemma filter_data_chunks (bytes_data : list Z) (oled_side : string)
    (l : list nat) :
  filter is_data_chunk (map (chunk_write bytes_data oled_side) l)
  = map (chunk_write bytes_data oled_side) l.
Proof.
  induction l as [|i l IH]; [reflexivity|]. cbn. now rewrite IH.
Qed.

Lemma filter_completion_chunks (bytes_data : list Z) (oled_side : string)
    (l : list nat) :
  filter is_completion (map (chunk_write bytes_data oled_side) l) = [].
Proof.
  induction l as [|i l IH]; [reflexivity|]. cbn. exact IH.
Qed.

(** The data chunks among the first [m] planned writes. *)
Lemma planned_prefix_data (bytes_data : list Z) (oled_side : string)
    (m : nat) :
  filter is_data_chunk (firstn m (planned_writes bytes_data oled_side))
  = map (chunk_write bytes_data oled_side)
        (seq 0 (Nat.min m (total_chunks bytes_data))).
Proof.
  destruct (Nat.le_gt_cases m (total_chunks bytes_data)) as [Hle | Hgt].
  - rewrite firstn_planned_data by exact Hle.
    rewrite filter_data_chunks. now rewrite Nat.min_l.
  - rewrite firstn_all2.
    + unfold planned_writes. rewrite filter_app, filter_data_chunks.
      change (filter is_data_chunk [(Completion, completion_command oled_side)])
        with (@nil (WriteKind * list Z)).
      rewrite app_nil_r, Nat.min_r by lia. reflexivity.
    + unfold planned_writes.
      rewrite length_app, length_map, length_seq. cbn [length]. lia.
Qed.

(** The completion reports among the first [m] planned writes. *)
Lemma planned_prefix_completion (bytes_data : list Z) (oled_side : string)
    (m : nat) :
  filter is_completion (firstn m (planned_writes bytes_data oled_side))
  = if total_chunks bytes_data <? m
    then [(Completion, completion_command oled_side)]
    else [].
Proof.
  destruct (total_chunks bytes_data <? m) eqn:E.
  - apply Nat.ltb_lt in E. rewrite firstn_all2.
    + unfold planned_writes. rewrite filter_app, filter_completion_chunks.
      reflexivity.
    + unfold planned_writes.
      rewrite length_app, length_map, length_seq. cbn [length]. lia.
  - apply Nat.ltb_ge in E. rewrite firstn_planned_data by exact E.
    apply filter_completion_chunks.
Qed.

End Chunking.

(** ** The transfer: proofs *)

Section Transfer.

Context {W H : Type} {Api : HidApi W H}.

Lemma exchange_run (kind : WriteKind) (command : list Z) (timeout : Z)
    (s : State W H) :
  exchange kind command timeout s
  = if forallb is_byte command
    then match device s with
         | None => (s, Raise AttributeError)
         | Some h =>
             let (w', ok) := hid_write h command (world s) in
             if ok : bool
             then read_with_timeout timeout (written kind command h w' true s)
             else (written kind command h w' false s, Raise HIDException)
         end
    else (s, Raise ValueError).
Proof.
  unfold exchange, to_bytes, bind, device_write, written.
  destruct (forallb is_byte command); [|reflexivity].
  cbn [ret]. destruct (device s); [|reflexivity].
  destruct (hid_write h command (world s)) as [w' [|]]; reflexivity.
Qed.

Lemma exchange_spec (kind : WriteKind) (command : list Z) (timeout : Z)
    (s : State W H) :
  exists s' r evs,
    exchange kind command timeout s = (s', r)
    /\ trace s' = trace s ++ evs /\ device s' = device s
    /\ session_events evs
    /\ ((writes_of evs = []
         /\ (forallb is_byte command = false \/ device s = None)
         /\ (r = Raise ValueError \/ r = Raise AttributeError))
        \/ (writes_of evs = [(kind, command)]
            /\ forallb is_byte command = true /\ device s <> None
            /\ (r = Raise HIDException
                \/ exists o, r = Ok o
                             /\ forall resp, o = Some resp -> resp <> []))).
Proof.
  rewrite exchange_run.
  destruct (forallb is_byte command) eqn:Eb.
  - destruct (device s) as [h|] eqn:Ed.
    + destruct (hid_write h command (world s)) as [w' [|]].
      * destruct (read_with_timeout_spec timeout
                    (written kind command h w' true s))
          as (s' & o & evs & E & (T & Q & D & _) & N).
        apply poll_events_quiet in Q.
        exists s', (Ok o), (EvWrite kind h command true :: evs).
        cbn in T, D.
        split; [exact E|].
        split; [now rewrite T, <- app_assoc|].
        split; [congruence|].
        split.
        { unfold session_events. cbn.
          now rewrite quiet_opens, quiet_closes, quiet_messages. }
        right. cbn. rewrite (quiet_writes _ Q).
        split; [reflexivity|]. split; [reflexivity|].
        split; [discriminate|]. right. now exists o.
      * exists (written kind command h w' false s), (Raise HIDException),
          [EvWrite kind h command false].
        split; [reflexivity|]. split; [reflexivity|].
        split; [cbn; congruence|]. split; [repeat split|].
        right. split; [reflexivity|]. split; [reflexivity|].
        split; [discriminate|]. now left.
    + exists s, (Raise AttributeError), [].
      split; [reflexivity|]. split; [now rewrite app_nil_r|].
      split; [congruence|]. split; [repeat split|].
      left. split; [reflexivity|]. split; [now right|now right].
  - exists s, (Raise ValueError), [].
    split; [reflexivity|]. split; [now rewrite app_nil_r|].
    split; [reflexivity|]. split; [repeat split|].
    left. split; [reflexivity|]. split; [now left|now left].
Qed.

Lemma send_chunk_run (bytes_data : list Z) (oled_side : string) (i : nat)
    (s : State W H) :
  send_chunk bytes_data oled_side i s
  = match exchange (DataChunk i) (chunk_command bytes_data oled_side i)
                   500 s with
    | (s1, Ok None) => (s1, Raise (TimeoutError (MsgChunkTimeout i)))
    | (s1, Ok (Some _)) => (slept s1, Ok tt)
    | (s1, Raise e) => (s1, Raise e)
    end.
Proof.
  unfold send_chunk, exchange, bind.
  destruct (to_bytes _ s) as [s0 [report|e]]; [|reflexivity].
  destruct (device_write _ report s0) as [s1 [[]|e]]; [|reflexivity].
  destruct (read_with_timeout 500 s1) as [s2 [[resp|]|e]]; reflexivity.
Qed.

Lemma send_completion_run (oled_side : string) (s : State W H) :
  send_completion oled_side s
  = match exchange Completion (completion_command oled_side) 500 s with
    | (s1, Ok None) => (s1, Raise (TimeoutError MsgCompletionTimeout))
    | (s1, Ok (Some _)) => (s1, Ok true)
    | (s1, Raise e) => (s1, Raise e)
    end.
Proof.
  unfold send_completion, exchange, bind.
  destruct (to_bytes _ s) as [s0 [report|e]]; [|reflexivity].
  destruct (device_write _ report s0) as [s1 [[]|e]]; [|reflexivity].
  destruct (read_with_timeout 500 s1) as [s2 [[resp|]|e]]; reflexivity.
Qed.

Lemma send_handler_run (e : Exn) (s : State W H) :
  send_handler e s
  = (mkState (world s) (clock s) (device s)
             (trace s ++ [EvMessage (handler_message e)]), Ok false).
Proof.
  destruct e; reflexivity.
Qed.

Lemma for_each_cons {A : Type} (x : A) (l : list A) (body : A -> M unit)
    (s : State W H) :
  for_each (x :: l) body s
  = match body x s with
    | (s1, Ok _) => for_each l body s1
    | (s1, Raise e) => (s1, Raise e)
    end.
Proof.
  reflexivity.
Qed.

Lemma for_each_app {A : Type} (l1 l2 : list A) (body : A -> M unit)
    (s : State W H) :
  for_each (l1 ++ l2) body s
  = match for_each l1 body s with
    | (s1, Ok _) => for_each l2 body s1
    | (s1, Raise e) => (s1, Raise e)
    end.
Proof.
  revert s. induction l1 as [|x l1 IH]; intros s; [reflexivity|].
  cbn [app]. rewrite !for_each_cons.
  destruct (body x s) as [s1 [[]|e]]; [apply IH|reflexivity].
Qed.

Lemma send_chunk_spec (bytes_data : list Z) (oled_side : string) (i : nat)
    (s : State W H) :
  exists s' r evs,
    send_chunk bytes_data oled_side i s = (s', r)
    /\ trace s' = trace s ++ evs /\ device s' = device s
    /\ session_events evs
    /\ ((writes_of evs = []
         /\ (forallb is_byte (chunk_command bytes_data oled_side i) = false
             \/ device s = None)
         /\ (r = Raise ValueError \/ r = Raise AttributeError))
        \/ (writes_of evs = [chunk_write bytes_data oled_side i]
            /\ forallb is_byte (chunk_command bytes_data oled_side i) = true
            /\ device s <> None
            /\ (r = Raise HIDException
                \/ r = Raise (TimeoutError (MsgChunkTimeout i))
                \/ r = Ok tt))).
Proof.
  rewrite send_chunk_run.
  destruct (exchange_spec (DataChunk i)
              (chunk_command bytes_data oled_side i) 500 s)
    as (s1 & r & evs & E & T & D & S & Hc).
  rewrite E.
  destruct Hc as [(Wr & Hwhy & Hr) | (Wr & Hv & Hd & Hr)].
  - exists s1, (Raise (match r with Raise e => e | Ok _ => ValueError end)),
      evs.
    split; [destruct Hr as [-> | ->]; reflexivity|].
    split; [exact T|]. split; [exact D|]. split; [exact S|].
    left. split; [exact Wr|]. split; [exact Hwhy|].
    destruct Hr as [-> | ->]; [now left|now right].
  - destruct Hr as [-> | (o & -> & _)].
    + exists s1, (Raise HIDException), evs.
      split; [reflexivity|].
      split; [exact T|]. split; [exact D|]. split; [exact S|].
      right. split; [exact Wr|]. split; [exact Hv|]. split; [exact Hd|].
      now left.
    + destruct o as [resp|].
      * exists (slept s1), (Ok tt), (evs ++ [EvSleep 10]).
        unfold slept. cbn [trace device].
        split; [reflexivity|].
        split; [now rewrite T, app_assoc|].
        split; [exact D|].
        destruct S as (So & Sc & Sm).
        split.
        { unfold session_events.
          now rewrite opens_of_app, closes_of_app, messages_of_app,
            So, Sc, Sm. }
        right. rewrite writes_of_app, Wr.
        split; [reflexivity|]. split; [exact Hv|]. split; [exact Hd|].
        now right; right.
      * exists s1, (Raise (TimeoutError (MsgChunkTimeout i))), evs.
        split; [reflexivity|].
        split; [exact T|]. split; [exact D|]. split; [exact S|].
        right. split; [exact Wr|]. split; [exact Hv|]. split; [exact Hd|].
        now right; left.
Qed.

Lemma session_events_app (a b : list (Event H)) :
  session_events a -> session_events b -> session_events (a ++ b).
Proof.
  intros (Ao & Ac & Am) (Bo & Bc & Bm). unfold session_events.
  now rewrite opens_of_app, closes_of_app, messages_of_app,
    Ao, Ac, Am, Bo, Bc, Bm.
Qed.

(** The loop over the chunks writes the chunks [a], [a+1], ... in order
    and stops at the first one that fails. *)
Lemma send_chunks_spec (bytes_data : list Z) (oled_side : string)
    (n a : nat) (s : State W H) :
  exists s' r evs m,
    for_each (seq a n) (send_chunk bytes_data oled_side) s = (s', r)
    /\ trace s' = trace s ++ evs /\ device s' = device s
    /\ session_events evs
    /\ m <= n
    /\ writes_of evs = map (chunk_write bytes_data oled_side) (seq a m)
    /\ (forall i, a <= i < a + m ->
          forallb is_byte (chunk_command bytes_data oled_side i) = true)
    /\ (r = Ok tt -> m = n)
    /\ (m = 0 -> n = 0 \/ device s = None
                 \/ forallb is_byte (chunk_command bytes_data oled_side a)
                    = false).
Proof.
  revert a s. induction n as [|n IH]; intros a s.
  - exists s, (Ok tt), [], 0. cbn.
    split; [reflexivity|]. split; [now rewrite app_nil_r|].
    split; [reflexivity|]. split; [repeat split|].
    split; [lia|]. split; [reflexivity|].
    split; [intros i Hi; lia|]. split; [reflexivity|]. now left.
  - change (seq a (S n)) with (a :: seq (S a) n). rewrite for_each_cons.
    destruct (send_chunk_spec bytes_data oled_side a s)
      as (s1 & r1 & evs1 & E1 & T1 & D1 & S1 & Hc).
    rewrite E1.
    destruct Hc as [(Wr & Hwhy & Hr) | (Wr & Hv & Hd & Hr)].
    + exists s1, (Raise (match r1 with Raise e => e | Ok _ => ValueError end)),
        evs1, 0.
      split; [destruct Hr as [-> | ->]; reflexivity|].
      split; [exact T1|]. split; [exact D1|]. split; [exact S1|].
      split; [lia|]. split; [exact Wr|].
      split; [intros i Hi; lia|]. split; [discriminate|].
      intros _. right. destruct Hwhy; [now right|now left].
    + destruct Hr as [-> | [-> | ->]].
      * exists s1, (Raise HIDException), evs1, 1.
        split; [reflexivity|].
        split; [exact T1|]. split; [exact D1|]. split; [exact S1|].
        split; [lia|]. split; [exact Wr|].
        split; [intros i Hi; replace i with a by lia; exact Hv|].
        split; [discriminate|]. discriminate.
      * exists s1, (Raise (TimeoutError (MsgChunkTimeout a))), evs1, 1.
        split; [reflexivity|].
        split; [exact T1|]. split; [exact D1|]. split; [exact S1|].
        split; [lia|]. split; [exact Wr|].
        split; [intros i Hi; replace i with a by lia; exact Hv|].
        split; [discriminate|]. discriminate.
      * destruct (IH (S a) s1)
          as (s2 & r2 & evs2 & m2 & E2 & T2 & D2 & S2 & Hm & Wr2 & Hv2
              & Hok & _).
        exists s2, r2, (evs1 ++ evs2), (S m2).
        split; [exact E2|].
        split; [now rewrite T2, T1, app_assoc|].
        split; [congruence|].
        split; [now apply session_events_app|].
        split; [lia|].
        split; [now rewrite writes_of_app, Wr, Wr2|].
        split.
        { intros i Hi. destruct (Nat.eq_dec i a) as [-> | Hne];
            [exact Hv|]. apply Hv2. lia. }
        split; [intros Hr; rewrite (Hok Hr); reflexivity|]. discriminate.
Qed.

Lemma send_to_oled_run (pixels : list Z) (oled_side : string)
    (s : State W H) (h : H) :
  device s = Some h ->
  send_to_oled pixels oled_side s
  = match for_each (seq 0 (total_chunks (pack_pixels pixels)))
                   (send_chunk (pack_pixels pixels) oled_side) s with
    | (s1, Ok _) =>
        match exchange Completion (completion_command oled_side) 500 s1 with
        | (s2, Ok (Some _)) => (s2, Ok true)
        | (s2, Ok None) =>
            send_handler (TimeoutError MsgCompletionTimeout) s2
        | (s2, Raise e) => send_handler e s2
        end
    | (s1, Raise e) => send_handler e s1
    end.
Proof.
  intros Hd. unfold send_to_oled, bind at 1, get_device. rewrite Hd.
  unfold try_except, bind.
  destruct (for_each _ _ s) as [s1 [[]|e]]; [|reflexivity].
  rewrite send_completion_run.
  destruct (exchange _ _ _ s1) as [s2 [[resp|]|e]]; reflexivity.
Qed.

(** Every run of [send_to_oled] on a connected device returns a boolean;
    what it wrote is an initial part of the planned writes, all of them
    when it returns [True]; it shows one message exactly when it returns
    [False]; it never opens or closes a device. *)
Lemma send_to_oled_spec (pixels : list Z) (oled_side : string)
    (s : State W H) (h : H) :
  device s = Some h ->
  exists s' b evs m,
    send_to_oled pixels oled_side s = (s', Ok b)
    /\ trace s' = trace s ++ evs /\ device s' = device s
    /\ opens_of evs = [] /\ closes_of evs = []
    /\ writes_of evs
       = firstn m (planned_writes (pack_pixels pixels) oled_side)
    /\ 0 < m <= S (total_chunks (pack_pixels pixels))
    /\ (forall i, i < m -> i < total_chunks (pack_pixels pixels) -> i < 256)
    /\ (b = true ->
        m = S (total_chunks (pack_pixels pixels)) /\ messages_of evs = [])
    /\ (b = false -> exists msg, messages_of evs = [msg]).
Proof.
  intros Hd. rewrite (send_to_oled_run _ _ _ _ Hd).
  set (bd := pack_pixels pixels).
  assert (Hbd : forallb is_byte bd = true) by apply pack_pixels_bytes.
  destruct (send_chunks_spec bd oled_side (total_chunks bd) 0 s)
    as (s1 & r1 & evs1 & m1 & E1 & T1 & D1 & (So1 & Sc1 & Sm1) & Hm1 & Wr1
        & Hv1 & Hok1 & Hz1).
  rewrite E1.
  assert (Hidx : forall i, i < m1 -> i < 256).
  { intros i Hi. specialize (Hv1 i ltac:(lia)).
    rewrite (chunk_command_bytes _ _ _ Hbd) in Hv1.
    now apply Nat.ltb_lt. }
  assert (Hfail : forall e, r1 = Raise e ->
    exists s' b evs m,
      send_handler e s1 = (s', Ok b)
      /\ trace s' = trace s ++ evs /\ device s' = device s
      /\ opens_of evs = [] /\ closes_of evs = []
      /\ writes_of evs = firstn m (planned_writes bd oled_side)
      /\ 0 < m <= S (total_chunks bd)
      /\ (forall i, i < m -> i < total_chunks bd -> i < 256)
      /\ (b = true -> m = S (total_chunks bd) /\ messages_of evs = [])
      /\ (b = false -> exists msg, messages_of evs = [msg])).
  { intros e He. rewrite send_handler_run.
    assert (Hpos : 0 < m1).
    { destruct m1 as [|m1]; [|lia]. exfalso.
      destruct (Hz1 eq_refl) as [Hn | [Hn | Hn]].
      - subst r1. destruct (total_chunks bd); [|discriminate].
        (* an empty loop does not raise *)
        cbn in E1. unfold ret in E1. congruence.
      - congruence.
      - rewrite (chunk_command_bytes _ _ _ Hbd) in Hn. discriminate. }
    eexists _, false, (evs1 ++ [EvMessage (handler_message e)]), m1.
    split; [reflexivity|]. cbn [trace device].
    split; [now rewrite T1, app_assoc|].
    split; [exact D1|].
    split; [now rewrite opens_of_app, So1|].
    split; [now rewrite closes_of_app, Sc1|].
    split; [rewrite writes_of_app, Wr1, firstn_planned_data by exact Hm1;
            apply app_nil_r|].
    split; [lia|].
    split; [intros i Hi _; now apply Hidx|].
    split; [discriminate|].
    intros _. exists (handler_message e).
    now rewrite messages_of_app, Sm1. }
  destruct r1 as [[]|e]; [|now apply Hfail].
  specialize (Hok1 eq_refl). subst m1. clear Hfail Hz1.
  destruct (exchange_spec Completion (completion_command oled_side) 500 s1)
    as (s2 & r2 & evs2 & E2 & T2 & D2 & (So2 & Sc2 & Sm2) & Hc).
  rewrite E2.
  destruct Hc as [(Wr2 & Hwhy & Hr) | (Wr2 & Hv & Hd2 & Hr)].
  - exfalso. destruct Hwhy as [Hn | Hn].
    + rewrite completion_command_bytes in Hn. discriminate.
    + congruence.
  - assert (Hw : writes_of (evs1 ++ evs2)
                 = planned_writes bd oled_side).
    { rewrite writes_of_app, Wr1, Wr2. reflexivity. }
    assert (Hcommon : forall e,
      exists s' b evs m,
        send_handler e s2 = (s', Ok b)
        /\ trace s' = trace s ++ evs /\ device s' = device s
        /\ opens_of evs = [] /\ closes_of evs = []
        /\ writes_of evs = firstn m (planned_writes bd oled_side)
        /\ 0 < m <= S (total_chunks bd)
        /\ (forall i, i < m -> i < total_chunks bd -> i < 256)
        /\ (b = true -> m = S (total_chunks bd) /\ messages_of evs = [])
        /\ (b = false -> exists msg, messages_of evs = [msg])).
    { intros e. rewrite send_handler_run.
      eexists _, false,
        (evs1 ++ evs2 ++ [EvMessage (handler_message e)]),
        (S (total_chunks bd)).
      split; [reflexivity|]. cbn [trace device].
      split; [now rewrite T2, T1, <- !app_assoc|].
      split; [congruence|].
      split; [now rewrite !opens_of_app, So1, So2|].
      split; [now rewrite !closes_of_app, Sc1, Sc2|].
      split; [rewrite firstn_planned_all, app_assoc, writes_of_app, Hw;
              apply app_nil_r|].
      split; [lia|].
      split; [intros i _ Hi; now apply Hidx|].
      split; [discriminate|].
      intros _. exists (handler_message e).
      now rewrite !messages_of_app, Sm1, Sm2. }
    destruct Hr as [-> | (o & -> & _)]; [apply Hcommon|].
    destruct o as [resp|]; [|apply Hcommon].
    exists s2, true, (evs1 ++ evs2), (S (total_chunks bd)).
    split; [reflexivity|].
    split; [now rewrite T2, T1, app_assoc|].
    split; [congruence|].
    split; [now rewrite opens_of_app, So1, So2|].
    split; [now rewrite closes_of_app, Sc1, Sc2|].
    split; [now rewrite firstn_planned_all|].
    split; [lia|].
    split; [intros i _ Hi; now apply Hidx|].
    split; [intros _; split; [reflexivity|];
            now rewrite messages_of_app, Sm1, Sm2|].
    discriminate.
Qed.

Lemma send_to_oled_disconnected (pixels : list Z) (oled_side : string)
    (s : State W H) :
  device s = None ->
  send_to_oled pixels oled_side s
  = (mkState (world s) (clock s) (device s)
             (trace s ++ [EvMessage MsgNotConnected]), Ok false).
Proof.
  destruct s as [w c d t]. cbn [device]. intros ->. reflexivity.
Qed.

(** As [send_to_oled_spec], whether a device is connected or not. *)
Lemma send_to_oled_writes (pixels : list Z) (oled_side : string)
    (s : State W H) :
  exists s' b evs m,
    send_to_oled pixels oled_side s = (s', Ok b)
    /\ trace s' = trace s ++ evs /\ device s' = device s
    /\ opens_of evs = [] /\ closes_of evs = []
    /\ writes_of evs
       = firstn m (planned_writes (pack_pixels pixels) oled_side)
    /\ m <= S (total_chunks (pack_pixels pixels))
    /\ (forall i, i < m -> i < total_chunks (pack_pixels pixels) -> i < 256)
    /\ (b = true ->
        m = S (total_chunks (pack_pixels pixels)) /\ messages_of evs = [])
    /\ (b = false -> exists msg, messages_of evs = [msg]).
Proof.
  destruct (device s) as [h|] eqn:Hd.
  - destruct (send_to_oled_spec pixels oled_side s h Hd)
      as (s' & b & evs & m & E & T & D & Ho & Hc & Hw & Hm & Hi & Ht & Hf).
    exists s', b, evs, m. rewrite <- Hd.
    repeat (split; [assumption || lia|]). exact Hf.
  - rewrite (send_to_oled_disconnected _ _ _ Hd).
    eexists _, false, [EvMessage MsgNotConnected], 0.
    split; [reflexivity|]. cbn [trace device firstn].
    split; [reflexivity|]. split; [exact Hd|].
    split; [reflexivity|]. split; [reflexivity|].
    split; [reflexivity|]. split; [lia|].
    split; [intros i Hi; lia|].
    split; [discriminate|]. intros _. now exists MsgNotConnected.
Qed.

End Transfer.

(** ** The transfer: what is written *)

Section TransferWrites.

Context {W H : Type} {Api : HidApi W H}.

(** The chunks of a transfer.  For a packed bitmap of length L > 0 the
    loop has N = ceil(L/28) iterations; chunk i is the bytes
    [i*28, min((i+1)*28, L)); the last chunk has L - 28*(N-1) bytes,
    between 1 and 28.  Every run writes data chunks in this order, from
    chunk 0 on; a run that returns True has written the N of them. *)
Theorem transfer_chunk_count (pixels : list Z) (oled_side : string)
    (s : State W H) :
  let bytes_data := pack_pixels pixels in
  let L := length bytes_data in
  let N := total_chunks bytes_data in
  0 < L ->
  N = (L + 27) / 28
  /\ 28 * (N - 1) < L <= 28 * N
  /\ (forall i, i < N ->
        chunk_of bytes_data i
        = slice bytes_data (i * 28) (Nat.min ((i + 1) * 28) L)
        /\ length (chunk_of bytes_data i) = Nat.min ((i + 1) * 28) L - i * 28
        /\ (forall j, j < length (chunk_of bytes_data i) ->
              nth j (chunk_of bytes_data i) 0%Z
              = nth (28 * i + j) bytes_data 0%Z)
        /\ chunk_command bytes_data oled_side i
           = [0x00%Z; VIA_COMMAND_OLED; panel_code oled_side; Z.of_nat i]
               ++ chunk_of bytes_data i
               ++ repeat 0%Z (28 - length (chunk_of bytes_data i)))
  /\ length (chunk_of bytes_data (N - 1)) = L - 28 * (N - 1)
  /\ 1 <= L - 28 * (N - 1) <= 28
  /\ exists s' b evs m,
       send_to_oled pixels oled_side s = (s', Ok b)
       /\ trace s' = trace s ++ evs
       /\ filter is_data_chunk (writes_of evs)
          = map (chunk_write bytes_data oled_side) (seq 0 m)
       /\ m <= N
       /\ (b = true -> m = N).
Proof.
  intros bytes_data L N HL.
  pose proof (total_chunks_bounds bytes_data) as (Hb1 & Hb2).
  fold L N in Hb1, Hb2.
  split.
  { unfold N, total_chunks, chunk_size. fold L. f_equal. lia. }
  split; [lia|].
  split.
  { intros i Hi.
    split; [unfold chunk_of, chunk_size; do 2 f_equal; lia|].
    split; [rewrite chunk_of_length; fold L; lia|].
    split; [intros j Hj; now apply chunk_of_nth|].
    apply chunk_command_layout. }
  split; [rewrite chunk_of_length; fold L; lia|].
  split; [lia|].
  destruct (send_to_oled_writes pixels oled_side s)
    as (s' & b & evs & m & E & T & _ & _ & _ & Hw & Hm & _ & Ht & _).
  fold bytes_data in Hw, Hm, Ht. fold N in Hm, Ht.
  exists s', b, evs, (Nat.min m N).
  split; [exact E|]. split; [exact T|].
  split; [rewrite Hw; apply planned_prefix_data|].
  split; [lia|].
  intros Hb. destruct (Ht Hb) as (-> & _). lia.
Qed.

(** C5. When N <= 255, no data-chunk report written has 0xFF at offset 3
    (it has its own index there), every completion report written has
    0xFF at offset 3, and at most one completion report is written:
    exactly one when the transfer returns True. *)
Theorem sentinel_distinct (pixels : list Z) (oled_side : string)
    (s : State W H) :
  total_chunks (pack_pixels pixels) <= 255 ->
  exists s' b evs,
    send_to_oled pixels oled_side s = (s', Ok b)
    /\ trace s' = trace s ++ evs
    /\ (forall i report,
          In (DataChunk i, report) (writes_of evs) ->
          nth 3 report 0%Z = Z.of_nat i /\ nth 3 report 0%Z <> 0xFF%Z)
    /\ (forall report,
          In (Completion, report) (writes_of evs) ->
          nth 3 report 0%Z = 0xFF%Z)
    /\ length (filter is_completion (writes_of evs)) <= 1
    /\ (b = true -> length (filter is_completion (writes_of evs)) = 1).
Proof.
  intros HN.
  destruct (send_to_oled_writes pixels oled_side s)
    as (s' & b & evs & m & E & T & _ & _ & _ & Hw & Hm & _ & Ht & _).
  exists s', b, evs.
  split; [exact E|]. split; [exact T|]. rewrite Hw.
  split.
  { intros i report Hin.
    destruct (planned_prefix_entry _ _ _ _ Hin)
      as [(i' & _ & Hi' & Heq) | (_ & Heq)]; [|discriminate].
    injection Heq as -> ->.
    rewrite chunk_command_layout. cbn [app nth]. split; [reflexivity|lia]. }
  split.
  { intros report Hin.
    destruct (planned_prefix_entry _ _ _ _ Hin)
      as [(i' & _ & _ & Heq) | (_ & Heq)]; [discriminate|].
    injection Heq as ->. reflexivity. }
  rewrite planned_prefix_completion.
  split.
  - destruct (_ <? m); cbn; lia.
  - intros Hb. destruct (Ht Hb) as (-> & _).
    rewrite (proj2 (Nat.ltb_lt _ _)) by lia. reflexivity.
Qed.

Lemma for_each_ext {A : Type} (l : list A) (body body' : A -> M unit) :
  (forall x (s : State W H), body x s = body' x s) ->
  forall s : State W H, for_each l body s = for_each l body' s.
Proof.
  intros Hb. induction l as [|x l IH]; intros s; [reflexivity|].
  rewrite !for_each_cons, Hb.
  destruct (body' x s) as [s1 [[]|e]]; [apply IH|reflexivity].
Qed.

(** The side argument acts through its panel code only. *)
Lemma send_side_irrelevant (pixels : list Z) (side side' : string)
    (s : State W H) :
  panel_code side = panel_code side' ->
  send_to_oled pixels side s = send_to_oled pixels side' s.
Proof.
  intros Hp.
  assert (Hc : forall bd i, chunk_command bd side i = chunk_command bd side' i).
  { intros bd i. unfold chunk_command. now rewrite Hp. }
  assert (Hk : completion_command side = completion_command side').
  { unfold completion_command. now rewrite Hp. }
  unfold send_to_oled, bind at 1, get_device.
  unfold bind at 3. destruct (device s); [|reflexivity].
  unfold try_except, bind.
  rewrite (for_each_ext _ (send_chunk (pack_pixels pixels) side)
             (send_chunk (pack_pixels pixels) side')).
  - destruct (for_each _ _ s) as [s1 [[]|e]]; [|reflexivity].
    now rewrite !send_completion_run, Hk.
  - intros i s0. now rewrite !send_chunk_run, Hc.
Qed.

(** C10. The side argument is not validated.  On a connected device a
    transfer writes reports whatever the string is, and every report,
    data chunk or completion, carries at offset 2 the panel code of the
    argument: 0x01 when it is the string left, 0x02 for every other
    string.  A call with any string other than left, a misspelling
    included, is the call with right: same reports, same result. *)
Theorem panel_selector_unvalidated (pixels : list Z) (oled_side : string)
    (s : State W H) (h : H) :
  device s = Some h ->
  exists s' b evs,
    send_to_oled pixels oled_side s = (s', Ok b)
    /\ trace s' = trace s ++ evs
    /\ (exists kind report rest, writes_of evs = (kind, report) :: rest)
    /\ Forall (fun w => nth 2 (snd w) 0%Z = panel_code oled_side)
              (writes_of evs)
    /\ ((oled_side = "left"%string /\ panel_code oled_side = 0x01%Z)
        \/ (oled_side <> "left"%string /\ panel_code oled_side = 0x02%Z))
    /\ (oled_side <> "left"%string ->
        send_to_oled pixels oled_side s
        = send_to_oled pixels "right"%string s)
    /\ panel_code "right" = 0x02%Z
    /\ panel_code "Left" = 0x02%Z
    /\ panel_code "lfet" = 0x02%Z.
Proof.
  intros Hd.
  destruct (send_to_oled_spec pixels oled_side s h Hd)
    as (s' & b & evs & m & E & T & _ & _ & _ & Hw & Hm & _).
  exists s', b, evs.
  split; [exact E|]. split; [exact T|].
  split.
  { rewrite Hw. destruct m as [|m]; [lia|].
    destruct (planned_writes (pack_pixels pixels) oled_side)
      as [|[kind report] rest] eqn:Ep.
    - apply (f_equal (@length _)) in Ep. unfold planned_writes in Ep.
      rewrite length_app in Ep. cbn [length] in Ep. lia.
    - cbn [firstn]. now exists kind, report, (firstn m rest). }
  split.
  { rewrite Hw. apply Forall_forall. intros w Hin.
    destruct (planned_prefix_entry _ _ _ _ Hin)
      as [(i & _ & _ & ->) | (_ & ->)].
    - cbn [snd chunk_write]. rewrite chunk_command_layout. reflexivity.
    - reflexivity. }
  assert (Hcase : (oled_side = "left"%string /\ panel_code oled_side = 0x01%Z)
                  \/ (oled_side <> "left"%string
                      /\ panel_code oled_side = 0x02%Z)).
  { unfold panel_code.
    destruct (String.eqb_spec oled_side "left"); [left|right]; auto. }
  split; [exact Hcase|].
  split; [|repeat split].
  intros Hne. apply send_side_irrelevant.
  destruct Hcase as [(He & _) | (_ & Hc)]; [contradiction|].
  rewrite Hc. reflexivity.
Qed.

End TransferWrites.

(** ** The transfer: failures *)

Section TransferFailures.

Context {W H : Type} {Api : HidApi W H}.

Lemma seq_split_at (n i : nat) :
  i < n -> seq 0 n = seq 0 i ++ i :: seq (S i) (n - S i).
Proof.
  intros Hi. replace n with (i + S (n - S i)) at 1 by lia.
  rewrite seq_app. reflexivity.
Qed.

(** C1, as the code has it.  There is no size check before transmission.
    When the chunk count exceeds 255, a transfer on a connected device
    starts device I/O with data chunk 0 and writes at most the 256 data
    chunks whose index fits a byte; when the count exceeds 256 it returns
    False with one error message and never writes the completion
    report. *)
Theorem oversized_transfer_fails_late (pixels : list Z)
    (oled_side : string) (s : State W H) (h : H) :
  255 < total_chunks (pack_pixels pixels) ->
  device s = Some h ->
  exists s' b evs m,
    send_to_oled pixels oled_side s = (s', Ok b)
    /\ trace s' = trace s ++ evs
    /\ filter is_data_chunk (writes_of evs)
       = map (chunk_write (pack_pixels pixels) oled_side) (seq 0 m)
    /\ 0 < m <= 256
    /\ (256 < total_chunks (pack_pixels pixels) ->
        b = false
        /\ filter is_completion (writes_of evs) = []
        /\ exists msg, messages_of evs = [msg]).
Proof.
  intros HN Hd.
  destruct (send_to_oled_spec pixels oled_side s h Hd)
    as (s' & b & evs & m & E & T & _ & _ & _ & Hw & Hm & Hi & Ht & Hf).
  exists s', b, evs, (Nat.min m (total_chunks (pack_pixels pixels))).
  split; [exact E|]. split; [exact T|].
  split; [rewrite Hw; apply planned_prefix_data|].
  split.
  { split; [lia|].
    destruct (Nat.le_gt_cases
                (Nat.min m (total_chunks (pack_pixels pixels))) 256)
      as [Hle | Hgt]; [exact Hle|].
    specialize (Hi 256 ltac:(lia) ltac:(lia)). lia. }
  intros HN'.
  assert (Hm256 : m <= 256).
  { destruct (Nat.le_gt_cases m 256) as [Hle | Hgt]; [exact Hle|].
    specialize (Hi 256 Hgt HN'). lia. }
  assert (Hb : b = false).
  { destruct b; [|reflexivity]. destruct (Ht eq_refl) as (Hm' & _). lia. }
  split; [exact Hb|].
  split; [|now apply Hf].
  rewrite Hw, planned_prefix_completion.
  rewrite (proj2 (Nat.ltb_ge _ _)) by lia. reflexivity.
Qed.

(** C7. When the chunks before chunk i were sent and acknowledged, the
    write of chunk i succeeds and [read_with_timeout(0.5)] then returns
    None, [send_to_oled] shows the time-out error of chunk i, returns
    False and writes nothing more: the writes of the run are the chunks
    0..i, with no completion report.  With i = 0 this is the transfer
    whose first chunk is never acknowledged.  (The index is below 256:
    the report of a chunk with a larger index is never written.) *)
Theorem missing_ack_aborts (pixels : list Z) (oled_side : string)
    (s : State W H) (h : H) (i : nat) (s_i : State W H) (w' : W)
    (s_t : State W H) :
  let bytes_data := pack_pixels pixels in
  let command := chunk_command bytes_data oled_side i in
  device s = Some h ->
  i < total_chunks bytes_data ->
  i < 256 ->
  for_each (seq 0 i) (send_chunk bytes_data oled_side) s = (s_i, Ok tt) ->
  hid_write h command (world s_i) = (w', true) ->
  read_with_timeout 500 (written (DataChunk i) command h w' true s_i)
  = (s_t, Ok None) ->
  exists s' evs,
    send_to_oled pixels oled_side s = (s', Ok false)
    /\ trace s' = trace s_t ++ [EvMessage (MsgChunkTimeout i)]
    /\ trace s' = trace s ++ evs
    /\ writes_of evs = map (chunk_write bytes_data oled_side) (seq 0 (S i))
    /\ filter is_completion (writes_of evs) = []
    /\ messages_of evs = [MsgChunkTimeout i].
Proof.
  intros bytes_data command Hd Hi H256 Hpre Hw Hrt.
  assert (Hbd : forallb is_byte bytes_data = true)
    by apply pack_pixels_bytes.
  destruct (send_chunks_spec bytes_data oled_side i 0 s)
    as (s1 & r1 & evs1 & m1 & E1 & T1 & D1 & (_ & _ & Sm1) & _ & Wr1 & _
        & Hok1 & _).
  rewrite Hpre in E1. injection E1 as <- <-.
  specialize (Hok1 eq_refl). subst m1.
  destruct (read_with_timeout_spec 500
              (written (DataChunk i) command h w' true s_i))
    as (s2 & o & evs2 & E2 & (T2 & Q2 & D2 & _) & _).
  apply poll_events_quiet in Q2.
  rewrite Hrt in E2. injection E2 as <- <-.
  cbn [trace written] in T2.
  assert (Hloop :
    for_each (seq 0 (total_chunks bytes_data))
             (send_chunk bytes_data oled_side) s
    = (s_t, Raise (TimeoutError (MsgChunkTimeout i)))).
  { rewrite (seq_split_at _ _ Hi), for_each_app, Hpre, for_each_cons.
    rewrite send_chunk_run, exchange_run.
    fold command. unfold command at 1.
    rewrite (chunk_command_bytes _ _ _ Hbd).
    rewrite (proj2 (Nat.ltb_lt _ _) H256).
    rewrite D1, Hd. fold command. rewrite Hw, Hrt. reflexivity. }
  rewrite (send_to_oled_run _ _ _ _ Hd). fold bytes_data.
  rewrite Hloop, send_handler_run. cbn [handler_message].
  eexists _, (evs1 ++ [EvWrite (DataChunk i) h command true] ++ evs2
                ++ [EvMessage (MsgChunkTimeout i)]).
  split; [reflexivity|]. cbn [trace].
  split; [reflexivity|].
  split; [rewrite T2, T1, <- !app_assoc; reflexivity|].
  assert (Hwr : writes_of (evs1 ++ [EvWrite (DataChunk i) h command true]
                             ++ evs2 ++ [EvMessage (MsgChunkTimeout i)])
                = map (chunk_write bytes_data oled_side) (seq 0 (S i))).
  { rewrite !writes_of_app, Wr1, (quiet_writes _ Q2), seq_S, map_app.
    reflexivity. }
  split; [exact Hwr|].
  split; [rewrite Hwr; apply filter_completion_chunks|].
  rewrite !messages_of_app, Sm1, (quiet_messages _ Q2). reflexivity.
Qed.

(** C8. A zero-length packed bitmap has N = 0: on a connected device
    [send_to_oled] writes no data chunk and exactly one report, the
    completion report, and returns True exactly when that write succeeds
    and [read_with_timeout(0.5)] then returns a response. *)
Theorem empty_bitmap_transfer (pixels : list Z) (oled_side : string)
    (s : State W H) (h : H) :
  pack_pixels pixels = [] ->
  device s = Some h ->
  total_chunks (pack_pixels pixels) = 0
  /\ exists s' b evs,
       send_to_oled pixels oled_side s = (s', Ok b)
       /\ trace s' = trace s ++ evs
       /\ writes_of evs = [(Completion, completion_command oled_side)]
       /\ (b = true <->
           exists w' s_a resp,
             hid_write h (completion_command oled_side) (world s)
             = (w', true)
             /\ read_with_timeout 500
                  (written Completion (completion_command oled_side)
                           h w' true s)
                = (s_a, Ok (Some resp))).
Proof.
  intros Hp Hd. rewrite Hp. split; [reflexivity|].
  destruct (send_to_oled_spec pixels oled_side s h Hd)
    as (s' & b & evs & m & E & T & _ & _ & _ & Hw & Hm & _ & _ & _).
  rewrite Hp in Hw, Hm. change (total_chunks []) with 0 in Hm.
  assert (m = 1) by lia. subst m.
  exists s', b, evs.
  split; [exact E|]. split; [exact T|]. split; [exact Hw|].
  rewrite (send_to_oled_run _ _ _ _ Hd), Hp in E.
  change (total_chunks []) with 0 in E. cbn [seq for_each] in E.
  unfold ret at 1 in E.
  rewrite exchange_run, completion_command_bytes, Hd in E.
  destruct (hid_write h (completion_command oled_side) (world s))
    as [w' ok] eqn:Ew.
  destruct ok.
  - destruct (read_with_timeout 500 _) as [s2 [[resp|]|e]] eqn:Er.
    + injection E as <- <-. split; [intros _|reflexivity].
      now exists w', s2, resp.
    + rewrite send_handler_run in E. injection E as <- <-.
      split; [discriminate|].
      intros (w2 & s_a & resp & Ew2 & Er2).
      injection Ew2 as <-. rewrite Er in Er2. discriminate.
    + rewrite send_handler_run in E. injection E as <- <-.
      split; [discriminate|].
      intros (w2 & s_a & resp & Ew2 & Er2).
      injection Ew2 as <-. rewrite Er in Er2. discriminate.
  - rewrite send_handler_run in E. injection E as <- <-.
    split; [discriminate|].
    intros (w2 & s_a & resp & Ew2 & _). discriminate.
Qed.

End TransferFailures.

(** ** The handshake and discovery: proofs *)

Section Discovery.

Context {W H : Type} {Api : HidApi W H}.

Lemma get_protocol_version_run (s : State W H) :
  get_protocol_version s
  = match exchange VersionQuery version_command 1000 s with
    | (s1, Ok (Some resp)) =>
        (s1, Ok (if 3 <=? length resp then Some (nth 2 resp 0%Z) else None))
    | (s1, Ok None) => (s1, Ok None)
    | (s1, Raise _) => (s1, Ok None)
    end.
Proof.
  unfold get_protocol_version, try_except, exchange, bind.
  destruct (to_bytes _ s) as [s0 [report|e]]; [|reflexivity].
  destruct (device_write _ report s0) as [s1 [[]|e]]; [|reflexivity].
  destruct (read_with_timeout 1000 s1) as [s2 [[resp|]|e]];
    try reflexivity.
  destruct (3 <=? length resp); reflexivity.
Qed.

(** [get_protocol_version] always returns; it leaves [self.device]
    alone and only writes the version query and polls. *)
Lemma get_protocol_version_spec (s : State W H) :
  exists s' o evs,
    get_protocol_version s = (s', Ok o)
    /\ trace s' = trace s ++ evs /\ device s' = device s
    /\ Forall (handshake_event (device s)) evs.
Proof.
  rewrite get_protocol_version_run, exchange_run.
  change (forallb is_byte version_command) with true. cbv iota.
  destruct (device s) as [h|] eqn:Ed.
  - destruct (hid_write h version_command (world s)) as [w' [|]].
    + destruct (read_with_timeout_spec 1000
                  (written VersionQuery version_command h w' true s))
        as (s' & o & evs & E & (T & Q & D & _) & _).
      rewrite E. cbn [trace device written] in T, Q, D.
      exists s',
        (match o with
         | Some resp =>
             if 3 <=? length resp then Some (nth 2 resp 0%Z) else None
         | None => None
         end),
        (EvWrite VersionQuery h version_command true :: evs).
      split; [destruct o; reflexivity|].
      split; [now rewrite T, <- app_assoc|].
      split; [congruence|].
      constructor; [cbn; auto|].
      rewrite Ed in Q. now apply poll_events_handshake.
    + eexists _, None, [EvWrite VersionQuery h version_command false].
      split; [reflexivity|]. split; [reflexivity|].
      split; [cbn; congruence|]. repeat constructor.
  - exists s, None, [].
    split; [reflexivity|]. split; [now rewrite app_nil_r|].
    split; [congruence|]. constructor.
Qed.

(** C9. [get_protocol_version] never raises, and returns a version
    exactly when a response of at least three bytes was received: when
    the write of the query succeeds and [read_with_timeout(1.0)] then
    returns a response, the result is byte 2 of that response if it has
    at least three bytes and None if it is shorter; a time-out, a write
    that raises and a missing device give None; and a returned version
    always comes from such a response. *)
Theorem protocol_version_probe (s : State W H) :
  (forall h w' s_r resp,
     device s = Some h ->
     hid_write h version_command (world s) = (w', true) ->
     read_with_timeout 1000
       (written VersionQuery version_command h w' true s)
     = (s_r, Ok (Some resp)) ->
     (3 <= length resp ->
      get_protocol_version s = (s_r, Ok (Some (nth 2 resp 0%Z))))
     /\ (length resp < 3 -> get_protocol_version s = (s_r, Ok None)))
  /\ (forall h w' s_r,
        device s = Some h ->
        hid_write h version_command (world s) = (w', true) ->
        read_with_timeout 1000
          (written VersionQuery version_command h w' true s)
        = (s_r, Ok None) ->
        get_protocol_version s = (s_r, Ok None))
  /\ (forall h w',
        device s = Some h ->
        hid_write h version_command (world s) = (w', false) ->
        get_protocol_version s
        = (written VersionQuery version_command h w' false s, Ok None))
  /\ (device s = None -> get_protocol_version s = (s, Ok None))
  /\ exists s' o,
       get_protocol_version s = (s', Ok o)
       /\ forall v,
            o = Some v ->
            exists h w' resp,
              device s = Some h
              /\ hid_write h version_command (world s) = (w', true)
              /\ read_with_timeout 1000
                   (written VersionQuery version_command h w' true s)
                 = (s', Ok (Some resp))
              /\ 3 <= length resp
              /\ nth 2 resp 0%Z = v.
Proof.
  rewrite !get_protocol_version_run, !exchange_run.
  change (forallb is_byte version_command) with true. cbv iota.
  split.
  { intros h w' s_r resp Hd Hw Hr. rewrite Hd, Hw, Hr. split; intros Hl.
    - now rewrite (proj2 (Nat.leb_le _ _) Hl).
    - now rewrite (proj2 (Nat.leb_gt _ _) Hl). }
  split.
  { intros h w' s_r Hd Hw Hr. now rewrite Hd, Hw, Hr. }
  split.
  { intros h w' Hd Hw. now rewrite Hd, Hw. }
  split.
  { intros Hd. now rewrite Hd. }
  destruct (device s) as [h|] eqn:Ed.
  - destruct (hid_write h version_command (world s)) as [w' [|]] eqn:Ew.
    + destruct (read_with_timeout_spec 1000
                  (written VersionQuery version_command h w' true s))
        as (s' & o & evs & E & _ & _).
      rewrite E. destruct o as [resp|].
      * eexists s', _. split; [reflexivity|]. intros v.
        destruct (3 <=? length resp) eqn:El; [|discriminate].
        apply Nat.leb_le in El. intros [= <-]. now exists h, w', resp.
      * exists s', None. split; [reflexivity|]. discriminate.
    + eexists _, None. split; [reflexivity|]. discriminate.
  - exists s, None. split; [reflexivity|]. discriminate.
Qed.

(** One candidate: either it is not kept, [self.device] is None
    afterwards and its handle, if any, was closed; or its handshake
    succeeded and [self.device] holds its handle, still open. *)
Lemma probe_spec (d : DeviceInfo) (s : State W H) :
  exists s' b evs,
    probe d s = (s', Ok b)
    /\ trace s' = trace s ++ evs
    /\ ((b = false /\ device s' = None /\ probe_failed (path d) evs)
        \/ (b = true
            /\ exists h v hs,
                 device s' = Some h
                 /\ evs = [EvOpen (path d) (Some h)] ++ hs
                            ++ [EvMessage (MsgConnected v)]
                 /\ Forall (handshake_event (Some h)) hs)).
Proof.
  unfold probe, try_except, bind, hid_Device, set_device, get_device.
  destruct (hid_open (path d) (world s)) as [w' [h|]].
  - cbn [world clock device trace].
    match goal with
    | |- context [get_protocol_version ?st] =>
        destruct (get_protocol_version_spec st)
          as (s2 & o & hs & E & T & D & F)
    end.
    rewrite E. cbn [trace device] in T, D, F.
    destruct o as [v|].
    + eexists _, true, ([EvOpen (path d) (Some h)] ++ hs
                          ++ [EvMessage (MsgConnected v)]).
      split; [reflexivity|]. cbn [trace device emit].
      split; [rewrite T, <- !app_assoc; reflexivity|].
      right. split; [reflexivity|]. exists h, v, hs. auto.
    + unfold device_close. rewrite D.
      eexists _, false, ([EvOpen (path d) (Some h)] ++ hs ++ [EvClose h]).
      split; [reflexivity|]. cbn [trace device].
      split; [rewrite T, <- !app_assoc; reflexivity|].
      left. split; [reflexivity|]. split; [reflexivity|].
      now constructor.
  - cbn [world clock device trace].
    destruct (device s) as [old|] eqn:Ed.
    + unfold device_close. cbn [world clock device trace ret].
      eexists _, false, [EvOpen (path d) None; EvClose old].
      split; [reflexivity|]. cbn [trace device].
      split; [rewrite <- app_assoc; reflexivity|].
      left. split; [reflexivity|]. split; [reflexivity|]. constructor.
    + eexists _, false, [EvOpen (path d) None].
      split; [reflexivity|]. cbn [trace device].
      split; [reflexivity|].
      left. split; [reflexivity|]. split; [reflexivity|]. constructor.
Qed.

Lemma connect_loop_cons (d : DeviceInfo) (rest : list DeviceInfo)
    (s : State W H) :
  connect_loop (d :: rest) s
  = match probe d s with
    | (s1, Ok true) => (s1, Ok true)
    | (s1, Ok false) => connect_loop rest s1
    | (s1, Raise e) => (s1, Raise e)
    end.
Proof.
  cbn [connect_loop]. unfold bind.
  destruct (probe d s) as [s1 [[|]|e]]; reflexivity.
Qed.

Lemma connect_loop_app (pre rest : list DeviceInfo) (s : State W H) :
  connect_loop (pre ++ rest) s
  = match connect_loop pre s with
    | (s1, Ok false) => connect_loop rest s1
    | other => other
    end.
Proof.
  revert s. induction pre as [|d pre IH]; intros s; [reflexivity|].
  cbn [app]. rewrite !connect_loop_cons.
  destruct (probe d s) as [s1 [[|]|e]]; try reflexivity. apply IH.
Qed.

(** A loop that was not left by [return] did not keep any candidate. *)
Lemma connect_loop_failed (devices : list DeviceInfo) (s s' : State W H) :
  connect_loop devices s = (s', Ok false) ->
  exists evs,
    trace s' = trace s ++ evs
    /\ failed_probes (map path devices) evs
    /\ (devices <> [] -> device s' = None).
Proof.
  revert s. induction devices as [|d rest IH]; intros s E.
  - cbn in E. injection E as <-. exists [].
    split; [now rewrite app_nil_r|]. split; [constructor|]. congruence.
  - rewrite connect_loop_cons in E.
    destruct (probe_spec d s) as (s1 & b & e1 & E1 & T1 & Hc).
    rewrite E1 in E.
    destruct Hc as [(-> & D1 & F1) | (-> & _)]; [|discriminate].
    destruct (IH s1 E) as (e2 & T2 & F2 & D2).
    exists (e1 ++ e2).
    split; [now rewrite T2, T1, app_assoc|].
    split; [now constructor|].
    intros _. destruct rest as [|d2 rest]; [|apply D2; discriminate].
    cbn in E. injection E as <-. exact D1.
Qed.

(** [connect_loop] always returns, and only writes version queries. *)
Lemma connect_loop_spec (devices : list DeviceInfo) (s : State W H) :
  exists s' b evs,
    connect_loop devices s = (s', Ok b)
    /\ trace s' = trace s ++ evs
    /\ Forall (fun w => w = (VersionQuery, version_command))
              (writes_of evs).
Proof.
  revert s. induction devices as [|d rest IH]; intros s.
  - exists s, false, []. cbn.
    split; [reflexivity|]. split; [now rewrite app_nil_r|]. constructor.
  - rewrite connect_loop_cons.
    destruct (probe_spec d s) as (s1 & b & e1 & E1 & T1 & Hc).
    rewrite E1.
    assert (Hver : forall (h : H) (hs : list (Event H)),
              Forall (handshake_event (Some h)) hs ->
              Forall (fun w => w = (VersionQuery, version_command))
                     (writes_of hs)).
    { intros h hs. induction 1 as [|e hs He _ IHhs]; [constructor|].
      destruct e as [| | [] | | | |]; cbn in *; try contradiction;
        try exact IHhs.
      destruct He as (_ & ->). now constructor. }
    assert (Hw1 : Forall (fun w => w = (VersionQuery, version_command))
                         (writes_of e1)).
    { destruct Hc as [(_ & _ & F1) | (_ & h & v & hs & _ & -> & F1)].
      - destruct F1 as [| old | h hs F1]; try constructor.
        cbn [app writes_of]. rewrite writes_of_app. cbn.
        rewrite app_nil_r. now apply (Hver h).
      - cbn [app writes_of]. rewrite writes_of_app. cbn.
        rewrite app_nil_r. now apply (Hver h). }
    destruct b.
    + exists s1, true, e1. auto.
    + destruct (IH s1) as (s2 & b2 & e2 & E2 & T2 & Hw2).
      exists s2, b2, (e1 ++ e2).
      split; [exact E2|].
      split; [now rewrite T2, T1, app_assoc|].
      rewrite writes_of_app. now apply Forall_app.
Qed.

Lemma handshake_no_open_close (d : option H) (hs : list (Event H)) :
  Forall (handshake_event d) hs -> opens_of hs = [] /\ closes_of hs = [].
Proof.
  induction 1 as [|e hs He _ IH]; [split; reflexivity|].
  destruct e; cbn in *; try contradiction; exact IH.
Qed.

Lemma handshake_writes (d : option H) (hs : list (Event H)) :
  Forall (handshake_event d) hs ->
  Forall (fun w => w = (VersionQuery, version_command)) (writes_of hs).
Proof.
  induction 1 as [|e hs He _ IH]; [constructor|].
  destruct e as [| | [] | | | |]; cbn in *; try contradiction;
    try exact IH.
  destruct He as (_ & ->). now constructor.
Qed.

Lemma failed_probes_opens (ps : list Path) (evs : list (Event H)) :
  failed_probes ps evs -> opens_of evs = ps.
Proof.
  induction 1 as [|p ps e1 e2 F1 _ IH]; [reflexivity|].
  rewrite opens_of_app, IH.
  destruct F1 as [| old | h hs Fh]; try reflexivity.
  cbn [app opens_of]. rewrite opens_of_app.
  rewrite (proj1 (handshake_no_open_close _ _ Fh)). reflexivity.
Qed.

Lemma connect_hid_connected (devices : list DeviceInfo) (s : State W H)
    (w0 : W) (s2 : State W H) :
  hid_enumerate LILY58_VENDOR_ID LILY58_PRODUCT_ID (world s)
  = (w0, Some devices) ->
  connect_loop devices (enumerated w0 true s) = (s2, Ok true) ->
  connect_hid s = (s2, Ok tt).
Proof.
  intros He Hl.
  unfold connect_hid, try_except, bind, enumerate. rewrite He.
  fold (enumerated w0 true s). rewrite Hl. reflexivity.
Qed.

(** [connect_hid] always returns, and only writes version queries. *)
Lemma connect_hid_spec (s : State W H) :
  exists s' evs,
    connect_hid s = (s', Ok tt)
    /\ trace s' = trace s ++ evs
    /\ Forall (fun w => w = (VersionQuery, version_command))
              (writes_of evs).
Proof.
  unfold connect_hid, try_except, bind, enumerate.
  destruct (hid_enumerate _ _ (world s)) as [w0 [devices|]].
  - fold (enumerated w0 true s).
    destruct (connect_loop_spec devices (enumerated w0 true s))
      as (s1 & b & evs & E & T & Hw).
    rewrite E. cbn [trace enumerated] in T.
    destruct b.
    + exists s1, (EvEnumerate true :: evs).
      split; [reflexivity|].
      split; [now rewrite T, <- app_assoc|]. exact Hw.
    + unfold get_device. destruct (device s1).
      * exists s1, (EvEnumerate true :: evs).
        split; [reflexivity|].
        split; [now rewrite T, <- app_assoc|]. exact Hw.
      * eexists _, (EvEnumerate true :: evs ++ [EvMessage MsgNotFound]).
        split; [reflexivity|]. cbn [trace emit].
        split; [rewrite T, <- !app_assoc; reflexivity|].
        cbn [writes_of]. rewrite writes_of_app. cbn.
        now rewrite app_nil_r.
  - unfold get_device, emit, device_close, set_device.
    cbn [world clock device trace].
    destruct (device s).
    + eexists _, [EvEnumerate false; EvMessage MsgConnectFailed; EvClose h].
      split; [reflexivity|]. cbn [trace].
      split; [rewrite <- !app_assoc; reflexivity|]. constructor.
    + eexists _, [EvEnumerate false; EvMessage MsgConnectFailed].
      split; [reflexivity|]. cbn [trace].
      split; [rewrite <- !app_assoc; reflexivity|]. constructor.
Qed.

(** C6. When enumeration yields the candidates [pre ++ d :: post], no
    candidate of [pre] is kept and the probe of [d] succeeds,
    [connect_hid] returns in the state that probe left: [self.device]
    holds the handle opened on [d], which is not closed; the opens
    attempted are those of [pre] and [d], in order, and nothing at all
    follows the handshake of [d] but the success message, so no
    candidate of [post] is touched; each candidate of [pre] whose open
    gave a handle had that handle closed before the next open. *)
Theorem first_success_wins (pre : list DeviceInfo) (d : DeviceInfo)
    (post : list DeviceInfo) (s : State W H) (w0 : W)
    (s1 s2 : State W H) :
  hid_enumerate LILY58_VENDOR_ID LILY58_PRODUCT_ID (world s)
  = (w0, Some (pre ++ d :: post)) ->
  connect_loop pre (enumerated w0 true s) = (s1, Ok false) ->
  probe d s1 = (s2, Ok true) ->
  connect_hid s = (s2, Ok tt)
  /\ exists evs_pre h v hs,
       trace s2
       = trace s ++ [EvEnumerate true] ++ evs_pre
           ++ [EvOpen (path d) (Some h)] ++ hs
           ++ [EvMessage (MsgConnected v)]
       /\ device s2 = Some h
       /\ failed_probes (map path pre) evs_pre
       /\ Forall (handshake_event (Some h)) hs
       /\ opens_of (evs_pre ++ [EvOpen (path d) (Some h)] ++ hs
                      ++ [EvMessage (MsgConnected v)])
          = map path (pre ++ [d])
       /\ closes_of (hs ++ [EvMessage (MsgConnected v)]) = [].
Proof.
  intros He Hpre Hd.
  split.
  { apply (connect_hid_connected _ _ _ _ He).
    rewrite connect_loop_app, Hpre, connect_loop_cons, Hd. reflexivity. }
  destruct (connect_loop_failed _ _ _ Hpre) as (evs_pre & T1 & F1 & _).
  cbn [trace enumerated] in T1.
  destruct (probe_spec d s1) as (s2' & b & e2 & E2 & T2 & Hc).
  rewrite Hd in E2. injection E2 as <- <-.
  destruct Hc as [([=] & _) | (_ & h & v & hs & D2 & -> & Fh)].
  exists evs_pre, h, v, hs.
  split; [rewrite T2, T1, <- !app_assoc; reflexivity|].
  split; [exact D2|]. split; [exact F1|]. split; [exact Fh|].
  destruct (handshake_no_open_close _ _ Fh) as (Ho & Hcl).
  split.
  - rewrite opens_of_app, (failed_probes_opens _ _ F1), map_app.
    cbn [app opens_of map]. rewrite opens_of_app, Ho. reflexivity.
  - rewrite closes_of_app, Hcl. reflexivity.
Qed.

(** C4. Every report passed to [write], by [send_to_oled] (data chunks
    and completion), by [get_protocol_version] and by [connect_hid]
    (version queries), is 32 bytes long and starts with 0x00; a data
    chunk report is its four header bytes, the chunk, and zeros up to
    32 bytes. *)
Theorem reports_are_32_bytes :
  (forall pixels oled_side (s : State W H),
     exists s' b evs,
       send_to_oled pixels oled_side s = (s', Ok b)
       /\ trace s' = trace s ++ evs
       /\ Forall (fun w => report_ok (snd w)) (writes_of evs))
  /\ (forall s : State W H,
        exists s' o evs,
          get_protocol_version s = (s', Ok o)
          /\ trace s' = trace s ++ evs
          /\ Forall (fun w => report_ok (snd w)) (writes_of evs))
  /\ (forall s : State W H,
        exists s' evs,
          connect_hid s = (s', Ok tt)
          /\ trace s' = trace s ++ evs
          /\ Forall (fun w => report_ok (snd w)) (writes_of evs))
  /\ (forall bytes_data oled_side i,
        chunk_command bytes_data oled_side i
        = [0x00%Z; VIA_COMMAND_OLED; panel_code oled_side; Z.of_nat i]
            ++ chunk_of bytes_data i
            ++ repeat 0%Z (28 - length (chunk_of bytes_data i))).
Proof.
  assert (Hver : forall l : list (WriteKind * list Z),
            Forall (fun w => w = (VersionQuery, version_command)) l ->
            Forall (fun w => report_ok (snd w)) l).
  { intros l. apply Forall_impl. intros w ->.
    repeat split; reflexivity. }
  split.
  { intros pixels oled_side s.
    destruct (send_to_oled_writes pixels oled_side s)
      as (s' & b & evs & m & E & T & _ & _ & _ & Hw & _ & Hi & _).
    exists s', b, evs. split; [exact E|]. split; [exact T|].
    rewrite Hw. apply Forall_forall. intros w Hin.
    destruct (planned_prefix_entry _ _ _ _ Hin)
      as [(i & Him & HiN & ->) | (_ & ->)].
    - cbn [snd chunk_write]. split; [apply chunk_command_length|].
      split; [rewrite chunk_command_layout; reflexivity|].
      rewrite chunk_command_bytes by apply pack_pixels_bytes.
      apply Nat.ltb_lt. now apply Hi.
    - cbn [snd]. split; [reflexivity|].
      split; [reflexivity|apply completion_command_bytes]. }
  split.
  { intros s.
    destruct (get_protocol_version_spec s) as (s' & o & evs & E & T & _ & F).
    exists s', o, evs. split; [exact E|]. split; [exact T|].
    apply Hver. exact (handshake_writes _ _ F). }
  split.
  { intros s.
    destruct (connect_hid_spec s) as (s' & evs & E & T & F).
    exists s', evs. split; [exact E|]. split; [exact T|].
    now apply Hver. }
  intros. apply chunk_command_layout.
Qed.

End Discovery.

(** ** Runs on the simulated keyboard *)

Section Simulated.

(** The deployed panel: 128 x 32 pixels pack to 512 bytes, sent as 19
    data chunks (18 of 28 bytes, one of 8) and the completion report. *)
Example end_to_end_128x32 :
  let pixels := repeat 255%Z (128 * 32) in
  let run := send_to_oled pixels "right"%string connected in
  length (pack_pixels pixels) = 512
  /\ snd run = Ok true
  /\ map fst (writes_of (trace (fst run)))
     = map DataChunk (seq 0 19) ++ [Completion]
  /\ length (chunk_of (pack_pixels pixels) 18) = 8.
Proof.
  vm_compute. repeat split.
Qed.

(** C1 fails on the code: a bitmap of 256 chunks is transmitted in full
    and the transfer returns True; one of 257 chunks is refused only
    after 256 data chunks were written. *)
Lemma no_size_guard_counterexample :
  let pixels := repeat 0%Z (256 * 224) in
  let larger := repeat 0%Z (257 * 224) in
  255 < total_chunks (pack_pixels pixels)
  /\ snd (send_to_oled pixels "left"%string connected) = Ok true
  /\ length (writes_of
               (trace (fst (send_to_oled pixels "left"%string connected))))
     = 257
  /\ 255 < total_chunks (pack_pixels larger)
  /\ snd (send_to_oled larger "left"%string connected) = Ok false
  /\ length (writes_of
               (trace (fst (send_to_oled larger "left"%string connected))))
     = 256
  /\ messages_of (trace (fst (send_to_oled larger "left"%string connected)))
     = [MsgSendFailed].
Proof.
  intros pixels larger.
  assert (Hp : pack_pixels pixels = repeat 0%Z (256 * 28)).
  { unfold pixels. rewrite pack_pixels_zeros. reflexivity. }
  assert (Hl : pack_pixels larger = repeat 0%Z (257 * 28)).
  { unfold larger. rewrite pack_pixels_zeros. reflexivity. }
  clearbody pixels larger.
  rewrite (send_to_oled_run pixels "left"%string connected "hid2"%string
             eq_refl).
  rewrite (send_to_oled_run larger "left"%string connected "hid2"%string
             eq_refl).
  rewrite Hp, Hl.
  split; [vm_compute; lia|].
  split; [vm_compute; reflexivity|].
  split; [vm_compute; reflexivity|].
  split; [vm_compute; lia|].
  vm_compute. repeat split.
Qed.

Lemma oversized_transfer_witness :
  let pixels := repeat 0%Z (257 * 224) in
  255 < total_chunks (pack_pixels pixels)
  /\ exists s' evs,
       send_to_oled pixels "left"%string connected = (s', Ok false)
       /\ trace s' = trace connected ++ evs
       /\ filter is_completion (writes_of evs) = [].
Proof.
  intros pixels.
  assert (HN : total_chunks (pack_pixels pixels) = 257).
  { unfold pixels. rewrite pack_pixels_zeros. vm_compute. reflexivity. }
  clearbody pixels.
  split; [lia|].
  destruct (oversized_transfer_fails_late pixels "left"%string
              connected "hid2"%string ltac:(lia) eq_refl)
    as (s' & b & evs & m & E & T & _ & _ & Hbig).
  destruct (Hbig ltac:(lia)) as (-> & Hc & _).
  exists s', evs. auto.
Defined.

Lemma transfer_chunk_count_witness :
  let pixels := repeat 255%Z 240 in
  total_chunks (pack_pixels pixels) = 2
  /\ length (chunk_of (pack_pixels pixels) 1) = 2
  /\ exists s' evs,
       send_to_oled pixels "left"%string connected = (s', Ok true)
       /\ trace s' = trace connected ++ evs
       /\ filter is_data_chunk (writes_of evs)
          = map (chunk_write (pack_pixels pixels) "left"%string) (seq 0 2).
Proof.
  cbv zeta.
  assert (HL : 0 < length (pack_pixels (repeat 255%Z 240))).
  { vm_compute. lia. }
  destruct (transfer_chunk_count (repeat 255%Z 240) "left"%string
              connected HL)
    as (HN & _ & _ & Hlast & _ & s' & b & evs & m & E & T & Hw & _ & Hall).
  assert (HN2 : total_chunks (pack_pixels (repeat 255%Z 240)) = 2).
  { rewrite HN. reflexivity. }
  split; [exact HN2|].
  split; [rewrite HN2 in Hlast; exact Hlast|].
  assert (Hb : b = true).
  { apply (f_equal snd) in E. vm_compute in E. now injection E. }
  subst b. exists s', evs.
  split; [exact E|]. split; [exact T|].
  rewrite Hw, (Hall eq_refl), HN2. reflexivity.
Defined.

Lemma sentinel_distinct_witness :
  exists s' evs,
    send_to_oled (repeat 255%Z 240) "left"%string connected = (s', Ok true)
    /\ trace s' = trace connected ++ evs
    /\ length (filter is_completion (writes_of evs)) = 1.
Proof.
  assert (HN : total_chunks (pack_pixels (repeat 255%Z 240)) <= 255).
  { vm_compute. lia. }
  destruct (sentinel_distinct (repeat 255%Z 240) "left"%string connected HN)
    as (s' & b & evs & E & T & _ & _ & _ & Hone).
  assert (Hb : b = true).
  { apply (f_equal snd) in E. vm_compute in E. now injection E. }
  subst b. exists s', evs. auto.
Defined.

Lemma missing_ack_aborts_witness :
  exists s',
    send_to_oled [255%Z] "left"%string unanswered = (s', Ok false)
    /\ writes_of (trace s')
       = [chunk_write (pack_pixels [255%Z]) "left"%string 0]
    /\ messages_of (trace s') = [MsgChunkTimeout 0].
Proof.
  pose (command := chunk_command (pack_pixels [255%Z]) "left"%string 0).
  pose (s_t := fst (read_with_timeout 500
                      (written (DataChunk 0) command "hid0"%string sim_silent
                               true unanswered))).
  destruct (missing_ack_aborts [255%Z] "left"%string unanswered "hid0"%string 0
              unanswered sim_silent s_t)
    as (s' & evs & E & _ & T & Hw & _ & Hm).
  - reflexivity.
  - vm_compute. lia.
  - lia.
  - reflexivity.
  - reflexivity.
  - vm_compute. reflexivity.
  - exists s'. split; [exact E|].
    rewrite T. cbn [trace unanswered sim_state app]. auto.
Defined.

Lemma empty_bitmap_transfer_witness :
  exists s' evs,
    send_to_oled [] "left"%string connected = (s', Ok true)
    /\ trace s' = trace connected ++ evs
    /\ writes_of evs = [(Completion, completion_command "left"%string)].
Proof.
  destruct (empty_bitmap_transfer [] "left"%string connected "hid2"%string
              eq_refl eq_refl)
    as (_ & s' & b & evs & E & T & Hw & _).
  assert (Hb : b = true).
  { apply (f_equal snd) in E. vm_compute in E. now injection E. }
  subst b. exists s', evs. auto.
Defined.

Lemma first_success_wins_witness :
  exists s2,
    connect_hid (sim_state sim_keyboard None) = (s2, Ok tt)
    /\ device s2 = Some "hid2"%string
    /\ opens_of (trace s2) = ["hid0"%string; "hid1"%string; "hid2"%string]
    /\ closes_of (trace s2) = ["hid1"%string].
Proof.
  pose (start := sim_state sim_keyboard None).
  pose (s1 := fst (connect_loop [{| path := "hid0"%string |}; {| path := "hid1"%string |}]
                     (enumerated sim_keyboard true start))).
  pose (s2 := fst (probe {| path := "hid2"%string |} s1)).
  destruct (first_success_wins
              [{| path := "hid0"%string |}; {| path := "hid1"%string |}]
              {| path := "hid2"%string |} [{| path := "hid3"%string |}]
              start sim_keyboard s1 s2)
    as (E & _).
  - reflexivity.
  - vm_compute. reflexivity.
  - vm_compute. reflexivity.
  - exists s2. split; [exact E|]. vm_compute. repeat split.
Defined.

End Simulated.

(** ** [read_with_timeout]: timing and events *)

Section ReadingMore.

Context {W H : Type} {Api : HidApi W H}.

Lemma poll_cases (s : State W H) :
  (device s = None /\ poll s = (s, Ok None))
  \/ (exists h w' r d,
        device s = Some h
        /\ hid_read h 32 (world s) = (w', r, d)
        /\ poll s
           = (mkState w' (clock s + Z.of_nat d) (device s)
                      (trace s ++ [EvRead h r]),
              Ok (match r with
                  | ReadData (b :: data) => Some (b :: data)
                  | _ => None
                  end))).
Proof.
  unfold poll, try_except, bind, device_read, ret.
  destruct (device s) as [h|] eqn:Ed; [right|left; auto].
  destruct (hid_read h 32 (world s)) as [[w' r] d] eqn:Er.
  exists h, w', r, d. split; [reflexivity|]. split; [exact Er|].
  destruct r as [|[|b data]]; reflexivity.
Qed.

Lemma read_loop_elapsed (fuel : nat) (start_time timeout : Z)
    (s s' : State W H) :
  (timeout - (clock s - start_time) <= 10 * Z.of_nat fuel)%Z ->
  read_loop fuel start_time timeout s = (s', Ok None) ->
  (timeout <= clock s' - start_time)%Z.
Proof.
  revert s. induction fuel as [|fuel IH]; intros s Hf E.
  - cbn in E. injection E as <-. lia.
  - rewrite read_loop_S in E.
    destruct (clock s - start_time <? timeout)%Z eqn:Ec.
    + destruct (poll_spec s) as (s1 & o & e1 & E1 & (_ & _ & _ & C1) & _).
      rewrite E1 in E. destruct o as [resp|]; [discriminate|].
      apply (IH (slept s1)); [|exact E].
      unfold slept. cbn [clock]. lia.
    + injection E as <-. apply Z.ltb_ge in Ec. lia.
Qed.

Lemma read_fuel_enough (timeout : Z) :
  (timeout <= 10 * Z.of_nat (read_fuel timeout))%Z.
Proof.
  unfold read_fuel.
  destruct (Z.le_gt_cases timeout 0) as [Hle|Hgt]; [lia|].
  rewrite Nat2Z.inj_succ, Z2Nat.id by (apply Z.div_pos; lia).
  pose proof (Z.mod_pos_bound timeout 10 ltac:(lia)).
  pose proof (Z.div_mod timeout 10 ltac:(lia)). lia.
Qed.

(** X1. [read_with_timeout] does not give up early: when it returns None,
    at least [timeout] milliseconds have passed on the clock. *)
Theorem read_timeout_not_early (timeout : Z) (s s' : State W H) :
  read_with_timeout timeout s = (s', Ok None) ->
  (timeout <= clock s' - clock s)%Z.
Proof.
  unfold read_with_timeout, bind, time_time. intros E.
  apply (read_loop_elapsed (read_fuel timeout) (clock s) timeout s s');
    [|exact E].
  pose proof (read_fuel_enough timeout). lia.
Qed.

Lemma reads_of_app (a b : list (Event H)) :
  reads_of (a ++ b) = reads_of a + reads_of b.
Proof.
  induction a as [|e a IH]; [reflexivity|].
  destruct e; cbn; rewrite ?IH; reflexivity.
Qed.

(** X2. [read_with_timeout] never raises: a read that raises, an empty
    read and a missing device are all swallowed by the loop, which only
    reads and sleeps and leaves [self.device] alone.  With a timeout of
    zero or less it returns None at once, without a read or a sleep. *)
Theorem read_swallows_errors (timeout : Z) (s : State W H) :
  exists s' o evs,
    read_with_timeout timeout s = (s', Ok o)
    /\ trace s' = trace s ++ evs
    /\ Forall quiet_event evs
    /\ device s' = device s
    /\ (forall resp, o = Some resp -> resp <> [])
    /\ ((timeout <= 0)%Z -> evs = [] /\ o = None /\ s' = s).
Proof.
  destruct (read_with_timeout_spec timeout s)
    as (s' & o & evs & E & (T & Q & D & _) & Hn).
  exists s', o, evs.
  split; [exact E|]. split; [exact T|].
  split; [exact (poll_events_quiet _ _ Q)|].
  split; [exact D|]. split; [exact Hn|].
  intros Hle. revert E.
  unfold read_with_timeout, bind, time_time, read_fuel.
  rewrite read_loop_S, Z.sub_diag, (proj2 (Z.ltb_ge 0 timeout) Hle).
  intros [= <- <-]. rewrite <- (app_nil_r (trace s)) in T at 1.
  apply app_inv_head in T. auto.
Qed.

Lemma read_loop_trace (fuel : nat) (start_time timeout : Z) (s : State W H)
    (h : H) :
  device s = Some h ->
  exists s' o evs,
    read_loop fuel start_time timeout s = (s', Ok o)
    /\ trace s' = trace s ++ evs
    /\ device s' = Some h
    /\ match o with
       | Some resp =>
           exists idle,
             evs = idle ++ [EvRead h (ReadData resp)]
             /\ Forall (idle_event h) idle /\ resp <> []
       | None => Forall (idle_event h) evs
       end.
Proof.
  revert s. induction fuel as [|fuel IH]; intros s Hd.
  - exists s, None, []. cbn.
    split; [reflexivity|]. split; [now rewrite app_nil_r|].
    split; [exact Hd|constructor].
  - rewrite read_loop_S.
    destruct (clock s - start_time <? timeout)%Z.
    + destruct (poll_cases s)
        as [(Ed & _) | (h' & w' & r & d & Ed & Er & Ep)]; [congruence|].
      rewrite Hd in Ed. injection Ed as <-. rewrite Ep.
      set (s1 := mkState w' (clock s + Z.of_nat d) (device s)
                         (trace s ++ [EvRead h r])).
      assert (Hnext : forall r0, r0 = ReadRaises \/ r0 = ReadData [] ->
        r = r0 ->
        exists s' o evs,
          read_loop fuel start_time timeout (slept s1) = (s', Ok o)
          /\ trace s' = trace s ++ evs
          /\ device s' = Some h
          /\ match o with
             | Some resp =>
                 exists idle,
                   evs = idle ++ [EvRead h (ReadData resp)]
                   /\ Forall (idle_event h) idle /\ resp <> []
             | None => Forall (idle_event h) evs
             end).
      { intros r0 Hr0 ->.
        destruct (IH (slept s1) Hd) as (s2 & o2 & e2 & E2 & T2 & D2 & Hs).
        assert (Hi : idle_event h (EvRead h r0)).
        { destruct Hr0 as [-> | ->]; [now left|now right; left]. }
        assert (Hsl : idle_event h (EvSleep 10)) by (now right; right).
        exists s2, o2, (EvRead h r0 :: EvSleep 10 :: e2).
        split; [exact E2|].
        split; [rewrite T2; unfold slept, s1; cbn [trace];
                now rewrite <- !app_assoc|].
        split; [exact D2|].
        destruct o2 as [resp|].
        - destruct Hs as (idle & -> & Fi & Hn).
          exists (EvRead h r0 :: EvSleep 10 :: idle).
          split; [reflexivity|]. split; [|exact Hn].
          constructor; [exact Hi|]. constructor; [exact Hsl|exact Fi].
        - constructor; [exact Hi|]. constructor; [exact Hsl|exact Hs]. }
      destruct r as [|[|b data]].
      * apply (Hnext ReadRaises); auto.
      * apply (Hnext (ReadData [])); auto.
      * exists s1, (Some (b :: data)), [EvRead h (ReadData (b :: data))].
        split; [reflexivity|]. split; [reflexivity|].
        split; [exact Hd|]. exists [].
        split; [reflexivity|]. split; [constructor|discriminate].
    + exists s, None, [].
      split; [reflexivity|]. split; [now rewrite app_nil_r|].
      split; [exact Hd|constructor].
Qed.

Lemma read_with_timeout_trace (timeout : Z) (s : State W H) (h : H) :
  device s = Some h ->
  exists s' o evs,
    read_with_timeout timeout s = (s', Ok o)
    /\ trace s' = trace s ++ evs
    /\ device s' = Some h
    /\ match o with
       | Some resp =>
           exists idle,
             evs = idle ++ [EvRead h (ReadData resp)]
             /\ Forall (idle_event h) idle /\ resp <> []
       | None => Forall (idle_event h) evs
       end.
Proof.
  unfold read_with_timeout, bind, time_time. apply read_loop_trace.
Qed.


End ReadingMore.

(** ** The handshake, discovery and [cleanup]: further properties *)

Section DiscoveryMore.

Context {W H : Type} {Api : HidApi W H}.

(** X4. The handshake writes one report, the version query, when a device
    is open, and does nothing at all when none is; when that write raises
    it returns None without reading. *)
Theorem handshake_io (s : State W H) :
  exists s' o evs,
    get_protocol_version s = (s', Ok o)
    /\ trace s' = trace s ++ evs
    /\ match device s with
       | None => evs = [] /\ o = None /\ s' = s
       | Some h =>
           exists ok rest,
             evs = EvWrite VersionQuery h version_command ok :: rest
             /\ writes_of rest = []
             /\ (ok = false -> rest = [] /\ o = None)
       end.
Proof.
  rewrite get_protocol_version_run, exchange_run.
  change (forallb is_byte version_command) with true. cbv iota.
  destruct (device s) as [h|] eqn:Ed.
  - destruct (hid_write h version_command (world s)) as [w' [|]].
    + destruct (read_with_timeout_spec 1000
                  (written VersionQuery version_command h w' true s))
        as (s' & o & evs & E & (T & Q & _ & _) & _).
      rewrite E. cbn [trace written] in T.
      exists s',
        (match o with
         | Some resp =>
             if 3 <=? length resp then Some (nth 2 resp 0%Z) else None
         | None => None
         end),
        (EvWrite VersionQuery h version_command true :: evs).
      split; [destruct o; reflexivity|].
      split; [now rewrite T, <- app_assoc|].
      exists true, evs. split; [reflexivity|].
      split; [|discriminate].
      apply quiet_writes. exact (poll_events_quiet _ _ Q).
    + eexists _, None, [EvWrite VersionQuery h version_command false].
      split; [reflexivity|]. split; [reflexivity|].
      exists false, []. auto.
  - exists s, None, [].
    split; [reflexivity|]. split; [now rewrite app_nil_r|]. auto.
Qed.

Lemma opened_handles_app (a b : list (Event H)) :
  opened_handles (a ++ b) = opened_handles a ++ opened_handles b.
Proof.
  induction a as [|e a IH]; [reflexivity|].
  destruct e as [| p [h|] | | | | |]; cbn; rewrite ?IH; reflexivity.
Qed.

Lemma handshake_quiet (d : option H) (hs : list (Event H)) :
  Forall (handshake_event d) hs ->
  opened_handles hs = [] /\ messages_of hs = [].
Proof.
  induction 1 as [|e hs He _ IH]; [split; reflexivity|].
  destruct e; cbn in *; try contradiction; exact IH.
Qed.

(** One candidate, tried when [self.device] is None. *)
Lemma probe_fresh (d : DeviceInfo) (s : State W H) :
  device s = None ->
  exists s' b evs,
    probe d s = (s', Ok b)
    /\ trace s' = trace s ++ evs
    /\ opens_of evs = [path d]
    /\ opened_handles evs = closes_of evs ++ held (device s')
    /\ ((b = false /\ device s' = None /\ messages_of evs = [])
        \/ (b = true /\ closes_of evs = []
            /\ exists h v,
                 device s' = Some h
                 /\ messages_of evs = [MsgConnected v])).
Proof.
  intros Hd.
  destruct (probe_spec d s) as (s' & b & evs & E & T & Hc).
  exists s', b, evs. split; [exact E|]. split; [exact T|].
  destruct Hc as [(-> & D' & F) | (-> & h & v & hs & D' & -> & Fh)].
  - rewrite D'. cbn [held]. rewrite app_nil_r.
    destruct F as [| old | h hs Fh].
    + repeat split; auto.
    + (* a stale handle needs [self.device] to hold one *)
      exfalso. revert E.
      unfold probe, try_except, bind, hid_Device, set_device, get_device.
      destruct (hid_open (path d) (world s)) as [w' [h|]].
      * cbn [world clock device trace].
        match goal with
        | |- context [get_protocol_version ?st] =>
            destruct (get_protocol_version_spec st)
              as (s2 & o & hs & E2 & T2 & D2 & F2)
        end.
        rewrite E2. cbn [trace device] in T2, D2.
        destruct o as [v|]; [discriminate|].
        unfold device_close. rewrite D2. cbn [world clock device trace ret].
        intros [= <-]. cbn [trace] in T. rewrite T2 in T.
        rewrite <- !app_assoc in T. apply app_inv_head in T.
        discriminate.
      * cbn [world clock device trace]. rewrite Hd.
        intros [= <-]. cbn [trace] in T. apply app_inv_head in T.
        discriminate.
    + destruct (handshake_no_open_close _ _ Fh) as (Ho & Hcl).
      destruct (handshake_quiet _ _ Fh) as (Hoh & Hm).
      cbn [app opens_of opened_handles closes_of messages_of].
      rewrite opens_of_app, opened_handles_app, closes_of_app,
        messages_of_app, Ho, Hoh, Hcl, Hm.
      repeat split; auto.
  - destruct (handshake_no_open_close _ _ Fh) as (Ho & Hcl).
    destruct (handshake_quiet _ _ Fh) as (Hoh & Hm).
    rewrite D'. cbn [app opens_of opened_handles closes_of messages_of held].
    rewrite opens_of_app, opened_handles_app, closes_of_app,
      messages_of_app, Ho, Hoh, Hcl, Hm.
    split; [reflexivity|]. split; [reflexivity|].
    right. split; [reflexivity|]. split; [reflexivity|].
    exists h, v. auto.
Qed.

(** The loop over the candidates, entered with [self.device] None. *)
Lemma connect_loop_fresh (devices : list DeviceInfo) (s : State W H) :
  device s = None ->
  exists s' b evs,
    connect_loop devices s = (s', Ok b)
    /\ trace s' = trace s ++ evs
    /\ opened_handles evs = closes_of evs ++ held (device s')
    /\ ((b = false /\ device s' = None /\ messages_of evs = []
         /\ opens_of evs = map path devices)
        \/ (b = true
            /\ exists h v,
                 device s' = Some h
                 /\ messages_of evs = [MsgConnected v])).
Proof.
  revert s. induction devices as [|d rest IH]; intros s Hd.
  - exists s, false, []. cbn. rewrite Hd.
    split; [reflexivity|]. split; [now rewrite app_nil_r|].
    split; [reflexivity|]. left. auto.
  - rewrite connect_loop_cons.
    destruct (probe_fresh d s Hd)
      as (s1 & b & e1 & E1 & T1 & O1 & B1 & Hc).
    rewrite E1.
    destruct Hc as [(-> & D1 & M1) | (-> & C1 & h & v & D1 & M1)].
    + destruct (IH s1 D1) as (s2 & b2 & e2 & E2 & T2 & B2 & Hc2).
      exists s2, b2, (e1 ++ e2).
      split; [exact E2|].
      split; [now rewrite T2, T1, app_assoc|].
      rewrite D1 in B1. cbn [held] in B1. rewrite app_nil_r in B1.
      split; [rewrite opened_handles_app, closes_of_app, B1, B2;
              now rewrite app_assoc|].
      destruct Hc2 as [(-> & D2 & M2 & O2) | (-> & h & v & D2 & M2)].
      * left. rewrite messages_of_app, opens_of_app, M1, M2, O1, O2. auto.
      * right. split; [reflexivity|]. exists h, v.
        rewrite messages_of_app, M1, M2. auto.
    + exists s1, true, e1.
      split; [reflexivity|]. split; [exact T1|]. split; [exact B1|].
      right. split; [reflexivity|]. exists h, v. auto.
Qed.

(** [connect_hid], entered with [self.device] None. *)
Lemma connect_hid_fresh (s : State W H) :
  device s = None ->
  exists s' evs,
    connect_hid s = (s', Ok tt)
    /\ trace s' = trace s ++ evs
    /\ opened_handles evs = closes_of evs ++ held (device s')
    /\ ((exists h v, device s' = Some h
                     /\ messages_of evs = [MsgConnected v])
        \/ (device s' = None
            /\ (messages_of evs = [MsgNotFound]
                \/ messages_of evs = [MsgConnectFailed]))).
Proof.
  intros Hd. unfold connect_hid, try_except, bind, enumerate.
  destruct (hid_enumerate _ _ (world s)) as [w0 [devices|]].
  - fold (enumerated w0 true s).
    destruct (connect_loop_fresh devices (enumerated w0 true s) Hd)
      as (s1 & b & evs & E & T & B & Hc).
    rewrite E. cbn [trace enumerated] in T.
    destruct Hc as [(-> & D1 & M1 & _) | (-> & h & v & D1 & M1)].
    + unfold get_device. rewrite D1.
      eexists _, (EvEnumerate true :: evs ++ [EvMessage MsgNotFound]).
      split; [reflexivity|]. cbn [trace device emit].
      split; [rewrite T, <- !app_assoc; reflexivity|].
      rewrite D1 in *. cbn [held opened_handles closes_of messages_of] in *.
      rewrite opened_handles_app, closes_of_app, messages_of_app, B, M1.
      split; [reflexivity|]. right. auto.
    + exists s1, (EvEnumerate true :: evs).
      split; [reflexivity|].
      split; [now rewrite T, <- app_assoc|].
      split; [exact B|]. left. exists h, v. auto.
  - unfold get_device, emit, device_close, set_device.
    cbn [world clock device trace]. rewrite Hd.
    eexists _, [EvEnumerate false; EvMessage MsgConnectFailed].
    split; [reflexivity|]. cbn [trace device].
    split; [rewrite <- !app_assoc; reflexivity|].
    split; [reflexivity|]. right. auto.
Qed.

(** X5. Started with no device open, [connect_hid] leaks no handle:
    whatever the devices do, the handles it opened are the ones it
    closed, in the same order, followed by the one it keeps in
    [self.device], if any. *)
Theorem connect_handle_balance (s : State W H) :
  device s = None ->
  exists s' evs,
    connect_hid s = (s', Ok tt)
    /\ trace s' = trace s ++ evs
    /\ opened_handles evs = closes_of evs ++ held (device s').
Proof.
  intros Hd.
  destruct (connect_hid_fresh s Hd) as (s' & evs & E & T & B & _).
  exists s', evs. auto.
Qed.

(** X6. Started with no device open, [connect_hid] never raises and shows
    exactly one message box; [self.device] is set afterwards exactly when
    that box is the success message. *)
Theorem connect_one_message (s : State W H) :
  device s = None ->
  exists s' evs,
    connect_hid s = (s', Ok tt)
    /\ trace s' = trace s ++ evs
    /\ ((exists h v, device s' = Some h
                     /\ messages_of evs = [MsgConnected v])
        \/ (device s' = None
            /\ (messages_of evs = [MsgNotFound]
                \/ messages_of evs = [MsgConnectFailed]))).
Proof.
  intros Hd.
  destruct (connect_hid_fresh s Hd) as (s' & evs & E & T & _ & M).
  exists s', evs. auto.
Qed.

(** X7. When no candidate is kept and either no device was open before
    or at least one candidate was enumerated, [connect_hid] has tried
    every enumerated path, in enumeration order, ends with
    [self.device] None and shows the not-found warning last. *)
Theorem connect_not_found (devices : list DeviceInfo) (s : State W H)
    (w0 : W) (s1 : State W H) :
  device s = None \/ devices <> [] ->
  hid_enumerate LILY58_VENDOR_ID LILY58_PRODUCT_ID (world s)
  = (w0, Some devices) ->
  connect_loop devices (enumerated w0 true s) = (s1, Ok false) ->
  exists s' evs,
    connect_hid s = (s', Ok tt)
    /\ device s' = None
    /\ trace s' = trace s ++ [EvEnumerate true] ++ evs
                    ++ [EvMessage MsgNotFound]
    /\ opens_of evs = map path devices
    /\ failed_probes (map path devices) evs.
Proof.
  intros Hd He Hl.
  destruct (connect_loop_failed _ _ _ Hl) as (evs & T & F & D).
  cbn [trace enumerated] in T.
  assert (D1 : device s1 = None).
  { destruct devices as [|d rest]; [|apply D; discriminate].
    cbn in Hl. injection Hl as <-.
    destruct Hd as [Hd | Hd]; [exact Hd|congruence]. }
  unfold connect_hid, try_except, bind, enumerate. rewrite He.
  fold (enumerated w0 true s). rewrite Hl.
  unfold get_device. rewrite D1.
  eexists _, evs. split; [reflexivity|]. cbn [trace device emit].
  split; [exact D1|].
  split; [rewrite T, <- !app_assoc; reflexivity|].
  split; [exact (failed_probes_opens _ _ F)|exact F].
Qed.

(** X8. When enumeration itself raises, [connect_hid] opens nothing, shows
    the connection error, closes the handle an earlier connection left in
    [self.device], if any, and leaves [self.device] None. *)
Theorem connect_enumerate_fails (s : State W H) (w0 : W) :
  hid_enumerate LILY58_VENDOR_ID LILY58_PRODUCT_ID (world s) = (w0, None) ->
  exists s',
    connect_hid s = (s', Ok tt)
    /\ device s' = None
    /\ trace s' = trace s ++ [EvEnumerate false; EvMessage MsgConnectFailed]
                    ++ map EvClose (held (device s)).
Proof.
  intros He. unfold connect_hid, try_except, bind, enumerate. rewrite He.
  unfold get_device, emit, device_close, set_device.
  cbn [world clock device trace].
  destruct (device s) as [old|].
  - eexists. split; [reflexivity|]. cbn [trace device held map].
    split; [reflexivity|]. now rewrite <- !app_assoc.
  - eexists. split; [reflexivity|]. cbn [trace device held map].
    split; [reflexivity|]. now rewrite <- !app_assoc.
Qed.

(** X9. [connect_hid] does not close a handle that is already in
    [self.device] before it replaces it: when the first candidate's probe
    succeeds, nothing is closed and [self.device] holds the new handle. *)
Theorem reconnect_leaves_old_handle_open (d : DeviceInfo)
    (rest : list DeviceInfo) (s : State W H) (old : H) (w0 : W)
    (s1 : State W H) :
  device s = Some old ->
  hid_enumerate LILY58_VENDOR_ID LILY58_PRODUCT_ID (world s)
  = (w0, Some (d :: rest)) ->
  probe d (enumerated w0 true s) = (s1, Ok true) ->
  connect_hid s = (s1, Ok tt)
  /\ exists evs h,
       trace s1 = trace s ++ evs
       /\ closes_of evs = []
       /\ opened_handles evs = [h]
       /\ device s1 = Some h.
Proof.
  intros Hd He Hp.
  split.
  { apply (connect_hid_connected _ _ _ _ He).
    rewrite connect_loop_cons, Hp. reflexivity. }
  destruct (probe_spec d (enumerated w0 true s))
    as (s' & b & evs & E & T & Hc).
  rewrite Hp in E. injection E as <- <-.
  destruct Hc as [([=] & _) | (_ & h & v & hs & D1 & -> & Fh)].
  cbn [trace enumerated] in T.
  destruct (handshake_no_open_close _ _ Fh) as (_ & Hcl).
  destruct (handshake_quiet _ _ Fh) as (Hoh & _).
  exists (EvEnumerate true :: [EvOpen (path d) (Some h)] ++ hs
            ++ [EvMessage (MsgConnected v)]), h.
  split; [rewrite T, <- !app_assoc; reflexivity|].
  cbn [app closes_of opened_handles].
  rewrite closes_of_app, opened_handles_app, Hcl, Hoh. auto.
Qed.

(** X10. With a device already open and an empty enumeration,
    [connect_hid] is silent: no message box, no open, no close, and
    [self.device] keeps the old handle. *)
Theorem connect_empty_enumeration_silent (s : State W H) (old : H)
    (w0 : W) :
  device s = Some old ->
  hid_enumerate LILY58_VENDOR_ID LILY58_PRODUCT_ID (world s) = (w0, Some []) ->
  connect_hid s = (enumerated w0 true s, Ok tt)
  /\ device (enumerated w0 true s) = Some old
  /\ trace (enumerated w0 true s) = trace s ++ [EvEnumerate true].
Proof.
  intros Hd He. unfold connect_hid, try_except, bind, enumerate.
  rewrite He. fold (enumerated w0 true s). cbn [connect_loop ret].
  unfold get_device. cbn [device enumerated]. rewrite Hd. auto.
Qed.

Lemma cleanup_run (s : State W H) :
  cleanup s
  = match device s with
    | Some h =>
        (mkState (hid_close h (world s)) (clock s) (device s)
                 (trace s ++ [EvClose h]), Ok tt)
    | None => (s, Ok tt)
    end.
Proof.
  destruct s as [w c [h|] t]; reflexivity.
Qed.

(** X11. [cleanup] after a discovery started with no device open closes
    what discovery kept: over the two calls every handle opened is closed,
    in the order of opening.  [cleanup] does not clear [self.device]. *)
Theorem connect_then_cleanup_closes_all (s : State W H) :
  device s = None ->
  exists s1 s2 evs,
    connect_hid s = (s1, Ok tt)
    /\ cleanup s1 = (s2, Ok tt)
    /\ trace s2 = trace s ++ evs
    /\ opened_handles evs = closes_of evs
    /\ device s2 = device s1.
Proof.
  intros Hd.
  destruct (connect_hid_fresh s Hd) as (s1 & evs & E & T & B & _).
  exists s1. rewrite cleanup_run.
  destruct (device s1) as [h|] eqn:D1.
  - eexists _, (evs ++ [EvClose h]).
    split; [exact E|]. split; [reflexivity|]. cbn [trace device].
    split; [now rewrite T, app_assoc|].
    split; [|reflexivity].
    rewrite opened_handles_app, closes_of_app, B. cbn. apply app_nil_r.
  - exists s1, evs.
    split; [exact E|]. split; [reflexivity|].
    split; [exact T|]. split; [|exact D1].
    rewrite B. apply app_nil_r.
Qed.

End DiscoveryMore.

(** ** The transfer: its events in order *)

Section TransferMore.

Context {W H : Type} {Api : HidApi W H}.

Lemma exchange_trace (kind : WriteKind) (command : list Z) (timeout : Z)
    (s : State W H) (h : H) :
  device s = Some h ->
  exists s' r evs,
    exchange kind command timeout s = (s', r)
    /\ trace s' = trace s ++ evs
    /\ device s' = Some h
    /\ ((exists resp, r = Ok (Some resp)
                      /\ acked_exchange h kind command evs)
        \/ (r = Ok None
            /\ exists idle, evs = EvWrite kind h command true :: idle
                            /\ Forall (idle_event h) idle)
        \/ (r = Raise HIDException /\ evs = [EvWrite kind h command false])
        \/ (r = Raise ValueError /\ evs = []
            /\ forallb is_byte command = false)).
Proof.
  intros Hd. rewrite exchange_run, Hd.
  destruct (forallb is_byte command) eqn:Eb.
  - destruct (hid_write h command (world s)) as [w' [|]].
    + destruct (read_with_timeout_trace timeout
                  (written kind command h w' true s) h Hd)
        as (s' & o & evs & E & T & D & Hs).
      cbn [trace written] in T.
      exists s', (Ok o), (EvWrite kind h command true :: evs).
      split; [exact E|].
      split; [now rewrite T, <- app_assoc|].
      split; [exact D|].
      destruct o as [resp|].
      * left. exists resp. split; [reflexivity|].
        destruct Hs as (idle & -> & Fi & Hn). exists idle, resp. auto.
      * right. left. split; [reflexivity|]. exists evs. auto.
    + exists (written kind command h w' false s), (Raise HIDException),
        [EvWrite kind h command false].
      split; [reflexivity|]. split; [reflexivity|].
      split; [exact Hd|]. right. right. left. auto.
  - exists s, (Raise ValueError), [].
    split; [reflexivity|]. split; [now rewrite app_nil_r|].
    split; [exact Hd|]. right. right. right. auto.
Qed.

Lemma send_chunk_trace (bytes_data : list Z) (oled_side : string) (i : nat)
    (s : State W H) (h : H) :
  device s = Some h ->
  exists s' r evs,
    send_chunk bytes_data oled_side i s = (s', r)
    /\ trace s' = trace s ++ evs
    /\ device s' = Some h
    /\ ((r = Ok tt /\ chunk_block h bytes_data oled_side i evs)
        \/ (exists e,
              r = Raise e
              /\ attempt_failed h (DataChunk i)
                   (chunk_command bytes_data oled_side i)
                   (MsgChunkTimeout i) e evs)).
Proof.
  intros Hd. rewrite send_chunk_run.
  destruct (exchange_trace (DataChunk i)
              (chunk_command bytes_data oled_side i) 500 s h Hd)
    as (s1 & r & evs & E & T & D & Hc).
  rewrite E.
  destruct Hc as [(resp & -> & Ha) | [(-> & idle & -> & Fi)
                 | [(-> & ->) | (-> & -> & Hv)]]].
  - exists (slept s1), (Ok tt), (evs ++ [EvSleep 10]).
    split; [reflexivity|]. unfold slept. cbn [trace device].
    split; [now rewrite T, app_assoc|]. split; [exact D|].
    left. split; [reflexivity|]. exists evs. auto.
  - eexists s1, _, _. split; [reflexivity|]. split; [exact T|].
    split; [exact D|]. right. eexists. split; [reflexivity|].
    now constructor.
  - eexists s1, _, _. split; [reflexivity|]. split; [exact T|].
    split; [exact D|]. right. eexists. split; [reflexivity|]. constructor.
  - eexists s1, _, _. split; [reflexivity|]. split; [exact T|].
    split; [exact D|]. right. eexists. split; [reflexivity|].
    now constructor.
Qed.

Lemma send_chunks_trace (bytes_data : list Z) (oled_side : string)
    (n a : nat) (s : State W H) (h : H) :
  device s = Some h ->
  exists s' r evs m blocks,
    for_each (seq a n) (send_chunk bytes_data oled_side) s = (s', r)
    /\ trace s' = trace s ++ evs
    /\ device s' = Some h
    /\ Forall2 (chunk_block h bytes_data oled_side) (seq a m) blocks
    /\ ((r = Ok tt /\ m = n /\ evs = concat blocks)
        \/ (exists e tail,
              r = Raise e /\ m < n
              /\ attempt_failed h (DataChunk (a + m))
                   (chunk_command bytes_data oled_side (a + m))
                   (MsgChunkTimeout (a + m)) e tail
              /\ evs = concat blocks ++ tail)).
Proof.
  revert a s. induction n as [|n IH]; intros a s Hd.
  - exists s, (Ok tt), [], 0, [].
    split; [reflexivity|]. split; [now rewrite app_nil_r|].
    split; [exact Hd|]. split; [constructor|]. left. auto.
  - change (seq a (S n)) with (a :: seq (S a) n). rewrite for_each_cons.
    destruct (send_chunk_trace bytes_data oled_side a s h Hd)
      as (s1 & r1 & e1 & E1 & T1 & D1 & Hc).
    rewrite E1.
    destruct Hc as [(-> & B1) | (e & -> & F1)].
    + destruct (IH (S a) s1 D1)
        as (s2 & r2 & e2 & m & blocks & E2 & T2 & D2 & B2 & Hc2).
      exists s2, r2, (e1 ++ e2), (S m), (e1 :: blocks).
      split; [exact E2|].
      split; [now rewrite T2, T1, app_assoc|].
      split; [exact D2|].
      split; [constructor; assumption|].
      destruct Hc2 as [(-> & -> & ->) | (e & tail & -> & Hm & F2 & ->)].
      * left. auto.
      * right. exists e, tail.
        split; [reflexivity|]. split; [lia|].
        replace (a + S m) with (S a + m) by lia.
        split; [exact F2|]. cbn [concat]. now rewrite app_assoc.
    + exists s1, (Raise e), e1, 0, [].
      split; [reflexivity|]. split; [exact T1|]. split; [exact D1|].
      split; [constructor|]. right. exists e, e1.
      split; [reflexivity|]. split; [lia|].
      rewrite Nat.add_0_r. auto.
Qed.

(** The events of a transfer on a connected device, in order: the data
    chunks that went through, each acknowledged and followed by its
    pause; then either the acknowledged completion report (True), or the
    report that failed and the error message (False). *)
Lemma send_to_oled_trace (pixels : list Z) (oled_side : string)
    (s : State W H) (h : H) :
  device s = Some h ->
  exists s' b evs m blocks,
    send_to_oled pixels oled_side s = (s', Ok b)
    /\ trace s' = trace s ++ evs
    /\ device s' = Some h
    /\ Forall2 (chunk_block h (pack_pixels pixels) oled_side)
               (seq 0 m) blocks
    /\ m <= total_chunks (pack_pixels pixels)
    /\ ((b = true /\ m = total_chunks (pack_pixels pixels)
         /\ exists last,
              acked_exchange h Completion (completion_command oled_side)
                             last
              /\ evs = concat blocks ++ last)
        \/ (b = false
            /\ exists kind command text e tail,
                 attempt_failed h kind command text e tail
                 /\ evs = concat blocks ++ tail
                            ++ [EvMessage (handler_message e)]
                 /\ ((m < total_chunks (pack_pixels pixels)
                      /\ kind = DataChunk m
                      /\ command
                         = chunk_command (pack_pixels pixels) oled_side m
                      /\ text = MsgChunkTimeout m)
                     \/ (m = total_chunks (pack_pixels pixels)
                         /\ kind = Completion
                         /\ command = completion_command oled_side
                         /\ text = MsgCompletionTimeout)))).
Proof.
  intros Hd. rewrite (send_to_oled_run _ _ _ _ Hd).
  set (bd := pack_pixels pixels).
  destruct (send_chunks_trace bd oled_side (total_chunks bd) 0 s h Hd)
    as (s1 & r1 & e1 & m & blocks & E1 & T1 & D1 & B1 & Hc).
  rewrite E1.
  destruct Hc as [(-> & -> & ->) | (e & tail & -> & Hm & F1 & ->)].
  - destruct (exchange_trace Completion (completion_command oled_side)
                500 s1 h D1)
      as (s2 & r2 & e2 & E2 & T2 & D2 & Hc2).
    rewrite E2.
    destruct Hc2 as [(resp & -> & Ha) | [(-> & idle & -> & Fi)
                    | [(-> & ->) | (-> & -> & Hv)]]].
    + exists s2, true, (concat blocks ++ e2), (total_chunks bd), blocks.
      split; [reflexivity|].
      split; [now rewrite T2, T1, app_assoc|].
      split; [exact D2|]. split; [exact B1|]. split; [lia|].
      left. split; [reflexivity|]. split; [reflexivity|]. exists e2. auto.
    + rewrite send_handler_run.
      eexists _, false, _, (total_chunks bd), blocks.
      split; [reflexivity|]. cbn [trace device].
      split; [rewrite T2, T1, <- !app_assoc; reflexivity|].
      split; [exact D2|]. split; [exact B1|]. split; [lia|].
      right. split; [reflexivity|].
      exists Completion, (completion_command oled_side),
        MsgCompletionTimeout, (TimeoutError MsgCompletionTimeout),
        (EvWrite Completion h (completion_command oled_side) true :: idle).
      split; [now constructor|]. split; [reflexivity|]. right. auto.
    + rewrite send_handler_run.
      eexists _, false, _, (total_chunks bd), blocks.
      split; [reflexivity|]. cbn [trace device].
      split; [rewrite T2, T1, <- !app_assoc; reflexivity|].
      split; [exact D2|]. split; [exact B1|]. split; [lia|].
      right. split; [reflexivity|].
      exists Completion, (completion_command oled_side),
        MsgCompletionTimeout, HIDException,
        [EvWrite Completion h (completion_command oled_side) false].
      split; [constructor|]. split; [reflexivity|]. right. auto.
    + rewrite completion_command_bytes in Hv. discriminate.
  - rewrite send_handler_run.
    eexists _, false, _, m, blocks.
    split; [reflexivity|]. cbn [trace device].
    split; [rewrite T1, <- !app_assoc; reflexivity|].
    split; [exact D1|]. split; [exact B1|]. split; [lia|].
    right. split; [reflexivity|].
    exists (DataChunk m), (chunk_command bd oled_side m),
      (MsgChunkTimeout m), e, tail.
    cbn [Nat.add] in F1.
    split; [exact F1|]. split; [reflexivity|]. left. auto.
Qed.

End TransferMore.

(** ** The transfer: further properties *)

Section TransferExtras.

Context {W H : Type} {Api : HidApi W H}.

Lemma idle_on_handle (h : H) (evs : list (Event H)) :
  Forall (idle_event h) evs -> Forall (on_handle h) evs.
Proof.
  apply Forall_impl. intros e [-> | [-> | ->]]; cbn; auto.
Qed.

Lemma acked_on_handle (h : H) (kind : WriteKind) (report : list Z)
    (evs : list (Event H)) :
  acked_exchange h kind report evs -> Forall (on_handle h) evs.
Proof.
  intros (idle & resp & -> & _ & Fi).
  constructor; [reflexivity|]. apply Forall_app. split.
  - now apply idle_on_handle.
  - repeat constructor.
Qed.

Lemma blocks_on_handle (h : H) (bytes_data : list Z) (oled_side : string)
    (l : list nat) (blocks : list (list (Event H))) :
  Forall2 (chunk_block h bytes_data oled_side) l blocks ->
  Forall (on_handle h) (concat blocks).
Proof.
  induction 1 as [|i blk l blocks (ex & Ha & ->) _ IH]; [constructor|].
  cbn [concat]. apply Forall_app. split; [|exact IH].
  apply Forall_app. split; [exact (acked_on_handle _ _ _ _ Ha)|].
  repeat constructor.
Qed.

Lemma failed_on_handle (h : H) (kind : WriteKind) (command : list Z)
    (text : Message) (e : Exn) (tail : list (Event H)) :
  attempt_failed h kind command text e tail -> Forall (on_handle h) tail.
Proof.
  intros [Hv | | idle Fi]; [constructor|repeat constructor|].
  constructor; [reflexivity|]. now apply idle_on_handle.
Qed.

(** X12. [send_to_oled] talks to the handle in [self.device] and to no
    other: it never opens, closes or enumerates, and [self.device] is the
    same handle afterwards, also when a write raised or an
    acknowledgment was missed. *)
Theorem send_keeps_device (pixels : list Z) (oled_side : string)
    (s : State W H) (h : H) :
  device s = Some h ->
  exists s' b evs,
    send_to_oled pixels oled_side s = (s', Ok b)
    /\ trace s' = trace s ++ evs
    /\ device s' = Some h
    /\ Forall (on_handle h) evs.
Proof.
  intros Hd.
  destruct (send_to_oled_trace pixels oled_side s h Hd)
    as (s' & b & evs & m & blocks & E & T & D & B & _ & Hc).
  exists s', b, evs.
  split; [exact E|]. split; [exact T|]. split; [exact D|].
  pose proof (blocks_on_handle _ _ _ _ _ B) as Hb.
  destruct Hc as [(_ & _ & last & Ha & ->)
                 | (_ & kind & command & text & e & tail & F & -> & _)].
  - apply Forall_app. split; [exact Hb|exact (acked_on_handle _ _ _ _ Ha)].
  - apply Forall_app. split; [exact Hb|].
    apply Forall_app. split; [exact (failed_on_handle _ _ _ _ _ _ F)|].
    repeat constructor.
Qed.

Lemma phase_run_app (p : Phase) (a b : list (Event H)) :
  phase_run p (a ++ b)
  = match phase_run p a with
    | Some p' => phase_run p' b
    | None => None
    end.
Proof.
  revert p. induction a as [|e a IH]; intros p; [reflexivity|].
  cbn [app phase_run]. destruct (phase_step p e); [apply IH|reflexivity].
Qed.

Lemma phase_run_idle (h : H) (c : bool) (idle : list (Event H)) :
  Forall (idle_event h) idle ->
  phase_run (AwaitingAck c) idle = Some (AwaitingAck c).
Proof.
  induction 1 as [|e idle He _ IH]; [reflexivity|].
  destruct He as [-> | [-> | ->]]; cbn; exact IH.
Qed.

Lemma phase_run_acked_chunk (h : H) (i : nat) (report : list Z)
    (evs : list (Event H)) :
  acked_exchange h (DataChunk i) report evs ->
  phase_run Ready evs = Some Pausing.
Proof.
  intros (idle & resp & -> & Hn & Fi).
  cbn [phase_run phase_step]. rewrite phase_run_app, (phase_run_idle h _ _ Fi).
  destruct resp as [|b resp]; [congruence|]. reflexivity.
Qed.

Lemma phase_run_acked_completion (h : H) (report : list Z)
    (evs : list (Event H)) :
  acked_exchange h Completion report evs ->
  phase_run Ready evs = Some Finished.
Proof.
  intros (idle & resp & -> & Hn & Fi).
  cbn [phase_run phase_step]. rewrite phase_run_app, (phase_run_idle h _ _ Fi).
  destruct resp as [|b resp]; [congruence|]. reflexivity.
Qed.

Lemma phase_run_blocks (h : H) (bytes_data : list Z) (oled_side : string)
    (l : list nat) (blocks : list (list (Event H))) :
  Forall2 (chunk_block h bytes_data oled_side) l blocks ->
  phase_run Ready (concat blocks) = Some Ready.
Proof.
  induction 1 as [|i blk l blocks (ex & Ha & ->) _ IH]; [reflexivity|].
  cbn [concat]. rewrite !phase_run_app, (phase_run_acked_chunk _ _ _ _ Ha).
  cbn [phase_run phase_step]. exact IH.
Qed.

Lemma phase_run_failed (h : H) (kind : WriteKind) (command : list Z)
    (text : Message) (e : Exn) (tail : list (Event H)) (m : Message) :
  kind <> VersionQuery ->
  attempt_failed h kind command text e tail ->
  phase_run Ready (tail ++ [EvMessage m]) = Some Closed.
Proof.
  intros Hk [Hv | | idle Fi].
  - reflexivity.
  - destruct kind; [congruence|reflexivity|reflexivity].
  - destruct kind; [congruence| |];
      cbn [app phase_run phase_step];
      rewrite phase_run_app, (phase_run_idle h _ _ Fi); reflexivity.
Qed.

(** X13. The events of every transfer follow the protocol's phases: a
    report is written only when the report before it was acknowledged by
    a non-empty read and, after a data chunk, the pause was made; after
    the completion report is acknowledged, after a write that raised and
    after a message box nothing more is sent.  The run ends in
    [Finished] when it returns True, otherwise with its message box. *)
Theorem send_follows_phases (pixels : list Z) (oled_side : string)
    (s : State W H) :
  exists s' b evs,
    send_to_oled pixels oled_side s = (s', Ok b)
    /\ trace s' = trace s ++ evs
    /\ phase_run Ready evs = Some (if b then Finished else Closed).
Proof.
  destruct (device s) as [h|] eqn:Hd.
  - destruct (send_to_oled_trace pixels oled_side s h Hd)
      as (s' & b & evs & m & blocks & E & T & _ & B & _ & Hc).
    exists s', b, evs. split; [exact E|]. split; [exact T|].
    pose proof (phase_run_blocks _ _ _ _ _ B) as Hb.
    destruct Hc as [(-> & _ & last & Ha & ->)
                   | (-> & kind & command & text & e & tail & F & -> & Hk)].
    + rewrite phase_run_app, Hb. exact (phase_run_acked_completion _ _ _ Ha).
    + rewrite phase_run_app, Hb.
      apply (phase_run_failed h kind command text e); [|exact F].
      destruct Hk as [(_ & -> & _) | (_ & -> & _)]; discriminate.
  - rewrite (send_to_oled_disconnected _ _ _ Hd).
    eexists _, false, [EvMessage MsgNotConnected].
    split; [reflexivity|]. split; [reflexivity|]. reflexivity.
Qed.

(** X14. A transfer that returns True consists of exactly the N data
    chunks, each written, acknowledged and followed by the 10 ms pause,
    then the completion report written and acknowledged, and of nothing
    else: no message box, no further poll. *)
Theorem send_success_events (pixels : list Z) (oled_side : string)
    (s s' : State W H) (h : H) :
  device s = Some h ->
  send_to_oled pixels oled_side s = (s', Ok true) ->
  exists blocks last,
    trace s' = trace s ++ concat blocks ++ last
    /\ Forall2 (chunk_block h (pack_pixels pixels) oled_side)
               (seq 0 (total_chunks (pack_pixels pixels))) blocks
    /\ acked_exchange h Completion (completion_command oled_side) last.
Proof.
  intros Hd E.
  destruct (send_to_oled_trace pixels oled_side s h Hd)
    as (s2 & b & evs & m & blocks & E2 & T & _ & B & _ & Hc).
  rewrite E in E2. injection E2 as <- <-.
  destruct Hc as [(_ & -> & last & Ha & ->) | ([=] & _)].
  exists blocks, last. auto.
Qed.

(** X15. A write that raises ends the transfer at once: when the chunks
    before chunk i went through and the write of chunk i raises,
    [send_to_oled] shows the generic send error and returns False; the
    failed write is the last device call, no read follows it. *)
Theorem write_failure_aborts (pixels : list Z) (oled_side : string)
    (s : State W H) (h : H) (i : nat) (s_i : State W H) (w' : W) :
  let bytes_data := pack_pixels pixels in
  let command := chunk_command bytes_data oled_side i in
  device s = Some h ->
  i < total_chunks bytes_data ->
  i < 256 ->
  for_each (seq 0 i) (send_chunk bytes_data oled_side) s = (s_i, Ok tt) ->
  hid_write h command (world s_i) = (w', false) ->
  exists s',
    send_to_oled pixels oled_side s = (s', Ok false)
    /\ trace s'
       = trace s_i ++ [EvWrite (DataChunk i) h command false;
                       EvMessage MsgSendFailed].
Proof.
  intros bytes_data command Hd Hi H256 Hpre Hw.
  assert (Hbd : forallb is_byte bytes_data = true)
    by apply pack_pixels_bytes.
  destruct (send_chunks_spec bytes_data oled_side i 0 s)
    as (s1 & r1 & evs1 & m1 & E1 & _ & D1 & _).
  rewrite Hpre in E1. injection E1 as <- <-.
  assert (Hloop :
    for_each (seq 0 (total_chunks bytes_data))
             (send_chunk bytes_data oled_side) s
    = (written (DataChunk i) command h w' false s_i, Raise HIDException)).
  { rewrite (seq_split_at _ _ Hi), for_each_app, Hpre, for_each_cons.
    rewrite send_chunk_run, exchange_run.
    fold command. unfold command at 1.
    rewrite (chunk_command_bytes _ _ _ Hbd).
    rewrite (proj2 (Nat.ltb_lt _ _) H256).
    rewrite D1, Hd. fold command. rewrite Hw. reflexivity. }
  rewrite (send_to_oled_run _ _ _ _ Hd). fold bytes_data.
  rewrite Hloop, send_handler_run. cbn [handler_message].
  eexists. split; [reflexivity|]. cbn [trace written].
  now rewrite <- app_assoc.
Qed.

(** X16. When every chunk went through, the completion report is written
    and no response comes before the time-out, [send_to_oled] shows the
    completion time-out error and returns False, although every data
    chunk and the completion report were written. *)
Theorem completion_timeout (pixels : list Z) (oled_side : string)
    (s : State W H) (h : H) (s_n : State W H) (w' : W) (s_t : State W H) :
  let bytes_data := pack_pixels pixels in
  device s = Some h ->
  for_each (seq 0 (total_chunks bytes_data)) (send_chunk bytes_data oled_side)
           s
  = (s_n, Ok tt) ->
  hid_write h (completion_command oled_side) (world s_n) = (w', true) ->
  read_with_timeout 500
    (written Completion (completion_command oled_side) h w' true s_n)
  = (s_t, Ok None) ->
  exists s' evs,
    send_to_oled pixels oled_side s = (s', Ok false)
    /\ trace s' = trace s ++ evs
    /\ writes_of evs = planned_writes bytes_data oled_side
    /\ messages_of evs = [MsgCompletionTimeout].
Proof.
  intros bytes_data Hd Hloop Hw Hrt.
  destruct (send_chunks_spec bytes_data oled_side (total_chunks bytes_data)
              0 s)
    as (s1 & r1 & evs1 & m1 & E1 & T1 & D1 & (_ & _ & Sm1) & _ & Wr1 & _
        & Hok1 & _).
  rewrite Hloop in E1. injection E1 as <- <-.
  specialize (Hok1 eq_refl). subst m1.
  destruct (read_with_timeout_spec 500
              (written Completion (completion_command oled_side) h w' true
                       s_n))
    as (s2 & o & evs2 & E2 & (T2 & Q2 & _ & _) & _).
  apply poll_events_quiet in Q2.
  rewrite Hrt in E2. injection E2 as <- <-.
  cbn [trace written] in T2.
  rewrite (send_to_oled_run _ _ _ _ Hd). fold bytes_data.
  rewrite Hloop, exchange_run, completion_command_bytes, D1, Hd, Hw, Hrt.
  rewrite send_handler_run. cbn [handler_message].
  eexists _, (evs1 ++ [EvWrite Completion h (completion_command oled_side)
                               true]
                ++ evs2 ++ [EvMessage MsgCompletionTimeout]).
  split; [reflexivity|]. cbn [trace].
  split; [rewrite T2, T1, <- !app_assoc; reflexivity|].
  split.
  - rewrite !writes_of_app, Wr1, (quiet_writes _ Q2). reflexivity.
  - rewrite !messages_of_app, Sm1, (quiet_messages _ Q2). reflexivity.
Qed.

End TransferExtras.

(** ** Packing and chunking: further properties *)

Section PackingMore.

(** The byte of a group depends only on the eight pixel tests. *)
Lemma pack_byte_ext (p p' : list Z) (i i' : nat) :
  (forall j, j < 8 ->
     pixel_on (nth (i + j) p 0%Z) = pixel_on (nth (i' + j) p' 0%Z)) ->
  pack_byte p i = pack_byte p' i'.
Proof.
  intros Hj. unfold pack_byte. cbn [seq fold_left].
  rewrite !pack_step_total.
  rewrite (Hj 0), (Hj 1), (Hj 2), (Hj 3), (Hj 4), (Hj 5), (Hj 6), (Hj 7)
    by lia.
  reflexivity.
Qed.

Lemma pixel_on_nth_map (p : list Z) (k : nat) :
  pixel_on (nth k p 0%Z) = nth k (map pixel_on p) false.
Proof.
  change false with (pixel_on 0%Z). now rewrite map_nth.
Qed.

(** X17. Packing looks only at which pixels are above zero: two pixel
    lists with the same tests pack to the same bytes, whatever the
    values (255, 1 or any positive number set the bit; zero and negative
    numbers clear it). *)
Theorem pack_depends_on_tests (p p' : list Z) :
  map pixel_on p = map pixel_on p' ->
  pack_pixels p = pack_pixels p'.
Proof.
  intros Hm.
  assert (Hl : length p = length p').
  { rewrite <- (length_map pixel_on p), Hm. apply length_map. }
  unfold pack_pixels. rewrite Hl. apply map_ext. intros i.
  apply pack_byte_ext. intros j _.
  now rewrite !pixel_on_nth_map, Hm.
Qed.

Lemma range_step_aligned (k n : nat) :
  range_step (8 * k + n) 8
  = map (fun j => j * 8) (seq 0 k)
    ++ map (fun j => (k + j) * 8) (seq 0 ((n + 7) / 8)).
Proof.
  unfold range_step.
  replace (8 * k + n + 8 - 1) with (k * 8 + (n + 7)) by lia.
  rewrite Nat.div_add_l by lia.
  rewrite seq_app, map_app. f_equal.
  cbn [Nat.add]. now rewrite (map_seq_shift (fun j => j * 8) k).
Qed.

Lemma range_step_exact (k : nat) :
  range_step (8 * k) 8 = map (fun j => j * 8) (seq 0 k).
Proof.
  unfold range_step. f_equal. f_equal.
  replace (8 * k + 8 - 1) with (k * 8 + 7) by lia.
  rewrite Nat.div_add_l by lia. cbn. lia.
Qed.

(** X18. Packing composes over byte-aligned parts: when the first part
    has a multiple of 8 pixels, packing the concatenation is packing the
    parts one after the other.  (The rows of a panel whose width is a
    multiple of 8 therefore occupy bytes of their own.) *)
Theorem pack_pixels_app (a b : list Z) (k : nat) :
  length a = 8 * k ->
  pack_pixels (a ++ b) = pack_pixels a ++ pack_pixels b.
Proof.
  intros Ha. unfold pack_pixels.
  rewrite length_app, Ha, range_step_aligned, range_step_exact, map_app.
  f_equal.
  - rewrite !map_map. apply map_ext_in. intros j Hj.
    apply in_seq in Hj. apply pack_byte_ext. intros t Ht.
    rewrite app_nth1 by lia. reflexivity.
  - unfold range_step. replace (length b + 8 - 1) with (length b + 7) by lia.
    rewrite !map_map. apply map_ext. intros j.
    apply pack_byte_ext. intros t Ht.
    rewrite app_nth2 by lia. do 2 f_equal. lia.
Qed.

Lemma byte_bits_roundtrip (n : nat) :
  n < 256 ->
  pack_pixels (map pixel_of_bit (unpack_byte (Z.of_nat n))) = [Z.of_nat n].
Proof.
  intros Hn.
  do 256 (destruct n as [|n]; [vm_compute; reflexivity|]).
  lia.
Qed.

(** X19. Packing undoes unpacking: for every list of bytes, unpacking it
    to pixels (bit 7 first, 255 for a set bit) and packing those pixels
    gives the bytes back. *)
Theorem unpack_then_pack (bs : list Z) :
  forallb is_byte bs = true ->
  pack_pixels (map pixel_of_bit (unpack_bytes bs)) = bs.
Proof.
  induction bs as [|b bs IH]; intros Hb; [reflexivity|].
  cbn [forallb] in Hb. apply andb_true_iff in Hb. destruct Hb as (Hb & Hbs).
  unfold unpack_bytes. cbn [flat_map]. fold (unpack_bytes bs).
  rewrite map_app, (pack_pixels_app _ _ 1)
    by (unfold unpack_byte; rewrite !length_map, length_seq; reflexivity).
  rewrite (IH Hbs).
  unfold is_byte in Hb. apply andb_true_iff in Hb.
  destruct Hb as (H0 & H256). apply Z.leb_le in H0. apply Z.ltb_lt in H256.
  rewrite <- (Z2Nat.id b H0).
  rewrite byte_bits_roundtrip by lia. reflexivity.
Qed.

Lemma chunk_of_firstn (bytes_data : list Z) (i : nat) :
  chunk_of bytes_data i = firstn 28 (skipn (28 * i) bytes_data).
Proof.
  unfold chunk_of, slice, chunk_size.
  replace (i * 28) with (28 * i) by lia.
  set (l := skipn (28 * i) bytes_data).
  assert (Hl : length l = length bytes_data - 28 * i)
    by (unfold l; apply length_skipn).
  destruct (Nat.le_gt_cases 28 (length l)) as [Hle | Hgt].
  - f_equal. lia.
  - rewrite (firstn_all2 (n := 28)) by lia.
    apply firstn_all2. lia.
Qed.

Lemma concat_slices (n : nat) (l : list Z) :
  length l <= 28 * n ->
  concat (map (fun i => firstn 28 (skipn (28 * i) l)) (seq 0 n)) = l.
Proof.
  revert l. induction n as [|n IH]; intros l Hl.
  - destruct l; [reflexivity|cbn in Hl; lia].
  - change (seq 0 (S n)) with (0 :: seq 1 n). cbn [map concat].
    rewrite <- seq_shift, map_map.
    rewrite (map_ext (fun i => firstn 28 (skipn (28 * S i) l))
                     (fun i => firstn 28 (skipn (28 * i) (skipn 28 l)))).
    + rewrite IH by (rewrite length_skipn; lia).
      change (28 * 0) with 0. cbn [skipn]. apply firstn_skipn.
    + intros i. rewrite skipn_skipn. do 2 f_equal. lia.
Qed.

(** X20. The data chunks of a transfer are the packed bitmap cut in
    order, nothing lost and nothing repeated: concatenated they are the
    bitmap; and each chunk can be read back from its report, at offset 4,
    over the chunk's length. *)
Theorem chunks_reassemble (bytes_data : list Z) (oled_side : string) :
  concat (map (chunk_of bytes_data) (seq 0 (total_chunks bytes_data)))
  = bytes_data
  /\ forall i,
       firstn (length (chunk_of bytes_data i))
              (skipn 4 (chunk_command bytes_data oled_side i))
       = chunk_of bytes_data i.
Proof.
  split.
  - rewrite (map_ext _ (fun i => firstn 28 (skipn (28 * i) bytes_data)))
      by (intros i; apply chunk_of_firstn).
    apply concat_slices. apply total_chunks_bounds.
  - intros i. rewrite chunk_command_layout. cbn [app skipn].
    rewrite firstn_app, Nat.sub_diag, firstn_all. cbn [firstn].
    apply app_nil_r.
Qed.

(** X21. The payload never makes [bytes(command)] fail: every packed
    byte lies in [0, 255] whatever the pixel values, and the command of
    chunk i of a packed bitmap is accepted exactly when i is below
    256. *)
Theorem command_accepted_iff_index_fits (pixels : list Z)
    (oled_side : string) (i : nat) :
  Forall (fun b => (0 <= b < 256)%Z) (pack_pixels pixels)
  /\ forallb is_byte (chunk_command (pack_pixels pixels) oled_side i)
     = (i <? 256).
Proof.
  split.
  - apply Forall_forall. intros b Hb.
    pose proof (pack_pixels_bytes pixels) as Hall.
    rewrite forallb_forall in Hall. specialize (Hall b Hb).
    unfold is_byte in Hall. apply andb_true_iff in Hall.
    destruct Hall as (H0 & H1).
    apply Z.leb_le in H0. apply Z.ltb_lt in H1. lia.
  - apply chunk_command_bytes, pack_pixels_bytes.
Qed.

(** X22. The completion marker is not reserved: the report of data chunk
    255 carries 0xFF at offset 3 as well, and when that chunk holds only
    zero bytes its report is byte for byte the completion report. *)
Theorem data_chunk_can_equal_completion (bytes_data : list Z)
    (oled_side : string) :
  255 < total_chunks bytes_data ->
  Forall (fun b => b = 0%Z) (chunk_of bytes_data 255) ->
  nth 3 (chunk_command bytes_data oled_side 255) 0%Z = 0xFF%Z
  /\ chunk_command bytes_data oled_side 255 = completion_command oled_side.
Proof.
  intros _ Hz. rewrite chunk_command_layout.
  split; [reflexivity|].
  unfold completion_command. cbn [app]. do 4 f_equal.
  assert (Hlen : length (chunk_of bytes_data 255) <= 28)
    by (rewrite chunk_of_length; lia).
  assert (Hrep : chunk_of bytes_data 255
                 = repeat 0%Z (length (chunk_of bytes_data 255))).
  { clear Hlen. induction Hz as [|b l -> _ IH]; [reflexivity|].
    cbn [length repeat]. now rewrite <- IH. }
  rewrite Hrep at 1. rewrite <- repeat_app. f_equal. lia.
Qed.

End PackingMore.

(** ** The transfer on a device that answers *)

Section Responsive.

Context {W H : Type} {Api : HidApi W H}.

(** Every write succeeds and every read brings a non-empty report. *)
Hypothesis writes_succeed :
  forall (h : H) (report : list Z) (w : W), snd (hid_write h report w) = true.
Hypothesis reads_answer :
  forall (h : H) (size : nat) (w : W),
    exists b data, snd (fst (hid_read h size w)) = ReadData (b :: data).

Lemma read_answers (timeout : Z) (s : State W H) (h : H) :
  (0 < timeout)%Z ->
  device s = Some h ->
  exists s' resp,
    read_with_timeout timeout s = (s', Ok (Some resp))
    /\ device s' = Some h.
Proof.
  intros Ht Hd. unfold read_with_timeout, bind, time_time, read_fuel.
  rewrite read_loop_S, Z.sub_diag, (proj2 (Z.ltb_lt 0 timeout) Ht).
  destruct (poll_cases s)
    as [(Ed & _) | (h' & w' & r & d & Ed & Er & Ep)]; [congruence|].
  rewrite Ep.
  destruct (reads_answer h' 32 (world s)) as (b & data & Hr).
  rewrite Er in Hr. cbn [fst snd] in Hr. subst r.
  eexists _, (b :: data). split; [reflexivity|]. exact Hd.
Qed.

Lemma exchange_answers (kind : WriteKind) (command : list Z)
    (s : State W H) (h : H) :
  forallb is_byte command = true ->
  device s = Some h ->
  exists s' resp,
    exchange kind command 500 s = (s', Ok (Some resp))
    /\ device s' = Some h.
Proof.
  intros Hv Hd. rewrite exchange_run, Hv, Hd.
  pose proof (writes_succeed h command (world s)) as Hw.
  destruct (hid_write h command (world s)) as [w' ok].
  cbn [snd] in Hw. subst ok.
  apply read_answers; [lia|exact Hd].
Qed.

Lemma chunks_answer (bytes_data : list Z) (oled_side : string) (h : H)
    (n a : nat) (s : State W H) :
  forallb is_byte bytes_data = true ->
  device s = Some h ->
  a + n <= 256 ->
  exists s',
    for_each (seq a n) (send_chunk bytes_data oled_side) s = (s', Ok tt)
    /\ device s' = Some h.
Proof.
  intros Hbd. revert a s. induction n as [|n IH]; intros a s Hd Ha.
  - exists s. auto.
  - change (seq a (S n)) with (a :: seq (S a) n).
    rewrite for_each_cons, send_chunk_run.
    destruct (exchange_answers (DataChunk a)
                (chunk_command bytes_data oled_side a) s h)
      as (s1 & resp & E1 & D1); [|exact Hd|].
    { rewrite (chunk_command_bytes _ _ _ Hbd). apply Nat.ltb_lt. lia. }
    rewrite E1. apply IH; [exact D1|lia].
Qed.

(** X23. On a device whose writes succeed and whose reads answer, a
    transfer of at most 256 chunks goes through: [send_to_oled] returns
    True and has written every data chunk and the completion report. *)
Theorem responsive_transfer_succeeds (pixels : list Z) (oled_side : string)
    (s : State W H) (h : H) :
  device s = Some h ->
  total_chunks (pack_pixels pixels) <= 256 ->
  exists s' evs,
    send_to_oled pixels oled_side s = (s', Ok true)
    /\ trace s' = trace s ++ evs
    /\ writes_of evs = planned_writes (pack_pixels pixels) oled_side
    /\ messages_of evs = [].
Proof.
  intros Hd HN.
  destruct (send_to_oled_spec pixels oled_side s h Hd)
    as (s' & b & evs & m & E & T & _ & _ & _ & Hw & _ & _ & Ht & _).
  assert (Hb : b = true).
  { rewrite (send_to_oled_run _ _ _ _ Hd) in E.
    destruct (chunks_answer (pack_pixels pixels) oled_side h
                (total_chunks (pack_pixels pixels)) 0 s
                (pack_pixels_bytes pixels) Hd ltac:(lia))
      as (s1 & E1 & D1).
    rewrite E1 in E.
    destruct (exchange_answers Completion (completion_command oled_side)
                s1 h (completion_command_bytes oled_side) D1)
      as (s2 & resp & E2 & _).
    rewrite E2 in E. now injection E. }
  subst b. destruct (Ht eq_refl) as (-> & Hm).
  exists s', evs. rewrite firstn_planned_all in Hw. auto.
Qed.

(** X24. On such a device a bitmap of more than 256 chunks is cut off at
    the byte limit of the index: exactly the chunks 0..255 are written,
    then [send_to_oled] shows the generic send error and returns
    False. *)
Theorem responsive_oversized_cut_off (pixels : list Z) (oled_side : string)
    (s : State W H) (h : H) :
  device s = Some h ->
  256 < total_chunks (pack_pixels pixels) ->
  exists s' evs,
    send_to_oled pixels oled_side s = (s', Ok false)
    /\ trace s' = trace s ++ evs
    /\ writes_of evs
       = map (chunk_write (pack_pixels pixels) oled_side) (seq 0 256)
    /\ messages_of evs = [MsgSendFailed].
Proof.
  intros Hd HN.
  set (bd := pack_pixels pixels) in *.
  assert (Hbd : forallb is_byte bd = true) by apply pack_pixels_bytes.
  destruct (chunks_answer bd oled_side h 256 0 s Hbd Hd ltac:(lia))
    as (s1 & E1 & D1).
  destruct (send_chunks_spec bd oled_side 256 0 s)
    as (s1' & r1 & evs1 & m1 & E1' & T1 & _ & (_ & _ & Sm1) & _ & Wr1 & _
        & Hok1 & _).
  rewrite E1 in E1'. injection E1' as <- <-.
  specialize (Hok1 eq_refl). subst m1.
  assert (Hloop :
    for_each (seq 0 (total_chunks bd)) (send_chunk bd oled_side) s
    = (s1, Raise ValueError)).
  { rewrite (seq_split_at _ _ HN), for_each_app, E1, for_each_cons.
    rewrite send_chunk_run, exchange_run.
    rewrite (chunk_command_bytes _ _ _ Hbd). reflexivity. }
  rewrite (send_to_oled_run _ _ _ _ Hd). fold bd.
  rewrite Hloop, send_handler_run. cbn [handler_message].
  eexists _, (evs1 ++ [EvMessage MsgSendFailed]).
  split; [reflexivity|]. cbn [trace].
  split; [now rewrite T1, app_assoc|].
  split.
  - rewrite writes_of_app, Wr1. apply app_nil_r.
  - now rewrite messages_of_app, Sm1.
Qed.

End Responsive.

(** ** The apply buttons *)

Section Apply.

Context {W H : Type} {Api : HidApi W H}.

Lemma apply_run (attrs : Attrs) (key : string) (oled_side : string)
    (sent_notice missing_notice : Notice) (s : State W H) :
  exists s' o evs,
    match attrs key with
    | Some image =>
        bind (send_to_oled image oled_side)
             (fun sent : bool =>
                if sent then ret (Some sent_notice) else ret None)
    | None => ret (Some missing_notice)
    end s = (s', Ok o)
    /\ trace s' = trace s ++ evs
    /\ ((attrs key = None /\ o = Some missing_notice /\ evs = [] /\ s' = s)
        \/ (exists image,
              attrs key = Some image
              /\ ((o = Some sent_notice
                   /\ messages_of evs = []
                   /\ writes_of evs
                      = planned_writes (pack_pixels image) oled_side)
                  \/ (o = None /\ exists msg, messages_of evs = [msg])))).
Proof.
  destruct (attrs key) as [image|].
  - destruct (send_to_oled_writes image oled_side s)
      as (s' & b & evs & m & E & T & _ & _ & _ & Hw & _ & _ & Ht & Hf).
    unfold bind. rewrite E. destruct b.
    + destruct (Ht eq_refl) as (-> & Hm).
      exists s', (Some sent_notice), evs.
      split; [reflexivity|]. split; [exact T|].
      right. exists image. split; [reflexivity|]. left.
      rewrite firstn_planned_all in Hw. auto.
    + exists s', None, evs.
      split; [reflexivity|]. split; [exact T|].
      right. exists image. split; [reflexivity|]. right. auto.
  - exists s, (Some missing_notice), [].
    split; [reflexivity|]. split; [now rewrite app_nil_r|].
    left. auto.
Qed.

(** X25. Each of the two apply buttons shows exactly one message box per
    click.  Without a stored image it is the warning, and the device is
    not touched.  With one, the stored image is transferred: the success
    box appears only after every planned report was written and no error
    was shown; otherwise the only box is the error of [send_to_oled]. *)
Theorem apply_shows_one_message (attrs : Attrs) (oled_side : string)
    (s : State W H) :
  (exists s' o evs,
     apply_text_to_oled attrs oled_side s = (s', Ok o)
     /\ trace s' = trace s ++ evs
     /\ ((attrs (text_image_attr oled_side) = None
          /\ o = Some NoticePreviewFirst /\ evs = [] /\ s' = s)
         \/ (exists image,
               attrs (text_image_attr oled_side) = Some image
               /\ ((o = Some (NoticeTextSent oled_side)
                    /\ messages_of evs = []
                    /\ writes_of evs
                       = planned_writes (pack_pixels image) oled_side)
                   \/ (o = None /\ exists msg, messages_of evs = [msg])))))
  /\ (exists s' o evs,
        apply_image_to_oled attrs oled_side s = (s', Ok o)
        /\ trace s' = trace s ++ evs
        /\ ((attrs (image_attr oled_side) = None
             /\ o = Some NoticeSelectFirst /\ evs = [] /\ s' = s)
            \/ (exists image,
                  attrs (image_attr oled_side) = Some image
                  /\ ((o = Some (NoticeImageSent oled_side)
                       /\ messages_of evs = []
                       /\ writes_of evs
                          = planned_writes (pack_pixels image) oled_side)
                      \/ (o = None
                          /\ exists msg, messages_of evs = [msg]))))).
Proof.
  split.
  - apply (apply_run attrs (text_image_attr oled_side) oled_side
             (NoticeTextSent oled_side) NoticePreviewFirst s).
  - apply (apply_run attrs (image_attr oled_side) oled_side
             (NoticeImageSent oled_side) NoticeSelectFirst s).
Qed.

End Apply.

(** ** Further runs on the simulated devices *)

Lemma read_timeout_not_early_witness :
  exists s',
    read_with_timeout 500 unanswered = (s', Ok None)
    /\ (500 <= clock s' - clock unanswered)%Z.
Proof.
  pose (s' := fst (read_with_timeout 500 unanswered)).
  assert (E : read_with_timeout 500 unanswered = (s', Ok None)).
  { vm_compute. reflexivity. }
  exists s'. split; [exact E|].
  exact (read_timeout_not_early 500 unanswered s' E).
Defined.


Lemma connect_handle_balance_witness :
  exists s' evs,
    connect_hid (sim_state sim_keyboard None) = (s', Ok tt)
    /\ trace s' = trace (sim_state sim_keyboard None) ++ evs
    /\ opened_handles evs = closes_of evs ++ held (device s').
Proof.
  exact (connect_handle_balance (sim_state sim_keyboard None) eq_refl).
Defined.

Lemma connect_one_message_witness :
  exists s' evs,
    connect_hid (sim_state sim_silent None) = (s', Ok tt)
    /\ trace s' = trace (sim_state sim_silent None) ++ evs
    /\ device s' = None
    /\ messages_of evs = [MsgNotFound].
Proof.
  destruct (connect_one_message (sim_state sim_silent None) eq_refl)
    as (s' & evs & E & T & Hc).
  exists s', evs. split; [exact E|]. split; [exact T|].
  assert (Hs : s' = fst (connect_hid (sim_state sim_silent None)))
    by (rewrite E; reflexivity).
  assert (Hd : device s' = None) by (rewrite Hs; vm_compute; reflexivity).
  split; [exact Hd|].
  assert (Hm : messages_of (trace s') = [MsgNotFound])
    by (rewrite Hs; vm_compute; reflexivity).
  rewrite T in Hm. exact Hm.
Defined.

Lemma connect_not_found_witness :
  exists s' (evs : list (Event Path)),
    connect_hid (sim_state sim_silent (Some "hid0"%string)) = (s', Ok tt)
    /\ device s' = None
    /\ opens_of evs = ["hid0"%string].
Proof.
  pose (start := sim_state sim_silent (Some "hid0"%string)).
  pose (s1 := fst (connect_loop [{| path := "hid0"%string |}]
                     (enumerated sim_silent true start))).
  destruct (connect_not_found [{| path := "hid0"%string |}] start
              sim_silent s1)
    as (s' & evs & E & D & _ & O & _).
  - right. discriminate.
  - reflexivity.
  - vm_compute. reflexivity.
  - exists s', evs. auto.
Defined.

Lemma connect_enumerate_fails_witness :
  exists s',
    connect_hid (scripted_state []) = (s', Ok tt)
    /\ device s' = None
    /\ trace s' = [EvEnumerate false; EvMessage MsgConnectFailed;
                   EvClose tt].
Proof.
  destruct (connect_enumerate_fails (scripted_state []) [])
    as (s' & E & D & T).
  - reflexivity.
  - exists s'. auto.
Defined.

Lemma reconnect_leaves_old_handle_open_witness :
  exists s1 evs,
    connect_hid (echo_state (Some tt)) = (s1, Ok tt)
    /\ trace s1 = trace (echo_state (Some tt)) ++ evs
    /\ closes_of evs = [].
Proof.
  pose (start := echo_state (Some tt)).
  pose (s1 := fst (probe {| path := "echo"%string |}
                     (enumerated tt true start))).
  destruct (reconnect_leaves_old_handle_open {| path := "echo"%string |} []
              start tt tt s1)
    as (E & evs & h & T & C & _).
  - reflexivity.
  - reflexivity.
  - vm_compute. reflexivity.
  - exists s1, evs. auto.
Defined.

Lemma connect_empty_enumeration_silent_witness :
  connect_hid (sim_state sim_absent (Some "hid2"%string))
  = (enumerated sim_absent true (sim_state sim_absent (Some "hid2"%string)),
     Ok tt).
Proof.
  exact (proj1 (connect_empty_enumeration_silent
                  (sim_state sim_absent (Some "hid2"%string))
                  "hid2"%string sim_absent eq_refl eq_refl)).
Defined.

Lemma connect_then_cleanup_closes_all_witness :
  exists s1 s2 evs,
    connect_hid (sim_state sim_keyboard None) = (s1, Ok tt)
    /\ cleanup s1 = (s2, Ok tt)
    /\ trace s2 = trace (sim_state sim_keyboard None) ++ evs
    /\ opened_handles evs = closes_of evs.
Proof.
  destruct (connect_then_cleanup_closes_all (sim_state sim_keyboard None)
              eq_refl)
    as (s1 & s2 & evs & E1 & E2 & T & B & _).
  exists s1, s2, evs. auto.
Defined.

Lemma send_keeps_device_witness :
  exists s' b evs,
    send_to_oled [255%Z] "left"%string unanswered = (s', Ok b)
    /\ trace s' = trace unanswered ++ evs
    /\ device s' = Some "hid0"%string
    /\ Forall (on_handle "hid0"%string) evs.
Proof.
  exact (send_keeps_device [255%Z] "left"%string unanswered "hid0"%string
           eq_refl).
Defined.

Lemma send_success_events_witness :
  exists s' blocks last,
    send_to_oled (repeat 255%Z 240) "left"%string connected = (s', Ok true)
    /\ trace s' = trace connected ++ concat blocks ++ last
    /\ length blocks = 2.
Proof.
  pose (s' := fst (send_to_oled (repeat 255%Z 240) "left"%string connected)).
  assert (E : send_to_oled (repeat 255%Z 240) "left"%string connected
              = (s', Ok true)).
  { vm_compute. reflexivity. }
  destruct (send_success_events (repeat 255%Z 240) "left"%string connected
              s' "hid2"%string eq_refl E)
    as (blocks & last & T & B & _).
  exists s', blocks, last. split; [exact E|]. split; [exact T|].
  apply Forall2_length in B. rewrite <- B, length_seq.
  vm_compute. reflexivity.
Defined.

Lemma write_failure_aborts_witness :
  exists s',
    send_to_oled [255%Z] "left"%string (scripted_state []) = (s', Ok false)
    /\ messages_of (trace s') = [MsgSendFailed]
    /\ reads_of (trace s') = 0.
Proof.
  destruct (write_failure_aborts [255%Z] "left"%string (scripted_state [])
              tt 0 (scripted_state []) [])
    as (s' & E & T).
  - reflexivity.
  - vm_compute. lia.
  - lia.
  - reflexivity.
  - reflexivity.
  - exists s'. split; [exact E|]. rewrite T. split; reflexivity.
Defined.

Lemma completion_timeout_witness :
  exists s' evs,
    send_to_oled [] "left"%string unanswered = (s', Ok false)
    /\ trace s' = trace unanswered ++ evs
    /\ messages_of evs = [MsgCompletionTimeout].
Proof.
  pose (s_t := fst (read_with_timeout 500
                      (written Completion (completion_command "left"%string)
                               "hid0"%string sim_silent true unanswered))).
  destruct (completion_timeout [] "left"%string unanswered "hid0"%string
              unanswered sim_silent s_t)
    as (s' & evs & E & T & _ & M).
  - reflexivity.
  - reflexivity.
  - reflexivity.
  - vm_compute. reflexivity.
  - exists s', evs. auto.
Defined.

Lemma pack_depends_on_tests_witness :
  pack_pixels [1; 0; 7; -3]%Z = pack_pixels [255; 0; 255; 0]%Z.
Proof.
  exact (pack_depends_on_tests [1; 0; 7; -3]%Z [255; 0; 255; 0]%Z eq_refl).
Defined.

Lemma pack_pixels_app_witness :
  pack_pixels (repeat 255%Z 8 ++ [255; 0; 255]%Z)
  = pack_pixels (repeat 255%Z 8) ++ pack_pixels [255; 0; 255]%Z.
Proof.
  exact (pack_pixels_app (repeat 255%Z 8) [255; 0; 255]%Z 1 eq_refl).
Defined.

Lemma unpack_then_pack_witness :
  pack_pixels (map pixel_of_bit (unpack_bytes [0x98; 0x80; 0xFF]%Z))
  = [0x98; 0x80; 0xFF]%Z.
Proof.
  exact (unpack_then_pack [0x98; 0x80; 0xFF]%Z eq_refl).
Defined.

Lemma data_chunk_can_equal_completion_witness :
  let bytes_data := repeat 0%Z (256 * 28) in
  chunk_command bytes_data "left"%string 255
  = completion_command "left"%string.
Proof.
  intros bytes_data.
  assert (HN : 255 < total_chunks bytes_data) by (vm_compute; lia).
  assert (Hz : Forall (fun b => b = 0%Z) (chunk_of bytes_data 255)).
  { assert (Hc : chunk_of bytes_data 255 = repeat 0%Z 28)
      by (vm_compute; reflexivity).
    rewrite Hc. repeat constructor. }
  exact (proj2 (data_chunk_can_equal_completion bytes_data "left"%string
                  HN Hz)).
Defined.

Lemma responsive_transfer_succeeds_witness :
  exists s' evs,
    send_to_oled (repeat 255%Z 240) "right"%string (echo_state (Some tt))
    = (s', Ok true)
    /\ trace s' = trace (echo_state (Some tt)) ++ evs
    /\ messages_of evs = [].
Proof.
  destruct (responsive_transfer_succeeds (Api := echo_api)
              (fun _ _ _ => eq_refl)
              (fun _ _ _ =>
                 ex_intro _ 0x01%Z
                   (ex_intro _ [0x00%Z; VIA_PROTOCOL_VERSION] eq_refl))
              (repeat 255%Z 240) "right"%string (echo_state (Some tt)) tt
              eq_refl)
    as (s' & evs & E & T & _ & M).
  - vm_compute. lia.
  - exists s', evs. auto.
Defined.

Lemma responsive_oversized_cut_off_witness :
  let pixels := repeat 0%Z (257 * 224) in
  exists s' evs,
    send_to_oled pixels "right"%string (echo_state (Some tt))
    = (s', Ok false)
    /\ trace s' = trace (echo_state (Some tt)) ++ evs
    /\ messages_of evs = [MsgSendFailed].
Proof.
  intros pixels.
  assert (HN : total_chunks (pack_pixels pixels) = 257).
  { unfold pixels. rewrite pack_pixels_zeros. vm_compute. reflexivity. }
  clearbody pixels.
  destruct (responsive_oversized_cut_off (Api := echo_api)
              (fun _ _ _ => eq_refl)
              (fun _ _ _ =>
                 ex_intro _ 0x01%Z
                   (ex_intro _ [0x00%Z; VIA_PROTOCOL_VERSION] eq_refl))
              pixels "right"%string (echo_state (Some tt)) tt
              eq_refl ltac:(lia))
    as (s' & evs & E & T & _ & M).
  exists s', evs. auto.
Defined.

(** ** The number of chunks a transfer sends *)

Section ChunkCount.

Context {W H : Type} {Api : HidApi W H}.

(** Every write succeeds and every read brings a non-empty report. *)
Hypothesis writes_succeed :
  forall (h : H) (report : list Z) (w : W), snd (hid_write h report w) = true.
Hypothesis reads_answer :
  forall (h : H) (size : nat) (w : W),
    exists b data, snd (fst (hid_read h size w)) = ReadData (b :: data).


End ChunkCount.



Lemma protocol_version_probe_witness :
  exists s_r,
    get_protocol_version connected = (s_r, Ok (Some VIA_PROTOCOL_VERSION)).
Proof.
  pose (w' := fst (hid_write "hid2"%string version_command
                     (world connected))).
  pose (s_r := fst (read_with_timeout 1000
                      (written VersionQuery version_command "hid2"%string
                               w' true connected))).
  exists s_r.
  refine (proj1 (proj1 (protocol_version_probe connected)
                   "hid2"%string w' s_r (sim_reply version_command)
                   eq_refl eq_refl _) _).
  - vm_compute. reflexivity.
  - vm_compute. lia.
Defined.

Lemma panel_selector_unvalidated_witness :
  exists s' evs,
    send_to_oled (repeat 255%Z 240) "lfet"%string connected = (s', Ok true)
    /\ trace s' = trace connected ++ evs
    /\ Forall (fun w => nth 2 (snd w) 0%Z = 0x02%Z) (writes_of evs)
    /\ send_to_oled (repeat 255%Z 240) "lfet"%string connected
       = send_to_oled (repeat 255%Z 240) "right"%string connected.
Proof.
  destruct (panel_selector_unvalidated (repeat 255%Z 240) "lfet"%string
              connected "hid2"%string eq_refl)
    as (s' & b & evs & E & T & _ & Hf & _ & Hsame & _).
  assert (Hb : b = true).
  { apply (f_equal snd) in E. vm_compute in E. now injection E. }
  subst b. exists s', evs.
  split; [exact E|]. split; [exact T|]. split; [exact Hf|].
  apply Hsame. discriminate.
Defined.
